(** * pyMor grids: reference elements and the rectangular grid

    A shallow embedding of [pymor/grid/referenceelements.py] and
    [pymor/grids/rect.py].

    Conventions of the embedding:
    - Python integers (codimensions, interval counts, sizes) are [Z];
      numpy [int32] arrays are lists of [Z] whose arithmetic wraps around
      ([Np.int32]).
    - numpy [float64] arrays are lists of real numbers: all geometry is
      stated in exact arithmetic.
    - A Python call either returns a value or raises: [Py.result].
      [assert cond, msg] raises [AssertionError] carrying the evaluated
      message; evaluating the message can itself raise. *)

From Stdlib Require Import String.
From Stdlib Require Import Reals Lra Psatz ZArith Lia Bool List Permutation.
Import ListNotations.

(** ** Python values, exceptions and calls *)

Module Py.

  (** An unevaluated ['...{}...'.format(args)]. *)
Record str_format := Format { template : string; format_args : list Z }.

Inductive exception : Type :=
  | CodimError (msg : str_format)
  | AssertionError (arg : exception)
  | NameError (name : string)
  | TypeError (msg : string)
  | ValueError (msg : string)
  | LookupError (msg : string).

Inductive result (A : Type) : Type :=
  | Ok (a : A)
  | Raise (e : exception).

Arguments Ok {A} a.
Arguments Raise {A} e.

Definition bind {A B : Type} (m : result A) (k : A -> result B) : result B :=
    match m with
    | Ok a => k a
    | Raise e => Raise e
    end.

Definition fmap {A B : Type} (f : A -> B) (m : result A) : result B :=
    bind m (fun a => Ok (f a)).

  (** [assert cond, msg]: the message is evaluated only when [cond] fails. *)
Definition assert_ (cond : bool) (msg : result exception) : result unit :=
    if cond then Ok tt
    else match msg with
         | Ok e => Raise (AssertionError e)
         | Raise e => Raise e
         end.

  (** Reading a name that is bound neither locally nor at module level. *)
Definition unbound_name (name : string) : result Z := Raise (NameError name).

  (** [for x in xs: ...] collecting results, stopping at the first raise. *)
Fixpoint traverse {A B : Type} (f : A -> result B) (xs : list A) : result (list B) :=
    match xs with
    | [] => Ok []
    | x :: xs' => bind (f x) (fun y => bind (traverse f xs') (fun ys => Ok (y :: ys)))
    end.

Definition raises {A : Type} (m : result A) : Prop := exists e, m = Raise e.

  (** The failure the specification calls [InvalidCodimension]: a failed
      codimension assertion, whose message is a [CodimError]. *)
Definition is_InvalidCodimension (e : exception) : bool :=
    match e with
    | AssertionError (CodimError _) => true
    | _ => false
    end.

Definition raises_InvalidCodimension {A : Type} (m : result A) : Prop :=
    exists e, m = Raise e /\ is_InvalidCodimension e = true.

End Py.

Import Py.

Declare Scope py_scope.
Delimit Scope py_scope with py.
Notation "x <- m ;; k" := (Py.bind m (fun x => k))
  (at level 61, m at next level, right associativity) : py_scope.
Notation "m ;;; k" := (Py.bind m (fun _ => k))
  (at level 61, right associativity) : py_scope.

(** ** The numpy operations the sources use *)

Module Np.

  (** Arrays of rank one, two and three, as nested lists. *)
Inductive ndarray (T : Type) : Type :=
  | Arr1 (v : list T)
  | Arr2 (m : list (list T))
  | Arr3 (t : list (list (list T))).

Arguments Arr1 {T} v.
Arguments Arr2 {T} m.
Arguments Arr3 {T} t.

  (** Wrap-around of [int32] arithmetic. *)
Definition int32 (z : Z) : Z := ((z + 2147483648) mod 4294967296 - 2147483648)%Z.

  (** [np.arange(n)] *)
Definition arange (n : Z) : list Z := map Z.of_nat (seq 0 (Z.to_nat n)).

  (** What may be passed as the [dtype] argument. *)
Inductive dtype_like : Type :=
  | dtype_name (s : string)
  | dtype_of_floats (l : list R).

  (** Interpretation of a [dtype] argument: a list of floats describes no
      data type. *)
Definition as_dtype (d : dtype_like) : result string :=
    match d with
    | dtype_name s => Ok s
    | dtype_of_floats _ => Raise (TypeError "data type not understood")
    end.

  (** [np.array(object, dtype)] on float data; the second positional
      parameter of [np.array] is [dtype]. *)
Definition array (object : ndarray R) (dtype : option dtype_like) : result (ndarray R) :=
    match dtype with
    | None => Ok object
    | Some d => Py.bind (as_dtype d) (fun _ => Ok object)
    end.

(** Column [c] of a matrix given by its rows, and the transpose. *)
Definition column {T : Type} (d : T) (c : nat) (M : list (list T)) : list T :=
  map (fun row => nth c row d) M.

Definition ncols {T : Type} (M : list (list T)) : nat :=
  match M with
  | [] => O
  | row :: _ => length row
  end.

Definition transpose {T : Type} (d : T) (M : list (list T)) : list (list T) :=
  map (fun c => column d c M) (seq 0 (ncols M)).

(** [np.meshgrid(x, y)]: both results have [len(y)] rows of length [len(x)]. *)
Definition meshgrid {T : Type} (x y : list T) : list (list T) * list (list T) :=
  (map (fun _ => x) y, map (fun yj => map (fun _ => yj) x) y).

Section Real.
Local Open Scope R_scope.

Definition sum (v : list R) : R := fold_right Rplus 0 v.

(** Inner product of two rank-one arrays of the same length. *)
Fixpoint vdot (u v : list R) : R :=
  match u, v with
  | x :: u', y :: v' => x * y + vdot u' v'
  | _, _ => 0
  end.

(** [np.linalg.norm] of a rank-one array. *)
Definition norm (v : list R) : R := sqrt (sum (map (fun x => x * x) v)).

Fixpoint vadd (u v : list R) : list R :=
  match u, v with
  | x :: u', y :: v' => (x + y) :: vadd u' v'
  | _, _ => []
  end.

Fixpoint vsub (u v : list R) : list R :=
  match u, v with
  | x :: u', y :: v' => (x - y) :: vsub u' v'
  | _, _ => []
  end.

Definition vscale (c : R) (v : list R) : list R := map (fun x => c * x) v.

(** Matrix times vector, the matrix given by its rows. *)
Definition matvec (M : list (list R)) (v : list R) : list R :=
  map (fun row => vdot row v) M.

(** Matrix product; [N] has as many rows as [M] has columns. *)
Definition matmul (M N : list (list R)) : list (list R) :=
  map (fun row => map (fun c => vdot row (column 0 c N)) (seq 0 (ncols N))) M.

(** [np.dot(A, v)] for a batch [A] of matrices and a rank-one [v]: the
last axis of [A] must have the length of [v]. *)
Definition dot (A : list (list (list R))) (v : list R) : result (list (list R)) :=
  if forallb (forallb (fun row => Nat.eqb (length row) (length v))) A
  then Ok (map (fun M => matvec M v) A)
  else Raise (ValueError "shapes not aligned").

(** [np.apply_along_axis(np.linalg.norm, -1, V)] for a batch [V] of
rank-one arrays: the batch must hold at least one array to iterate over. *)
Definition norm_along_last_axis (V : list (list R)) : result (list R) :=
  match V with
  | [] => Raise (ValueError "Cannot apply_along_axis when any iteration dimensions are 0")
  | _ => Ok (map norm V)
  end.

(** [np.diag] of a rank-one array of length two. *)
Definition diag2 (d0 d1 : R) : list (list R) := [[d0; 0]; [0; d1]].

End Real.

End Np.

Import Np.

(** ** Default implementations (pymor/grids/defaultimpl.py) *)

Module DefaultImpl.

Local Open Scope py_scope.

(** First row of an incidence table that contains [s], with the position
of [s] in that row: the superentity with smallest index and the local
index of [s] in it. *)
Fixpoint index_of (s : Z) (row : list Z) : option nat :=
match row with
| [] => None
| x :: row' => if Z.eqb x s then Some O else option_map S (index_of s row')
end.

Fixpoint first_superentity (s : Z) (table : list (list Z)) : option (nat * nat) :=
match table with
| [] => None
| row :: table' =>
    match index_of s row with
    | Some l => Some (O, l)
    | None => option_map (fun el => (S (fst el), snd el)) (first_superentity s table')
    end
end.

(** Modelled from the spec: the body of [_subentity_embedding] of
[SimpleReferenceElementDefaultImplementations] is missing; its docstring
in [ReferenceElementInterface.subentity_embedding] says that for
[subentity_codim > 1] the embedding is given recursively via
[subentity_embedding(subentity_codim - 1)] (here [A], [B]) and
[sub_reference_element(subentity_codim - 1).subentity_embedding(1)]
(here [SA], [SB]), choosing always the superentity with smallest index
(looked up in [table = subentities(subentity_codim - 1, subentity_codim)]);
[count] is [size(subentity_codim)]. *)
Definition _subentity_embedding
  (A : list (list (list R))) (B : list (list R))
  (SA : list (list (list R))) (SB : list (list R))
  (table : list (list Z)) (count : Z)
  : result (list (list (list R)) * list (list R)) :=
  AB <- Py.traverse
          (fun s =>
             match first_superentity s table with
             | None => Raise (LookupError "subentity without superentity")
             | Some (e, l) =>
                 let Ae := nth e A [] in
                 Ok (Np.matmul Ae (nth l SA []),
                     Np.vadd (Np.matvec Ae (nth l SB [])) (nth e B []))
             end)
          (Np.arange count) ;;
  Ok (map fst AB, map snd AB).

End DefaultImpl.

(** ** Reference elements (pymor/grid/referenceelements.py) *)

(** The three classes, each with its single module-level instance. *)
Inductive ReferenceElement : Type := point | line | square.

Module Point.

Local Open Scope py_scope.
Local Open Scope Z_scope.

Definition dim : Z := 0.
Definition volume : R := 1%R.

Definition size (codim : Z) : result Z :=
  Py.assert_ (codim =? 0)
    (Ok (CodimError (Format "Invalid codimension (must be 0 but was {})" [codim]))) ;;;
  Ok 1.

Definition subentities (codim subentity_codim : Z) : result (ndarray Z) :=
  Py.assert_ (codim =? 0)
    (Ok (CodimError (Format "Invalid codimension (must be 0 but was {})" [codim]))) ;;;
  Py.assert_ (subentity_codim =? 0)
    (Ok (CodimError (Format "Invalid subentity codimension (must be 0 but was {})"
                       [subentity_codim]))) ;;;
  Ok (Arr1 [0]).

(** The assertion message formats [codim], a name this method does not
bind (its parameter is [subentity_codim]). *)
Definition subentity_embedding (subentity_codim : Z) : result (ndarray R * ndarray R) :=
  Py.assert_ (subentity_codim =? 0)
    (codim <- Py.unbound_name "codim" ;;
     Ok (CodimError (Format "Invalid codimension (must be 0 but was {})" [codim]))) ;;;
  Ok (Arr2 [], Arr1 []).

Definition sub_reference_element (codim : Z) : result ReferenceElement :=
  Py.assert_ (codim =? 0)
    (Ok (CodimError (Format "Invalid codimension (must be 0 but was {})" [codim]))) ;;;
  Ok point.

Definition unit_outer_normals : result (ndarray R) := Ok (Arr1 []).

Definition center : list R := [].

(** [np.ones(A.shape[:-2])] for a batch [A] of matrices. *)
Definition mapped_diameter (A : list (list (list R))) : list R :=
  map (fun _ => 1%R) A.

End Point.

Module Line.

Local Open Scope py_scope.
Local Open Scope Z_scope.

Definition dim : Z := 1.
Definition volume : R := 1%R.

Definition size (codim : Z) : result Z :=
  Py.assert_ ((0 <=? codim) && (codim <=? 1))
    (Ok (CodimError (Format "Invalid codimension (must be 0 or 1 but was {})" [codim]))) ;;;
  if codim =? 0 then Ok 1 else Ok 2.

Definition subentities (codim subentity_codim : Z) : result (ndarray Z) :=
  Py.assert_ ((0 <=? codim) && (codim <=? 1))
    (Ok (CodimError (Format "Invalid codimension (must be 0 or 1 but was {})" [codim]))) ;;;
  Py.assert_ ((codim <=? subentity_codim) && (subentity_codim <=? 1))
    (Ok (CodimError (Format "Invalid codimension (must be between {} and 1 but was {})"
                       [codim; subentity_codim]))) ;;;
  if codim =? 0 then
    n <- size subentity_codim ;; Ok (Arr1 (Np.arange n))
  else Ok (Arr2 [[0]; [1]]).

Definition subentity_embedding (subentity_codim : Z) : result (ndarray R * ndarray R) :=
  Py.assert_ ((0 <=? subentity_codim) && (subentity_codim <=? 1))
    (Ok (CodimError (Format "Invalid codimension (must be 0 or 1 but was {})"
                       [subentity_codim]))) ;;;
  if subentity_codim =? 0 then Ok (Arr1 [1%R], Arr1 [0%R])
  else Ok (Arr3 [[[]]; [[]]], Arr2 [[0%R]; [1%R]]).

Definition sub_reference_element (codim : Z) : result ReferenceElement :=
  Py.assert_ ((0 <=? codim) && (codim <=? 1))
    (Ok (CodimError (Format "Invalid codimension (must be 0 or 1 but was {})" [codim]))) ;;;
  if codim =? 0 then Ok line else Ok point.

(** [np.array([-1.], [1.])]: the second list lands in [dtype]. *)
Definition unit_outer_normals : result (ndarray R) :=
  Np.array (Arr1 [(-1)%R]) (Some (dtype_of_floats [1%R])).

Definition center : list R := [(1/2)%R].

(** [np.apply_along_axis(np.linalg.norm, -2, A)]: for every matrix of the
batch, the norm of each of its columns.  The call raises when there is
nothing to iterate over: an empty batch, or matrices without columns (a
matrix without rows is read as one without columns). *)
Definition mapped_diameter (A : list (list (list R))) : result (list (list R)) :=
  if Nat.eqb (length A) 0 || existsb (fun M => Nat.eqb (Np.ncols M) 0) A
  then Raise (ValueError "Cannot apply_along_axis when any iteration dimensions are 0")
  else Ok (map (fun M => map (fun c => Np.norm (Np.column 0%R c M))
                           (seq 0 (Np.ncols M))) A).

End Line.

Module Square.

Local Open Scope py_scope.
Local Open Scope Z_scope.

Definition dim : Z := 2.
Definition volume : R := 1%R.

(** The chain [if codim == 0 ... elif codim == 1 ... elif codim == 2] has
no [else]; the assertion leaves no other value. *)
Definition size (codim : Z) : result Z :=
  Py.assert_ ((0 <=? codim) && (codim <=? 2))
    (Ok (CodimError (Format "Invalid codimension (must be between 0 and 2 but was {})"
                       [codim]))) ;;;
  if codim =? 0 then Ok 1
  else if codim =? 1 then Ok 4
  else Ok 4.

Definition subentities (codim subentity_codim : Z) : result (ndarray Z) :=
  Py.assert_ ((0 <=? codim) && (codim <=? 2))
    (Ok (CodimError (Format "Invalid codimension (must be between 0 and 2 but was {})"
                       [codim]))) ;;;
  Py.assert_ ((codim <=? subentity_codim) && (subentity_codim <=? 2))
    (Ok (CodimError (Format "Invalid codimension (must be between {} and 2 but was {})"
                       [codim; subentity_codim]))) ;;;
  if codim =? 0 then
    n <- size subentity_codim ;; Ok (Arr1 (Np.arange n))
  else if codim =? 1 then
    if subentity_codim =? 1 then Ok (Arr2 [[0]; [1]; [2]; [3]])
    else Ok (Arr2 [[0; 1]; [1; 2]; [2; 3]; [3; 0]])
  else Ok (Arr2 [[0]; [1]; [2]; [3]]).

(** The canonical embeddings of the four edges. *)
Definition edge_A : list (list (list R)) :=
  [ [[1]; [0]]; [[0]; [1]]; [[-1]; [0]]; [[0]; [-1]] ]%R.

Definition edge_B : list (list R) :=
  [ [0; 0]; [1; 0]; [1; 1]; [0; 1] ]%R.

(** For [subentity_codim == 2] the method defers to the inherited default,
which composes the edge embeddings with those of the line's end points. *)
Definition subentity_embedding (subentity_codim : Z) : result (ndarray R * ndarray R) :=
  Py.assert_ ((0 <=? subentity_codim) && (subentity_codim <=? 2))
    (Ok (CodimError (Format "Invalid codimension (must betwen 0 and 2 but was {})"
                       [subentity_codim]))) ;;;
  if subentity_codim =? 0 then Ok (Arr2 [[1; 0]; [0; 1]]%R, Arr1 [0; 0]%R)
  else if subentity_codim =? 1 then Ok (Arr3 edge_A, Arr2 edge_B)
  else
    AB <- DefaultImpl._subentity_embedding edge_A edge_B
            [[[]]; [[]]] [[0%R]; [1%R]]
            [[0; 1]; [1; 2]; [2; 3]; [3; 0]] 4 ;;
    Ok (Arr3 (fst AB), Arr2 (snd AB)).

Definition sub_reference_element (codim : Z) : result ReferenceElement :=
  Py.assert_ ((0 <=? codim) && (codim <=? 2))
    (Ok (CodimError (Format "Invalid codimension (must be between 0 and 2 but was {})"
                       [codim]))) ;;;
  if codim =? 0 then Ok square
  else if codim =? 1 then Ok line
  else Ok point.

Definition unit_outer_normals : result (ndarray R) :=
  Ok (Arr2 [ [0; -1]; [1; 0]; [0; 1]; [-1; 0] ]%R).

Definition center : list R := [(1/2)%R; (1/2)%R].

(** [V0 = np.dot(A, [1, 1])], [V1 = np.dot(A, [1, -1])], then the larger
of the two norms, matrix by matrix; [np.apply_along_axis] raises on an
empty batch. *)
Definition mapped_diameter (A : list (list (list R))) : result (list R) :=
  V0 <- Np.dot A [1; 1]%R ;;
  V1 <- Np.dot A [1; -1]%R ;;
  VN0 <- Np.norm_along_last_axis V0 ;;
  VN1 <- Np.norm_along_last_axis V1 ;;
  Ok (map (fun p => Rmax (fst p) (snd p)) (combine VN0 VN1)).

End Square.

(** Dispatch on the instance, as a method call on a reference element does. *)
Module RE.

Definition dim (r : ReferenceElement) : Z :=
  match r with
  | point => Point.dim
  | line => Line.dim
  | square => Square.dim
  end.

Definition volume (r : ReferenceElement) : R :=
  match r with
  | point => Point.volume
  | line => Line.volume
  | square => Square.volume
  end.

Definition size (r : ReferenceElement) (codim : Z) : result Z :=
  match r with
  | point => Point.size codim
  | line => Line.size codim
  | square => Square.size codim
  end.

Definition subentities (r : ReferenceElement) (codim subentity_codim : Z)
  : result (ndarray Z) :=
  match r with
  | point => Point.subentities codim subentity_codim
  | line => Line.subentities codim subentity_codim
  | square => Square.subentities codim subentity_codim
  end.

Definition subentity_embedding (r : ReferenceElement) (subentity_codim : Z)
  : result (ndarray R * ndarray R) :=
  match r with
  | point => Point.subentity_embedding subentity_codim
  | line => Line.subentity_embedding subentity_codim
  | square => Square.subentity_embedding subentity_codim
  end.

Definition sub_reference_element (r : ReferenceElement) (codim : Z)
  : result ReferenceElement :=
  match r with
  | point => Point.sub_reference_element codim
  | line => Line.sub_reference_element codim
  | square => Square.sub_reference_element codim
  end.

Definition unit_outer_normals (r : ReferenceElement) : result (ndarray R) :=
  match r with
  | point => Point.unit_outer_normals
  | line => Line.unit_outer_normals
  | square => Square.unit_outer_normals
  end.

Definition center (r : ReferenceElement) : list R :=
  match r with
  | point => Point.center
  | line => Line.center
  | square => Square.center
  end.

Definition mapped_diameter (r : ReferenceElement) (A : list (list (list R)))
  : result (ndarray R) :=
  match r with
  | point => Ok (Arr1 (Point.mapped_diameter A))
  | line => Py.fmap Arr2 (Line.mapped_diameter A)
  | square => Py.fmap Arr1 (Square.mapped_diameter A)
  end.

End RE.

(** ** The rectangular grid (pymor/grids/rect.py) *)

Module Rect.

Local Open Scope py_scope.

(** The attributes [__init__] sets; [domain] is [(ll, ur)]. *)
Record RectGrid : Type := {
  num_intervals : Z * Z;
  domain : (R * R) * (R * R);
  x0_num_intervals : Z;
  x1_num_intervals : Z;
  x0_range : R * R;
  x1_range : R * R;
  x0_width : R;
  x1_width : R;
  x0_diameter : R;
  x1_diameter : R;
  diameter_max : R;
  diameter_min : R;
  __sizes : Z * Z * Z;
  __subentities : list (list Z) * list (list Z);
  __embeddings : list (list (list R)) * list (list R)
}.

Definition dim : Z := 2.
Definition dim_outer : Z := 2.
Definition reference_element : ReferenceElement := square.

Definition __init__ (num_intervals : Z * Z) (domain : (R * R) * (R * R)) : RectGrid :=
  let x0_num_intervals := fst num_intervals in
  let x1_num_intervals := snd num_intervals in
  let x0_range := (fst (fst domain), fst (snd domain)) in
  let x1_range := (snd (fst domain), snd (snd domain)) in
  let x0_width := (snd x0_range - fst x0_range)%R in
  let x1_width := (snd x1_range - fst x1_range)%R in
  let x0_diameter := (x0_width / IZR x0_num_intervals)%R in
  let x1_diameter := (x1_width / IZR x1_num_intervals)%R in
  let n_elements := (x0_num_intervals * x1_num_intervals)%Z in
  (* topology *)
  let EVL :=
    concat (map (fun r => map (fun c => Np.int32 (r + c)) (Np.arange x0_num_intervals))
              (map (fun j => Np.int32 (j * (x0_num_intervals + 1)))
                 (Np.arange x1_num_intervals)))%Z in
  let EVR := map (fun v => Np.int32 (v + 1)) EVL in
  let EHB := map (fun e => Np.int32 (e + (x0_num_intervals + 1) * x1_num_intervals))
               (Np.arange n_elements) in
  let EHT := map (fun e => Np.int32 (e + x0_num_intervals)) EHB in
  let codim0_subentities := Np.transpose 0%Z [EHB; EVR; EHT; EVL] in
  let codim1_subentities :=
    map (fun v => map (fun o => Np.int32 (v + o))
                    [0; 1; x0_num_intervals + 2; x0_num_intervals + 1])%Z EVL in
  (* geometry *)
  let x0_shifts := map (fun i => IZR i * x0_diameter + fst x0_range)%R
                     (Np.arange x0_num_intervals) in
  let x1_shifts := map (fun j => IZR j * x1_diameter + fst x1_range)%R
                     (Np.arange x1_num_intervals) in
  let XY := Np.meshgrid x0_shifts x1_shifts in
  let shifts := [concat (fst XY); concat (snd XY)] in
  let A := repeat (Np.diag2 x0_diameter x1_diameter) (Z.to_nat n_elements) in
  let B := Np.transpose 0%R shifts in
  {| num_intervals := num_intervals;
     domain := domain;
     x0_num_intervals := x0_num_intervals;
     x1_num_intervals := x1_num_intervals;
     x0_range := x0_range;
     x1_range := x1_range;
     x0_width := x0_width;
     x1_width := x1_width;
     x0_diameter := x0_diameter;
     x1_diameter := x1_diameter;
     diameter_max := Rmax x0_diameter x1_diameter;
     diameter_min := Rmin x0_diameter x1_diameter;
     __sizes := (n_elements,
                 ((x0_num_intervals + 1) * x1_num_intervals +
                  (x1_num_intervals + 1) * x0_num_intervals),
                 (x0_num_intervals + 1) * (x1_num_intervals + 1))%Z;
     __subentities := (codim0_subentities, codim1_subentities);
     __embeddings := (A, B) |}.

Definition size (self : RectGrid) (codim : Z) : result Z :=
  Py.assert_ ((0 <=? codim) && (codim <=? 2))%Z
    (Ok (CodimError (Format "Invalid codimension" []))) ;;;
  let '(s0, s1, s2) := __sizes self in
  Ok (if (codim =? 0)%Z then s0 else if (codim =? 1)%Z then s1 else s2).

Section Inherited.

(** The inherited [subentities] and [embeddings] of the grid interface,
whose bodies live in [defaultimpl.py]. *)
Variable super_subentities : RectGrid -> Z -> Z -> result (list (list Z)).
Variable super_embeddings :
  RectGrid -> Z -> result (list (list (list R)) * list (list R)).

Definition subentities (self : RectGrid) (codim : Z) (subentity_codim : option Z)
  : result (list (list Z)) :=
  Py.assert_ ((0 <=? codim) && (codim <=? 2))%Z
    (Ok (CodimError (Format "Invalid codimension" []))) ;;;
  let subentity_codim :=
    match subentity_codim with
    | None => (codim + 1)%Z
    | Some sc => sc
    end in
  Py.assert_ ((codim <=? subentity_codim) && (subentity_codim <=? dim))%Z
    (Ok (CodimError (Format "Invalid subentity codimensoin" []))) ;;;
  if (codim =? 0)%Z then
    if (subentity_codim =? 0)%Z then
      n <- size self 0 ;;
      Ok (map (fun e => [Np.int32 e]) (Np.arange n))
    else
      Ok (if (subentity_codim =? 1)%Z then fst (__subentities self)
          else snd (__subentities self))
  else super_subentities self codim subentity_codim.

Definition embeddings (self : RectGrid) (codim : Z)
  : result (list (list (list R)) * list (list R)) :=
  if (codim =? 0)%Z then Ok (__embeddings self)
  else super_embeddings self codim.

End Inherited.

(** The position of the vertex with global index [v], by the numbering
of the class docstring: vertices are counted row by row on the lattice
of [(n0 + 1) * (n1 + 1)] points, starting at the lower left corner. *)
Definition vertex_position (self : RectGrid) (v : Z) : list R :=
  let i := (v mod (x0_num_intervals self + 1))%Z in
  let j := (v / (x0_num_intervals self + 1))%Z in
  [ (fst (x0_range self) + IZR i * x0_diameter self)%R;
    (fst (x1_range self) + IZR j * x1_diameter self)%R ].

End Rect.

(** ** Derived geometry of an affine grid *)

Module AffineGrid.

Local Open Scope py_scope.
Local Open Scope R_scope.

Definition remove_nth {T : Type} (k : nat) (l : list T) : list T :=
  firstn k l ++ skipn (S k) l.

(** [np.linalg.det], by expansion along the first row; [n] is the number
of rows. *)
Fixpoint det_rows (n : nat) (M : list (list R)) : R :=
  match n, M with
  | S n', row :: rest =>
      Np.sum (map (fun k => (-1) ^ k * nth k row 0 *
                            det_rows n' (map (remove_nth k) rest))
                (seq 0 (length row)))
  | _, _ => 1
  end.

Definition det (M : list (list R)) : R := det_rows (length M) M.

(** Inverse of a square matrix: transposed cofactors over the determinant. *)
Definition inv (M : list (list R)) : list (list R) :=
  map (fun i =>
         map (fun j => (-1) ^ (i + j) * det (map (remove_nth i) (remove_nth j M)) / det M)
           (seq 0 (length M)))
    (seq 0 (length M)).

(** Moore-Penrose pseudo-inverse of a matrix with independent columns. *)
Definition pinv (M : list (list R)) : list (list R) :=
  let Mt := Np.transpose 0 M in
  Np.matmul (inv (Np.matmul Mt M)) Mt.

(** Modelled from the spec: [_jacobian_inverse_transposed] of
[AffineGridDefaultImplementations] is missing; section 4.3 gives it as the
transposed Moore-Penrose pseudo-inverse of each entity's linear part. *)
Definition jacobian_inverse_transposed (A : list (list (list R))) : list (list (list R)) :=
  map (fun M => Np.transpose 0 (pinv M)) A.

(** Modelled from the spec: [_integration_elements] of
[AffineGridDefaultImplementations] is missing; section 4.3 and the
interface docstring give it as [sqrt(det(A^T A))] per entity. *)
Definition integration_elements (A : list (list (list R))) : list R :=
  map (fun M => sqrt (det (Np.matmul (Np.transpose 0 M) M))) A.

(** Modelled from the spec: [_volumes] of
[AffineGridDefaultImplementations] is missing; section 4.3 gives it as
[integration_elements(codim)] times the reference element's volume. *)
Definition volumes (r : ReferenceElement) (A : list (list (list R))) : list R :=
  map (fun ie => ie * RE.volume r) (integration_elements A).

(** Rescaling to unit length. *)
Definition normalize (v : list R) : list R := Np.vscale (/ Np.norm v) v.

(** Modelled from the spec: [_unit_outer_normals] of
[AffineGridDefaultImplementations] is missing; section 4.3 gives, per
codim-0 entity and per local codim-1 sub-shape, the reference element's
canonical outer normal mapped through the inverse-transpose of the local
linear part and renormalized to unit length. *)
Definition unit_outer_normals (r : ReferenceElement) (A : list (list (list R)))
  : result (list (list (list R))) :=
  N <- RE.unit_outer_normals r ;;
  match N with
  | Arr2 normals =>
      Ok (map (fun JIT =>
                 map (fun n => normalize (Np.matvec JIT n))
                   normals)
            (jacobian_inverse_transposed A))
  | _ => Raise (ValueError "normals must form a matrix")
  end.

End AffineGrid.

(** ** The canonical reference shapes and the diameter of their images *)

Module Shape.

Local Open Scope R_scope.

(** The canonical shape of each reference element: a single point, the
unit interval, the unit square. *)
Definition in_shape (r : ReferenceElement) (x : list R) : Prop :=
  match r with
  | point => x = []
  | line => exists t, x = [t] /\ 0 <= t <= 1
  | square => exists s t, x = [s; t] /\ 0 <= s <= 1 /\ 0 <= t <= 1
  end.

Definition dist (u v : list R) : R := Np.norm (Np.vsub u v).

(** [d] is the diameter of the image of the canonical shape of [r] under
the linear map [M]: an upper bound of all distances that is attained. *)
Definition image_diameter (r : ReferenceElement) (M : list (list R)) (d : R) : Prop :=
  (forall x y, in_shape r x -> in_shape r y ->
               dist (Np.matvec M x) (Np.matvec M y) <= d) /\
  (exists x y, in_shape r x /\ in_shape r y /\
               dist (Np.matvec M x) (Np.matvec M y) = d).

(** Sums of products of the entries of columns [c] and [c'] of a matrix. *)
Definition gram (c c' : nat) (M : list (list R)) : R :=
  Np.sum (map (fun row => nth c row 0 * nth c' row 0) M).

(** A matrix with [k] columns. *)
Definition has_columns (k : nat) (M : list (list R)) : Prop :=
  Forall (fun row => length row = k) M.

(** A linear map defined on the space of the reference element [r], into
an outer space of dimension at least one. *)
Definition linear_map_on (r : ReferenceElement) (M : list (list R)) : Prop :=
  has_columns (Z.to_nat (RE.dim r)) M /\ M <> [].

End Shape.

From Stdlib Require Import Sorted.

(** ** The lattice behind the rectangular grid *)

Module Lattice.

Local Open Scope Z_scope.

(** The cell in column [i] and row [j] of the lattice, and its lower left
vertex, in the numbering of the [RectGrid] docstring. *)
Definition cell_index (n0 i j : Z) : Z := j * n0 + i.
Definition corner_index (n0 i j : Z) : Z := j * (n0 + 1) + i.

(** All indices the constructor computes fit in [int32]: the edges, of
which there are most, do. *)
Definition fits_int32 (n0 n1 : Z) : Prop :=
  (n0 + 1) * n1 + (n1 + 1) * n0 <= 2147483648.

End Lattice.

(** ** The default domain discretizer (pymor/domaindiscretizers/default.py) *)

Module DomainDiscretizers.

Local Open Scope string_scope.

(** The grid classes that may be passed as [grid_type]; [class_name] is
the text a class is formatted to in a message. *)
Inductive grid_class : Type :=
| TriaGrid
| RectGrid
| OnedGrid
| OtherGrid (name : string).

Definition class_name (c : grid_class) : string :=
  match c with
  | TriaGrid => "TriaGrid"
  | RectGrid => "RectGrid"
  | OnedGrid => "OnedGrid"
  | OtherGrid name => name
  end.

(** A domain description, with the attributes the nested discretizers
read: [domain], [width] and [height] of a [RectDomain], [domain] and
[width] of a [LineDomain]; of any other object, the text it is formatted
to in a message. *)
Inductive domain_description : Type :=
| RectDomain (domain : (R * R) * (R * R)) (width height : R)
| LineDomain (domain : R * R) (width : R)
| OtherDomain (name : string).

(** [raise NotImplementedError(template.format(args))] by the dispatch,
and whatever is raised inside the two nested discretizers. *)
Inductive error : Type :=
| NotImplementedError (template : string) (args : list string)
| RaisedInside (exception : string).

Section Discretizer.

(** The nested functions [discretize_RectDomain] and
[discretize_LineDomain] compute the numbers of intervals in floating
point with [int(math.ceil(...))] and construct the grid and the boundary
information; the classes they construct are not in the repository.  They
are closures over [domain_description], [diameter] and the [grid_type]
that the dispatch has settled, and they return or raise. *)
Variable float : Type.
Variable Grid BoundaryInfo : Type.
Variable discretize_RectDomain :
  domain_description -> float -> grid_class -> error + Grid * BoundaryInfo.
Variable discretize_LineDomain :
  domain_description -> float -> error + Grid * BoundaryInfo.

(** [grid_type] is [None] or a class; [grid_type or C] replaces [None]. *)
Definition discretize_domain_default (domain_description : domain_description)
  (diameter : float) (grid_type : option grid_class)
  : error + Grid * BoundaryInfo :=
  match domain_description with
  | OtherDomain name =>
      inl (NotImplementedError "I do not know how to discretize {}" [name])
  | RectDomain _ _ _ =>
      let grid_type := match grid_type with Some c => c | None => TriaGrid end in
      match grid_type with
      | TriaGrid | RectGrid =>
          discretize_RectDomain domain_description diameter grid_type
      | _ =>
          inl (NotImplementedError "I do not know how to discretize {} with {}"
                 ["RectDomain"; class_name grid_type])
      end
  | LineDomain _ _ =>
      let grid_type := match grid_type with Some c => c | None => OnedGrid end in
      match grid_type with
      | OnedGrid => discretize_LineDomain domain_description diameter
      | _ =>
          inl (NotImplementedError "I do not know hot to discretize {} with {}"
                 ["LineDomain"; class_name grid_type])
      end
  end.

End Discretizer.

Arguments discretize_domain_default {float Grid BoundaryInfo}.

(** The table of the docstring: which grid classes discretize which
domain description. *)
Definition supported (dd : domain_description) (grid_type : option grid_class) : bool :=
  match dd, grid_type with
  | RectDomain _ _ _, (None | Some TriaGrid | Some RectGrid) => true
  | LineDomain _ _, (None | Some OnedGrid) => true
  | _, _ => false
  end.

End DomainDiscretizers.

(** ** Objects with dictionary-backed properties
    (pymor/tools/dictproperty.py, pymor/discretizations/linear.py) *)

Module Objects.

Local Open Scope string_scope.

(** A value is a reference into the store, or a value without items and
without a [copy] method (an operator, a solver, a name). *)
Inductive value : Type :=
| Ref (a : nat)
| Opaque (name : string).

(** A [dict] with string keys, in insertion order. *)
Definition dict : Type := list (string * value).

Fixpoint lookup (k : string) (d : dict) : option value :=
  match d with
  | [] => None
  | (k', v) :: d' => if String.eqb k' k then Some v else lookup k d'
  end.

(** [d[k] = v] *)
Fixpoint insert (k : string) (v : value) (d : dict) : dict :=
  match d with
  | [] => [(k, v)]
  | (k', v') :: d' =>
      if String.eqb k' k then (k', v) :: d' else (k', v') :: insert k v d'
  end.

(** What a reference points to: an instance, given by its [__dict__], or
a [dict] object. *)
Inductive cell : Type :=
| Instance (attrs : dict)
| Dict (items : dict).

(** The store: the allocated cells and the next free address. *)
Record heap : Type := {
  cells : nat -> option cell;
  next : nat
}.

Definition write (h : heap) (a : nat) (c : cell) : heap :=
  {| cells := fun a' => if Nat.eqb a' a then Some c else cells h a';
     next := next h |}.

Definition alloc (h : heap) (c : cell) : nat * heap :=
  (next h,
   {| cells := fun a' => if Nat.eqb a' (next h) then Some c else cells h a';
      next := S (next h) |}).

(** The exceptions raised; [Dangling] marks a reference to an address
that was never allocated, which no Python program produces. *)
Inductive error : Type :=
| KeyError (key : string)
| AttributeError (name : string)
| TypeError (msg : string)
| Dangling (a : nat).

(** The [dict] that [self.__dict__[d]] denotes, with its address. *)
Definition backing_dict (d : string) (self : nat) (h : heap) : error + nat * dict :=
  match cells h self with
  | None => inl (Dangling self)
  | Some (Dict _) => inl (AttributeError "__dict__")
  | Some (Instance attrs) =>
      match lookup d attrs with
      | None => inl (KeyError d)
      | Some (Opaque _) => inl (TypeError "object is not subscriptable")
      | Some (Ref a) =>
          match cells h a with
          | None => inl (Dangling a)
          | Some (Instance _) => inl (TypeError "object is not subscriptable")
          | Some (Dict items) => inr (a, items)
          end
      end
  end.

(** The getter of [dict_property(d, n)]: [self.__dict__[d][n]]. *)
Definition prop_get (d n : string) (self : nat) (h : heap) : error + value :=
  match backing_dict d self h with
  | inl e => inl e
  | inr (_, items) =>
      match lookup n items with
      | None => inl (KeyError n)
      | Some v => inr v
      end
  end.

(** The setter of [dict_property(d, n)]: [self.__dict__[d][n] = v]. *)
Definition prop_set (d n : string) (self : nat) (v : value) (h : heap) : error + heap :=
  match backing_dict d self h with
  | inl e => inl e
  | inr (a, items) => inr (write h a (Dict (insert n v items)))
  end.

(** The two properties of [StationaryLinearDiscretization]. *)
Definition operator_get := prop_get "operators" "operator".
Definition operator_set := prop_set "operators" "operator".
Definition rhs_get := prop_get "operators" "rhs".
Definition rhs_set := prop_set "operators" "rhs".

Section Copy.

(** [Cachable.__init__], which is not part of these sources. *)
Variable Cachable_init : nat -> heap -> heap.

(** [StationaryLinearDiscretization.copy]: a shallow copy of the
instance, whose [operators] is then replaced by a copy of the
dictionary. *)
Definition copy (self : nat) (h : heap) : error + nat * heap :=
  match cells h self with
  | None => inl (Dangling self)
  | Some (Dict _) => inl (AttributeError "operators")
  | Some (Instance attrs) =>
      let (c, h1) := alloc h (Instance attrs) in
      match lookup "operators" attrs with
      | None => inl (AttributeError "operators")
      | Some (Opaque _) => inl (AttributeError "copy")
      | Some (Ref a) =>
          match cells h1 a with
          | None => inl (Dangling a)
          | Some (Instance _) => inl (AttributeError "copy")
          | Some (Dict items) =>
              let (a', h2) := alloc h1 (Dict items) in
              let h3 := write h2 c (Instance (insert "operators" (Ref a') attrs)) in
              inr (c, Cachable_init c h3)
          end
      end
  end.

End Copy.

(** No cell lies at or beyond the next free address. *)
Definition well_formed (h : heap) : Prop :=
  forall a, (next h <= a)%nat -> cells h a = None.

(** What is assumed of [Cachable.__init__(c)]: it changes nothing but
attributes of [c] other than [operators], and allocates no cell below the
next free address. *)
Definition only_resets_cache (init : nat -> heap -> heap) : Prop :=
  forall c h,
    (forall a, a <> c -> cells (init c h) a = cells h a) /\
    (forall attrs, cells h c = Some (Instance attrs) ->
       exists attrs', cells (init c h) c = Some (Instance attrs') /\
                      lookup "operators" attrs' = lookup "operators" attrs).

End Objects.

(** ** Boundary information (BoundaryInfoInterface of pymor/grids/interfaces.py) *)

Module BoundaryInfo.

Local Open Scope string_scope.

(** A boundary type is identified by its name; [boundary_types] is a set,
kept as the list of its members. *)
Definition BoundaryType : Type := string.

Definition dirichlet : BoundaryType := "dirichlet".
Definition neumann : BoundaryType := "neumann".

Definition member (t : BoundaryType) (s : list BoundaryType) : bool :=
  existsb (String.eqb t) s.

(** [s <= s'] and [s == s'] on sets. *)
Definition subset (s s' : list BoundaryType) : bool :=
  forallb (fun t => member t s') s.

Definition set_eq (s s' : list BoundaryType) : bool :=
  subset s s' && subset s' s.

Definition has_dirichlet (boundary_types : list BoundaryType) : bool :=
  member dirichlet boundary_types.

Definition has_neumann (boundary_types : list BoundaryType) : bool :=
  member neumann boundary_types.

Definition has_only_dirichlet (boundary_types : list BoundaryType) : bool :=
  set_eq boundary_types [dirichlet].

Definition has_only_neumann (boundary_types : list BoundaryType) : bool :=
  set_eq boundary_types [neumann].

Definition has_only_dirichletneumann (boundary_types : list BoundaryType) : bool :=
  subset boundary_types [dirichlet; neumann].

(** The quotation mark of the message of [mask]. *)
Definition quote : string := String (Ascii.ascii_of_nat 34) EmptyString.

(** [mask] of the interface itself: no boundary type is known. *)
Definition mask (boundary_type : BoundaryType) (codim : Z) : result (list bool) :=
  Raise (ValueError
           ("Has no boundary_type " ++ quote ++ boundary_type ++ quote)).

(** [np.where(m)[0]]: the positions of the true entries, counted from [i]. *)
Fixpoint where_from (i : Z) (m : list bool) : list Z :=
  match m with
  | [] => []
  | b :: m' => if b then i :: where_from (i + 1) m' else where_from (i + 1) m'
  end.

Section Masks.

(** The [mask] method of the class at hand. *)
Variable mask_method : BoundaryType -> Z -> result (list bool).

Definition dirichlet_mask (codim : Z) : result (list bool) :=
  mask_method dirichlet codim.

Definition neumann_mask (codim : Z) : result (list bool) :=
  mask_method neumann codim.

(** [np.where(self.dirichlet_mask(codim))[0].astype('int32')] *)
Definition dirichlet_boundaries (codim : Z) : result (list Z) :=
  Py.bind (dirichlet_mask codim)
    (fun m => Ok (map Np.int32 (where_from 0 m))).

Definition neumann_boundaries (codim : Z) : result (list Z) :=
  Py.bind (neumann_mask codim)
    (fun m => Ok (map Np.int32 (where_from 0 m))).

End Masks.

End BoundaryInfo.

(** ** Cubic parameter spaces (pymor/parameters/spaces.py) *)

Module ParameterSpace.

Local Open Scope string_scope.

Inductive error : Type :=
| AssertionError (msg : option string)
| KeyError (key : string)
| ValueError (msg : string)
| ParseError (msg : string).

(** Calls that return or raise, and their sequencing. *)
Definition bind {A B : Type} (m : error + A) (k : A -> error + B) : error + B :=
  match m with
  | inl e => inl e
  | inr a => k a
  end.

Fixpoint traverse {A B : Type} (f : A -> error + B) (xs : list A) : error + list B :=
  match xs with
  | [] => inr []
  | x :: xs' => bind (f x) (fun y => bind (traverse f xs') (fun ys => inr (y :: ys)))
  end.

Definition assert_ (cond : bool) (msg : option string) : error + unit :=
  if cond then inr tt else inl (AssertionError msg).

(** An [OrderedDict] with string keys; [d[k]] raises [KeyError]. *)
Fixpoint lookup {V : Type} (k : string) (d : list (string * V)) : option V :=
  match d with
  | [] => None
  | (k', v) :: d' => if String.eqb k' k then Some v else lookup k d'
  end.

Definition getitem {V : Type} (d : list (string * V)) (k : string) : error + V :=
  match lookup k d with
  | Some v => inr v
  | None => inl (KeyError k)
  end.

(** A parameter type maps the name of each component to its shape; a
parameter maps it to an array, kept as its entries in row-major order
together with its shape. *)
Definition ParameterType : Type := list (string * list Z).
Definition ParameterValue : Type := list (string * (list R * list Z)).

Record CubicParameterSpace : Type := {
  parameter_type : ParameterType;
  ranges : list (string * (R * R))
}.

Definition Rleb (x y : R) : bool := if Rle_dec x y then true else false.
Definition Rltb (x y : R) : bool := if Rlt_dec x y then true else false.

Section Parsing.

(** [parse_parameter_type] and [parse_parameter] of
[pymor/parameters/base.py], which is not part of these sources. *)
Variable RawType : Type.
Variable RawParameter : Type.
Variable parse_parameter_type : RawType -> error + ParameterType.
Variable parse_parameter_with : RawParameter -> ParameterType -> error + ParameterValue.

(** [minimum < maximum] is only reached with both given; Python 2 orders
[None] below every number. *)
Definition __init__ (parameter_type : RawType) (minimum maximum : option R)
  (ranges : option (list (string * (R * R)))) : error + CubicParameterSpace :=
  bind (assert_
          (match ranges with
           | None => true
           | Some _ => match minimum, maximum with None, None => true | _, _ => false end
           end)
          (Some "Must specify minimum, maximum or ranges")) (fun _ =>
  bind (assert_
          (match ranges with
           | Some _ => true
           | None => match minimum, maximum with Some _, Some _ => true | _, _ => false end
           end)
          (Some "Must specify minimum, maximum or ranges")) (fun _ =>
  bind (assert_
          (match minimum with
           | None => true
           | Some lo => match maximum with Some hi => Rltb lo hi | None => false end
           end)
          None) (fun _ =>
  bind (parse_parameter_type parameter_type) (fun parameter_type =>
  let ranges :=
    match ranges with
    | Some r => r
    | None =>
        match minimum, maximum with
        | Some lo, Some hi => map (fun kv => (fst kv, (lo, hi))) parameter_type
        | _, _ => []
        end
    end in
  inr {| parameter_type := parameter_type; ranges := ranges |})))).

Definition parse_parameter (self : CubicParameterSpace) (mu : RawParameter)
  : error + ParameterValue :=
  parse_parameter_with mu (parameter_type self).

(** [all(np.all(lo <= mu[k]) and np.all(mu[k] <= hi) for k in ...)]: the
components are tested in the order of the parameter type, up to the first
one that fails. *)
Fixpoint contains_components (ranges : list (string * (R * R))) (mu : ParameterValue)
  (keys : list string) : error + bool :=
  match keys with
  | [] => inr true
  | k :: keys' =>
      bind (getitem ranges k) (fun r =>
      bind (getitem mu k) (fun v =>
      if forallb (fun x => Rleb (fst r) x) (fst v) &&
         forallb (fun x => Rleb x (snd r)) (fst v)
      then contains_components ranges mu keys'
      else inr false))
  end.

Definition contains (self : CubicParameterSpace) (mu : RawParameter) : error + bool :=
  bind (parse_parameter self mu) (fun mu =>
  contains_components (ranges self) mu (map fst (parameter_type self))).

End Parsing.

Arguments __init__ {RawType}.
Arguments parse_parameter {RawParameter}.
Arguments contains {RawParameter}.

(** The values [v] lie in the range that [rgs] has for component [k]. *)
Definition within (rgs : list (string * (R * R))) (k : string) (v : list R) : Prop :=
  exists lo hi, lookup k rgs = Some (lo, hi) /\ Forall (fun x => (lo <= x <= hi)%R) v.

(** [np.linspace(start, stop, num)] *)
Definition linspace (start stop : R) (num : Z) : list R :=
  if (num <=? 0)%Z then []
  else if (num =? 1)%Z then [start]
  else
    let step := ((stop - start) / IZR (num - 1))%R in
    map (fun i => (IZR i * step + start)%R) (Np.arange (num - 1)) ++ [stop].

(** [itertools.product(pool, repeat=r)], and [itertools.product] applied
to a sequence of pools. *)
Fixpoint product_repeat {A : Type} (pool : list A) (r : nat) : list (list A) :=
  match r with
  | O => [[]]
  | S r' => flat_map (fun x => map (cons x) (product_repeat pool r')) pool
  end.

Fixpoint product {A : Type} (pools : list (list A)) : list (list A) :=
  match pools with
  | [] => [[]]
  | pool :: pools' => flat_map (fun x => map (cons x) (product pools')) pool
  end.

(** [np.zeros(shape).size] *)
Definition shape_size (shape : list Z) : error + Z :=
  if forallb (fun d => (0 <=? d)%Z) shape
  then inr (fold_right Z.mul 1%Z shape)
  else inl (ValueError "negative dimensions are not allowed").

(** The argument [counts] of [sample_uniformly]. *)
Inductive counts_arg : Type :=
| CountsDict (d : list (string * Z))
| CountsSequence (l : list Z)
| CountsNumber (c : Z).

(** [np.array(v).reshape(shp)] *)
Definition reshape (v : list R) (shp : list Z) : error + list R * list Z :=
  bind (shape_size shp) (fun n =>
  if (Z.of_nat (length v) =? n)%Z then inr (v, shp)
  else inl (ValueError "total size of new array must be unchanged")).

(** [sample_uniformly], with the generator run to its end: the parameters
it yields, each as the pairs handed to [Parameter]. *)
Definition sample_uniformly (self : CubicParameterSpace) (counts : counts_arg)
  : error + list ParameterValue :=
  let keys := map fst (parameter_type self) in
  let shapes := map snd (parameter_type self) in
  let counts :=
    match counts with
    | CountsDict d => d
    | CountsSequence l => combine keys l
    | CountsNumber c => map (fun k => (k, c)) keys
    end in
  bind (traverse
          (fun k =>
             bind (getitem (ranges self) k) (fun r =>
             bind (getitem counts k) (fun c =>
             inr (linspace (fst r) (snd r) c))))
          keys) (fun linspaces =>
  bind (traverse
          (fun ls_sps =>
             bind (shape_size (snd ls_sps)) (fun n =>
             inr (product_repeat (fst ls_sps) (Z.to_nat (Z.max 1 n)))))
          (combine linspaces shapes)) (fun iters =>
  traverse
    (fun i =>
       traverse
         (fun kvs =>
            bind (reshape (snd (fst kvs)) (snd kvs)) (fun a =>
            inr (fst (fst kvs), a)))
         (combine (combine keys i) shapes))
    (product iters))).

End ParameterSpace.

(** * Properties *)

(** ** Assertions and failures *)

Section Assertions.

Local Open Scope py_scope.

Lemma assert_true (msg : result exception) : Py.assert_ true msg = Ok tt.
Proof. reflexivity. Qed.

Lemma assert_false_codim {A : Type} (m : str_format) (k : unit -> result A) :
  Py.raises_InvalidCodimension (Py.bind (Py.assert_ false (Ok (CodimError m))) k).
Proof.
  exists (AssertionError (CodimError m)).
  split; reflexivity.
Qed.

Lemma raises_InvalidCodimension_not_ok {A : Type} (m : result A) (a : A) :
  Py.raises_InvalidCodimension m -> m <> Ok a.
Proof.
  intros [e [He _]] Hok.
  rewrite He in Hok.
  discriminate Hok.
Qed.

End Assertions.

Ltac codim_range_false :=
  match goal with
  | |- context [Py.assert_ ?c _] =>
      let E := fresh "E" in
      assert (E : c = false)
        by (try apply Z.eqb_neq;
            try (apply andb_false_iff;
                 rewrite ?Z.leb_gt; lia);
            lia);
      rewrite E
  end.

Ltac codim_range_true :=
  match goal with
  | |- context [Py.assert_ ?c _] =>
      let E := fresh "E" in
      assert (E : c = true)
        by (try apply Z.eqb_eq;
            try (apply andb_true_iff;
                 rewrite ?Z.leb_le; lia);
            lia);
      rewrite E; cbn [Py.assert_ Py.bind]
  end.

(** ** Reference elements *)

Section ReferenceElements.

Local Open Scope Z_scope.

(** [size] validates its codimension in all three classes. *)
Lemma size_invalid_codim (r : ReferenceElement) (codim : Z) :
  ~ (0 <= codim <= RE.dim r) ->
  Py.raises_InvalidCodimension (RE.size r codim).
Proof.
  intros H.
  destruct r; cbn in *; unfold Point.dim, Line.dim, Square.dim in *;
    [ unfold Point.size | unfold Line.size | unfold Square.size ];
    codim_range_false; apply assert_false_codim.
Qed.

(** [sub_reference_element] validates its codimension in all three classes. *)
Lemma sub_reference_element_invalid_codim (r : ReferenceElement) (codim : Z) :
  ~ (0 <= codim <= RE.dim r) ->
  Py.raises_InvalidCodimension (RE.sub_reference_element r codim).
Proof.
  intros H.
  destruct r; cbn in *; unfold Point.dim, Line.dim, Square.dim in *;
    [ unfold Point.sub_reference_element
    | unfold Line.sub_reference_element
    | unfold Square.sub_reference_element ];
    codim_range_false; apply assert_false_codim.
Qed.

(** [subentities] validates both codimensions in all three classes. *)
Lemma subentities_invalid_codim (r : ReferenceElement) (codim subentity_codim : Z) :
  ~ (0 <= codim <= RE.dim r) \/ ~ (codim <= subentity_codim <= RE.dim r) ->
  Py.raises_InvalidCodimension (RE.subentities r codim subentity_codim).
Proof.
  intros H.
  destruct (Z_le_dec 0 codim) as [H0 | H0];
    [ destruct (Z_le_dec codim (RE.dim r)) as [H1 | H1] | ].
  - destruct H as [H | H]; [ lia | ].
    destruct r; cbn in *; unfold Point.dim, Line.dim, Square.dim in *;
      [ unfold Point.subentities | unfold Line.subentities | unfold Square.subentities ];
      codim_range_true; codim_range_false; apply assert_false_codim.
  - destruct r; cbn in *; unfold Point.dim, Line.dim, Square.dim in *;
      [ unfold Point.subentities | unfold Line.subentities | unfold Square.subentities ];
      codim_range_false; apply assert_false_codim.
  - destruct r; cbn in *; unfold Point.dim, Line.dim, Square.dim in *;
      [ unfold Point.subentities | unfold Line.subentities | unfold Square.subentities ];
      codim_range_false; apply assert_false_codim.
Qed.

(** [Line] and [Square] validate the argument of [subentity_embedding]. *)
Lemma subentity_embedding_invalid_codim (r : ReferenceElement) (subentity_codim : Z) :
  r <> point ->
  ~ (0 <= subentity_codim <= RE.dim r) ->
  Py.raises_InvalidCodimension (RE.subentity_embedding r subentity_codim).
Proof.
  intros Hr H.
  destruct r; [ congruence | | ]; cbn in *; unfold Line.dim, Square.dim in *;
    [ unfold Line.subentity_embedding | unfold Square.subentity_embedding ];
    codim_range_false; apply assert_false_codim.
Qed.

(** C8: every reference element of dimension [d] is claimed to fail with
an invalid-codimension error when [size], [subentities],
[subentity_embedding] or [sub_reference_element] is called with a
codimension outside [[0, d]].  [Point.subentity_embedding] does not: for
the out-of-range argument 1 its assertion message reads the unbound name
[codim], so the call ends in a [NameError], which is no
invalid-codimension error. *)
Theorem C8_point_subentity_embedding_name_error :
  ~ (0 <= 1 <= RE.dim point) /\
  RE.subentity_embedding point 1 = Raise (NameError "codim") /\
  ~ Py.raises_InvalidCodimension (RE.subentity_embedding point 1).
Proof.
  split; [ cbn; unfold Point.dim; lia | ].
  split; [ reflexivity | ].
  intros [e [He Hk]].
  cbn in He.
  inversion He; subst e.
  discriminate Hk.
Qed.

(** C9: [Line.unit_outer_normals] raises on every call and never returns
an array: the list meant as second normal is taken as [dtype]. *)
Theorem C9_line_unit_outer_normals_raises :
  Py.raises Line.unit_outer_normals /\
  (forall a : ndarray R, Line.unit_outer_normals <> Ok a) /\
  Line.unit_outer_normals = Np.array (Arr1 [(-1)%R]) (Some (dtype_of_floats [1%R])).
Proof.
  split; [ | split ].
  - exists (TypeError "data type not understood"). reflexivity.
  - intros a H. discriminate H.
  - reflexivity.
Qed.

End ReferenceElements.

(** Evaluation of the array computations, leaving real arithmetic alone. *)
Ltac np_eval :=
  cbv -[Rplus Rmult Rminus Rdiv Rinv Ropp IZR sqrt Rmax Rmin Rabs Rle Rlt Rge Rgt].

Section SquareGeometry.

Local Open Scope R_scope.

Lemma norm_pair (x y : R) : Np.norm [x; y] = sqrt (x * x + y * y).
Proof.
  unfold Np.norm. cbn [map Np.sum fold_right].
  f_equal. ring.
Qed.

Lemma sqrt_one_of (x : R) : x = 1 -> sqrt x = 1.
Proof. intros ->. apply sqrt_1. Qed.

(** C10: each canonical outer normal of [Square] has unit length, is
orthogonal to the direction of the edge it belongs to (the column of the
edge's embedding), and points away from the barycenter: its inner product
with the edge midpoint minus the center is positive. *)
Theorem C10_square_outer_normals (i : nat) :
  (i < 4)%nat ->
  exists N A B,
    Square.unit_outer_normals = Ok (Arr2 N) /\
    Square.subentity_embedding 1 = Ok (Arr3 A, Arr2 B) /\
    Np.norm (nth i N []) = 1 /\
    Np.vdot (nth i N []) (Np.column 0 0%nat (nth i A [])) = 0 /\
    Np.vdot (nth i N [])
      (Np.vsub (Np.vadd (nth i B []) (Np.matvec (nth i A []) Line.center))
         Square.center) > 0.
Proof.
  intros Hi.
  eexists; eexists; eexists.
  split; [ reflexivity | ].
  split; [ reflexivity | ].
  destruct i as [ | [ | [ | [ | i ] ] ] ]; [ | | | | lia ];
    cbn [nth];
    (split; [ rewrite norm_pair; apply sqrt_one_of; ring | ]);
    (split; [ np_eval; ring | np_eval; lra ]).
Qed.

Lemma C10_square_outer_normals_witness :
  exists N A B,
    Square.unit_outer_normals = Ok (Arr2 N) /\
    Square.subentity_embedding 1 = Ok (Arr3 A, Arr2 B) /\
    Np.norm (nth 3 N []) = 1 /\
    Np.vdot (nth 3 N []) (Np.column 0 0%nat (nth 3 A [])) = 0 /\
    Np.vdot (nth 3 N [])
      (Np.vsub (Np.vadd (nth 3 B []) (Np.matvec (nth 3 A []) Line.center))
         Square.center) > 0.
Proof.
  apply (C10_square_outer_normals 3%nat).
  lia.
Defined.

End SquareGeometry.

(** ** The rectangular grid *)

Section RectGridTopology.

Variable super_subentities : Rect.RectGrid -> Z -> Z -> result (list (list Z)).

Local Open Scope Z_scope.

(** C5: the entity counts of a grid with [n0 * n1] cells; the grid with
[(2, 2)] intervals on the unit square has 4 cells and 9 vertices. *)
Theorem C5_rect_sizes (n0 n1 : Z) (domain : (R * R) * (R * R)) :
  Rect.size (Rect.__init__ (n0, n1) domain) 0 = Ok (n0 * n1) /\
  Rect.size (Rect.__init__ (n0, n1) domain) 1 = Ok ((n0 + 1) * n1 + (n1 + 1) * n0) /\
  Rect.size (Rect.__init__ (n0, n1) domain) 2 = Ok ((n0 + 1) * (n1 + 1)) /\
  Rect.size (Rect.__init__ (2, 2) ((0, 0), (1, 1))%R) 0 = Ok 4 /\
  Rect.size (Rect.__init__ (2, 2) ((0, 0), (1, 1))%R) 2 = Ok 9.
Proof.
  repeat split; reflexivity.
Qed.

(** C7: [subentities(3, 0)] on a rectangular grid, whose dimension is 2,
fails the codimension assertion. *)
Theorem C7_rect_subentities_invalid_codim (g : Rect.RectGrid) :
  Rect.dim = 2 /\
  Py.raises_InvalidCodimension (Rect.subentities super_subentities g 3 (Some 0)) /\
  Rect.subentities super_subentities g 3 (Some 0) =
    Raise (AssertionError (CodimError (Format "Invalid codimension" []))).
Proof.
  split; [ reflexivity | ].
  split; [ | reflexivity ].
  unfold Rect.subentities.
  change ((0 <=? 3) && (3 <=? 2)) with false.
  apply assert_false_codim.
Qed.

End RectGridTopology.

Section RectGridGeometry.

Variable super_subentities : Rect.RectGrid -> Z -> Z -> result (list (list Z)).
Variable super_embeddings :
  Rect.RectGrid -> Z -> result (list (list (list R)) * list (list R)).

(** C1: on the grid with [(2, 2)] intervals over the unit square, the row
of cell 0 in [subentities(0, 2)] is [[0; 1; 4; 3]], a listing of the
vertices 0, 1, 3, 4; its entries follow the reference element's local
order: the vertex in slot [s] lies at the image, under the embedding of
cell 0, of the [s]-th canonical vertex of [Square]. *)
Theorem C1_rect_vertex_row_of_cell_0 :
  exists T VA V A B,
    Rect.subentities super_subentities
      (Rect.__init__ (2, 2)%Z ((0, 0), (1, 1))%R) 0 (Some 2%Z) = Ok T /\
    nth_error T 0 = Some [0; 1; 4; 3]%Z /\
    Permutation [0; 1; 4; 3]%Z [0; 1; 3; 4]%Z /\
    Square.subentity_embedding 2 = Ok (Arr3 VA, Arr2 V) /\
    Rect.embeddings super_embeddings
      (Rect.__init__ (2, 2)%Z ((0, 0), (1, 1))%R) 0 = Ok (A, B) /\
    map (Rect.vertex_position (Rect.__init__ (2, 2)%Z ((0, 0), (1, 1))%R))
      [0; 1; 4; 3]%Z =
    map (fun x => Np.vadd (Np.matvec (nth 0 A []) x) (nth 0 B [])) V.
Proof.
  eexists; eexists; eexists; eexists; eexists.
  split; [ lazy; reflexivity | ].
  split; [ reflexivity | ].
  split; [ do 2 apply perm_skip; apply perm_swap | ].
  split; [ np_eval; reflexivity | ].
  split; [ np_eval; reflexivity | ].
  np_eval.
  repeat (f_equal; try field).
Qed.

End RectGridGeometry.

Section Arrays.

(** Entry [j * n + i] of the row-major flattening of rows of length [n]. *)
Lemma nth_concat_rows {T : Type} (d : T) (n : nat) (rows : list (list T)) :
  Forall (fun row => length row = n) rows ->
  forall i j, (i < n)%nat ->
    nth (j * n + i) (concat rows) d = nth i (nth j rows []) d.
Proof.
  induction 1 as [ | row rows Hrow Hrows IH ]; intros i j Hi.
  - cbn [concat]. destruct j; cbn [nth]; destruct (_ + i)%nat; destruct i; reflexivity.
  - destruct j as [ | j ]; cbn [concat nth].
    + rewrite app_nth1 by lia. reflexivity.
    + rewrite app_nth2 by (cbn; lia).
      replace (S j * n + i - length row)%nat with (j * n + i)%nat by (cbn; lia).
      apply IH, Hi.
Qed.

Lemma length_concat_rows {T : Type} (n : nat) (rows : list (list T)) :
  Forall (fun row => length row = n) rows ->
  length (concat rows) = (length rows * n)%nat.
Proof.
  induction 1 as [ | row rows Hrow Hrows IH ]; cbn [concat length].
  - reflexivity.
  - rewrite length_app, IH, Hrow. lia.
Qed.

Lemma nth_arange (n : Z) (k : nat) :
  (k < Z.to_nat n)%nat -> nth k (Np.arange n) 0%Z = Z.of_nat k.
Proof.
  intros Hk. unfold Np.arange.
  change 0%Z with (Z.of_nat 0).
  rewrite map_nth, seq_nth by exact Hk.
  reflexivity.
Qed.

Lemma length_arange (n : Z) : length (Np.arange n) = Z.to_nat n.
Proof. unfold Np.arange. rewrite length_map, length_seq. reflexivity. Qed.

(** Row [k] of the transpose of a matrix with two rows. *)
Lemma nth_error_transpose_pair {T : Type} (d : T) (xs ys : list T) (k : nat) :
  (k < length xs)%nat ->
  nth_error (Np.transpose d [xs; ys]) k = Some [nth k xs d; nth k ys d].
Proof.
  intros Hk. unfold Np.transpose, Np.ncols.
  rewrite nth_error_map, nth_error_seq.
  destruct (Nat.ltb_spec k (length xs)); [ reflexivity | lia ].
Qed.

End Arrays.

Section RectGridEmbeddings.

Variable super_embeddings :
  Rect.RectGrid -> Z -> result (list (list (list R)) * list (list R)).

Local Open Scope R_scope.

Lemma nth_map_in_range {S T : Type} (f : S -> T) (l : list S) (k : nat) (d : T) (e : S) :
  (k < length l)%nat -> nth k (map f l) d = f (nth k l e).
Proof.
  intros Hk.
  rewrite (nth_indep (map f l) d (f e)) by (rewrite length_map; exact Hk).
  apply map_nth.
Qed.

(** The codim-0 embeddings stored by [__init__], entry by entry. *)
Lemma rect_embeddings_entry (n0 n1 : Z) (a0 a1 b0 b1 : R) (i j : nat) :
  (i < Z.to_nat n0)%nat -> (j < Z.to_nat n1)%nat ->
  let g := Rect.__init__ (n0, n1) ((a0, a1), (b0, b1)) in
  nth_error (fst (Rect.__embeddings g)) (j * Z.to_nat n0 + i) =
    Some (Np.diag2 ((b0 - a0) / IZR n0) ((b1 - a1) / IZR n1)) /\
  nth_error (snd (Rect.__embeddings g)) (j * Z.to_nat n0 + i) =
    Some [IZR (Z.of_nat i) * ((b0 - a0) / IZR n0) + a0;
          IZR (Z.of_nat j) * ((b1 - a1) / IZR n1) + a1].
Proof.
  intros Hi Hj g.
  unfold g, Rect.__init__.
  cbn [Rect.__embeddings fst snd].
  split.
  - apply nth_error_repeat.
    rewrite Z2Nat.inj_mul by lia.
    nia.
  - set (dx := (b0 - a0) / IZR n0).
    set (dy := (b1 - a1) / IZR n1).
    set (xs := map (fun i0 : Z => IZR i0 * dx + a0) (Np.arange n0)).
    set (ys := map (fun j0 : Z => IZR j0 * dy + a1) (Np.arange n1)).
    assert (Lx : length xs = Z.to_nat n0)
      by (unfold xs; rewrite length_map; apply length_arange).
    assert (Ly : length ys = Z.to_nat n1)
      by (unfold ys; rewrite length_map; apply length_arange).
    assert (Fx : Forall (fun row : list R => length row = Z.to_nat n0)
                   (map (fun _ : R => xs) ys))
      by (apply Forall_forall; intros row Hrow;
          apply in_map_iff in Hrow; destruct Hrow as [y [<- _]]; exact Lx).
    assert (Fy : Forall (fun row : list R => length row = Z.to_nat n0)
                   (map (fun yj : R => map (fun _ : R => yj) xs) ys))
      by (apply Forall_forall; intros row Hrow;
          apply in_map_iff in Hrow; destruct Hrow as [y [<- _]];
          rewrite length_map; exact Lx).
    unfold Np.meshgrid. cbn [fst snd].
    rewrite nth_error_transpose_pair
      by (rewrite (length_concat_rows _ _ Fx), length_map, Ly; nia).
    rewrite (nth_concat_rows 0 _ _ Fx) by exact Hi.
    rewrite (nth_concat_rows 0 _ _ Fy) by exact Hi.
    rewrite (nth_map_in_range (fun _ : R => xs) ys j [] 0) by lia.
    rewrite (nth_map_in_range (fun yj : R => map (fun _ : R => yj) xs) ys j [] 0) by lia.
    rewrite (nth_map_in_range (fun _ : R => nth j ys 0) xs i 0 0) by lia.
    unfold xs at 1, ys.
    rewrite (nth_map_in_range _ (Np.arange n0) i 0 0%Z)
      by (rewrite length_arange; exact Hi).
    rewrite (nth_map_in_range _ (Np.arange n1) j 0 0%Z)
      by (rewrite length_arange; exact Hj).
    rewrite !nth_arange by assumption.
    reflexivity.
Qed.

(** C4: [embeddings(0)] gives every cell [e = j * n0 + i] the linear part
[diag((b0 - a0) / n0, (b1 - a1) / n1)] and as translation the lower left
corner [(a0 + i * (b0 - a0) / n0, a1 + j * (b1 - a1) / n1)] of the cell. *)
Theorem C4_rect_embeddings (n0 n1 : Z) (a0 a1 b0 b1 : R) (i j : Z) :
  (0 <= i < n0)%Z -> (0 <= j < n1)%Z ->
  exists A B,
    Rect.embeddings super_embeddings
      (Rect.__init__ (n0, n1) ((a0, a1), (b0, b1))) 0 = Ok (A, B) /\
    nth_error A (Z.to_nat (j * n0 + i)) =
      Some [[(b0 - a0) / IZR n0; 0]; [0; (b1 - a1) / IZR n1]] /\
    nth_error B (Z.to_nat (j * n0 + i)) =
      Some [a0 + IZR i * ((b0 - a0) / IZR n0); a1 + IZR j * ((b1 - a1) / IZR n1)].
Proof.
  intros Hi Hj.
  destruct (rect_embeddings_entry n0 n1 a0 a1 b0 b1 (Z.to_nat i) (Z.to_nat j))
    as [HA HB]; [ lia | lia | ].
  exists (fst (Rect.__embeddings (Rect.__init__ (n0, n1) ((a0, a1), (b0, b1))))).
  exists (snd (Rect.__embeddings (Rect.__init__ (n0, n1) ((a0, a1), (b0, b1))))).
  replace (Z.to_nat (j * n0 + i)) with (Z.to_nat j * Z.to_nat n0 + Z.to_nat i)%nat
    by (rewrite Z2Nat.inj_add, Z2Nat.inj_mul by nia; reflexivity).
  split; [ reflexivity | ].
  split; [ exact HA | ].
  rewrite HB, !Z2Nat.id by lia.
  do 2 f_equal; [ ring | f_equal; ring ].
Qed.

End RectGridEmbeddings.

Lemma C4_rect_embeddings_witness :
  exists A B,
    Rect.embeddings (fun _ _ => Raise (LookupError "inherited"))
      (Rect.__init__ (2, 3)%Z ((0, 0), (1, 1))%R) 0 = Ok (A, B) /\
    nth_error A (Z.to_nat (2 * 2 + 1)) =
      Some [[(1 - 0) / IZR 2; 0]; [0; (1 - 0) / IZR 3]]%R /\
    nth_error B (Z.to_nat (2 * 2 + 1)) =
      Some [0 + IZR 1 * ((1 - 0) / IZR 2); 0 + IZR 2 * ((1 - 0) / IZR 3)]%R.
Proof.
  apply (C4_rect_embeddings _ 2 3 0 0 1 1 1 2); lia.
Defined.

Section RectGridMeasures.

Variable super_subentities : Rect.RectGrid -> Z -> Z -> result (list (list Z)).
Variable super_embeddings :
  Rect.RectGrid -> Z -> result (list (list (list R)) * list (list R)).

Local Open Scope R_scope.

Lemma sum_repeat (v : R) (n : nat) : Np.sum (repeat v n) = INR n * v.
Proof.
  induction n as [ | n IH ].
  - cbn. ring.
  - rewrite S_INR. cbn [repeat Np.sum fold_right].
    fold (Np.sum (repeat v n)). rewrite IH. ring.
Qed.

Lemma det_gram_diag2 (dx dy : R) :
  AffineGrid.det (Np.matmul (Np.transpose 0 (Np.diag2 dx dy)) (Np.diag2 dx dy)) =
  (dx * dy) * (dx * dy).
Proof. np_eval. ring. Qed.

(** The integration element of an axis-aligned cell is its area. *)
Lemma integration_element_diag2 (dx dy : R) :
  0 <= dx -> 0 <= dy ->
  sqrt (AffineGrid.det (Np.matmul (Np.transpose 0 (Np.diag2 dx dy)) (Np.diag2 dx dy))) =
  dx * dy.
Proof.
  intros Hx Hy.
  rewrite det_gram_diag2.
  apply sqrt_square.
  apply Rmult_le_pos; assumption.
Qed.

Lemma volumes_repeat_diag2 (dx dy : R) (n : nat) :
  0 <= dx -> 0 <= dy ->
  AffineGrid.volumes square (repeat (Np.diag2 dx dy) n) = repeat (dx * dy) n.
Proof.
  intros Hx Hy.
  unfold AffineGrid.volumes, AffineGrid.integration_elements.
  rewrite !map_repeat, integration_element_diag2 by assumption.
  cbn [RE.volume]. unfold Square.volume.
  f_equal. ring.
Qed.

(** C3: the codim-0 volumes of a rectangular grid, one per cell, add up
to the measure [W * H] of the domain. *)
Theorem C3_rect_volumes_sum (n0 n1 : Z) (a0 a1 b0 b1 : R) :
  (0 < n0)%Z -> (0 < n1)%Z -> a0 <= b0 -> a1 <= b1 ->
  exists A B,
    Rect.embeddings super_embeddings
      (Rect.__init__ (n0, n1) ((a0, a1), (b0, b1))) 0 = Ok (A, B) /\
    Rect.size (Rect.__init__ (n0, n1) ((a0, a1), (b0, b1))) 0 =
      Ok (Z.of_nat (length (AffineGrid.volumes Rect.reference_element A))) /\
    Np.sum (AffineGrid.volumes Rect.reference_element A) = (b0 - a0) * (b1 - a1).
Proof.
  intros Hn0 Hn1 Ha Hb.
  assert (P0 : 0 < IZR n0) by (apply IZR_lt; exact Hn0).
  assert (P1 : 0 < IZR n1) by (apply IZR_lt; exact Hn1).
  assert (Dx : 0 <= (b0 - a0) / IZR n0)
    by (apply Rmult_le_pos; [ lra | left; apply Rinv_0_lt_compat; exact P0 ]).
  assert (Dy : 0 <= (b1 - a1) / IZR n1)
    by (apply Rmult_le_pos; [ lra | left; apply Rinv_0_lt_compat; exact P1 ]).
  eexists; eexists.
  split; [ reflexivity | ].
  unfold Rect.reference_element.
  cbn [fst snd].
  rewrite (volumes_repeat_diag2 _ _ _ Dx Dy).
  split.
  - rewrite repeat_length, Z2Nat.id by nia. reflexivity.
  - rewrite sum_repeat, INR_IZR_INZ, Z2Nat.id, mult_IZR by nia.
    field. split; apply Rgt_not_eq; assumption.
Qed.

End RectGridMeasures.

Lemma C3_rect_volumes_sum_witness :
  exists A B,
    Rect.embeddings (fun _ _ => Raise (LookupError "inherited"))
      (Rect.__init__ (2, 3)%Z ((0, 0), (4, 6))%R) 0 = Ok (A, B) /\
    Rect.size (Rect.__init__ (2, 3)%Z ((0, 0), (4, 6))%R) 0 =
      Ok (Z.of_nat (length (AffineGrid.volumes Rect.reference_element A))) /\
    Np.sum (AffineGrid.volumes Rect.reference_element A) = ((4 - 0) * (6 - 0))%R.
Proof.
  apply (C3_rect_volumes_sum _ 2 3 0 0 4 6); [ lia | lia | lra | lra ].
Defined.

Section RectGridNormals.

Variable super_subentities : Rect.RectGrid -> Z -> Z -> result (list (list Z)).
Variable super_embeddings :
  Rect.RectGrid -> Z -> result (list (list (list R)) * list (list R)).

Local Open Scope R_scope.

(** The transposed pseudo-inverse of an invertible diagonal matrix. *)
Lemma jacobian_inverse_transposed_diag2 (dx dy : R) :
  dx <> 0 -> dy <> 0 ->
  Np.transpose 0 (AffineGrid.pinv (Np.diag2 dx dy)) = Np.diag2 (/ dx) (/ dy).
Proof.
  intros Hx Hy.
  np_eval.
  repeat (f_equal; try (field; split; assumption)).
Qed.

(** The pseudo-inverse used here satisfies the four Penrose equations
on diagonal matrices. *)
Lemma pinv_diag2_penrose (dx dy : R) :
  dx <> 0 -> dy <> 0 ->
  let M := Np.diag2 dx dy in
  let P := AffineGrid.pinv M in
  Np.matmul (Np.matmul M P) M = M /\
  Np.matmul (Np.matmul P M) P = P /\
  Np.transpose 0 (Np.matmul M P) = Np.matmul M P /\
  Np.transpose 0 (Np.matmul P M) = Np.matmul P M.
Proof.
  intros Hx Hy M P.
  repeat split; np_eval;
    repeat (f_equal; try (field; split; assumption)).
Qed.

Lemma matvec_diag2 (p q u v : R) :
  Np.matvec (Np.diag2 p q) [u; v] = [p * u; q * v].
Proof. np_eval. f_equal; [ ring | f_equal; ring ]. Qed.

Lemma normalize_pair (x y r : R) :
  0 < r -> x * x + y * y = r * r ->
  AffineGrid.normalize [x; y] = [x / r; y / r].
Proof.
  intros Hr Hxy.
  unfold AffineGrid.normalize.
  rewrite norm_pair, Hxy, sqrt_square by lra.
  cbn [Np.vscale map].
  f_equal; [ field; lra | f_equal; field; lra ].
Qed.

(** On a cell with positive side lengths the physical unit outer normals
are the canonical ones of the reference square. *)
Lemma unit_outer_normals_diag2 (dx dy : R) :
  0 < dx -> 0 < dy ->
  map (fun n => AffineGrid.normalize
                  (Np.matvec (Np.transpose 0 (AffineGrid.pinv (Np.diag2 dx dy))) n))
    [ [0; -1]; [1; 0]; [0; 1]; [-1; 0] ] =
  [ [0; -1]; [1; 0]; [0; 1]; [-1; 0] ].
Proof.
  intros Hx Hy.
  assert (Ix : 0 < / dx) by (apply Rinv_0_lt_compat; exact Hx).
  assert (Iy : 0 < / dy) by (apply Rinv_0_lt_compat; exact Hy).
  rewrite jacobian_inverse_transposed_diag2 by lra.
  cbn [map].
  rewrite !matvec_diag2.
  rewrite (normalize_pair (/ dx * 0) (/ dy * -1) (/ dy)) by (lra || ring).
  rewrite (normalize_pair (/ dx * 1) (/ dy * 0) (/ dx)) by (lra || ring).
  rewrite (normalize_pair (/ dx * 0) (/ dy * 1) (/ dy)) by (lra || ring).
  rewrite (normalize_pair (/ dx * -1) (/ dy * 0) (/ dx)) by (lra || ring).
  repeat (f_equal; try (field; lra)).
Qed.

(** All cells of a grid of equal axis-aligned cells have the canonical
normals. *)
Lemma unit_outer_normals_repeat_diag2 (dx dy : R) (n : nat) :
  0 < dx -> 0 < dy ->
  AffineGrid.unit_outer_normals square (repeat (Np.diag2 dx dy) n) =
  Ok (repeat [ [0; -1]; [1; 0]; [0; 1]; [-1; 0] ] n).
Proof.
  intros Hx Hy.
  unfold AffineGrid.unit_outer_normals, AffineGrid.jacobian_inverse_transposed.
  cbn [RE.unit_outer_normals Square.unit_outer_normals Py.bind].
  rewrite !map_repeat, unit_outer_normals_diag2 by assumption.
  reflexivity.
Qed.

(** The transposed pseudo-inverse of an invertible matrix is the
transpose of its inverse, entry by entry. *)
Lemma jacobian_inverse_transposed_2x2 (a b c d : R) :
  a * d - b * c <> 0 ->
  Np.transpose 0 (AffineGrid.pinv [[a; b]; [c; d]]) =
  [[d / (a * d - b * c); - c / (a * d - b * c)];
   [- b / (a * d - b * c); a / (a * d - b * c)]].
Proof.
  intros Hd.
  np_eval.
  replace (1 * (a * a + (c * c + 0)) * (1 * (b * b + (d * d + 0)) * 1 + 0) +
     (-1 * 1 * (a * b + (c * d + 0)) * (1 * (b * a + (d * c + 0)) * 1 + 0) +
      0)) with ((a * d - b * c) * (a * d - b * c)) by ring.
  repeat match goal with
  | |- @eq (list _) (_ :: _) (_ :: _) => f_equal
  | |- @eq R _ _ => field; exact Hd
  end.
Qed.

(** A unit vector mapped through the transposed inverse does not vanish. *)
Lemma inverse_transposed_image_nonzero (a b c d u v : R) :
  a * d - b * c <> 0 -> u * u + v * v = 1 ->
  let w := Np.matvec [[d / (a * d - b * c); - c / (a * d - b * c)];
                      [- b / (a * d - b * c); a / (a * d - b * c)]] [u; v] in
  0 < Np.norm w.
Proof.
  intros Hd Hn w.
  unfold w. cbn [Np.matvec map Np.vdot].
  rewrite norm_pair.
  set (x := d / (a * d - b * c) * u + (- c / (a * d - b * c) * v + 0)).
  set (y := - b / (a * d - b * c) * u + (a / (a * d - b * c) * v + 0)).
  assert (Hu : a * x + c * y = u) by (unfold x, y; field; exact Hd).
  assert (Hv : b * x + d * y = v) by (unfold x, y; field; exact Hd).
  apply sqrt_lt_R0.
  destruct (Req_dec x 0) as [ Hx | Hx ].
  - destruct (Req_dec y 0) as [ Hy | Hy ].
    + rewrite Hx, Hy in Hu, Hv.
      assert (u = 0) by lra. assert (v = 0) by lra. subst u v. lra.
    + assert (0 < y * y) by (apply Rsqr_pos_lt; exact Hy). nra.
  - assert (0 < x * x) by (apply Rsqr_pos_lt; exact Hx). nra.
Qed.

Lemma norm_normalize_pair (x y : R) :
  0 < Np.norm [x; y] -> Np.norm (AffineGrid.normalize [x; y]) = 1.
Proof.
  intros Hr.
  assert (E : x * x + y * y = Np.norm [x; y] * Np.norm [x; y]).
  { rewrite norm_pair. rewrite sqrt_sqrt; [ reflexivity | nra ]. }
  rewrite (normalize_pair x y (Np.norm [x; y]) Hr E).
  set (r := Np.norm [x; y]) in *.
  rewrite norm_pair.
  apply sqrt_one_of.
  replace (x / r * (x / r) + y / r * (y / r)) with ((x * x + y * y) / (r * r))
    by (field; lra).
  rewrite E. field. lra.
Qed.

Lemma vdot_normalize_pair (x y p q : R) :
  Np.vdot (AffineGrid.normalize [x; y]) [p; q] =
  (x * p + y * q) / Np.norm [x; y].
Proof.
  unfold AffineGrid.normalize. cbn [Np.vscale map Np.vdot].
  unfold Rdiv. ring.
Qed.

(** The normal obtained from a reference direction [[u; v]] through the
transposed inverse of [[[a; b]; [c; d]]] has unit length, and its inner
product with the image of any reference vector [[e; f]] is the inner
product of the reference vectors, rescaled by a positive factor. *)
Lemma inverse_transposed_normal (a b c d u v e f : R) :
  a * d - b * c <> 0 -> u * u + v * v = 1 ->
  let n := AffineGrid.normalize
             (Np.matvec [[d / (a * d - b * c); - c / (a * d - b * c)];
                         [- b / (a * d - b * c); a / (a * d - b * c)]] [u; v]) in
  Np.norm n = 1 /\
  exists s, 0 < s /\
    Np.vdot n (Np.matvec [[a; b]; [c; d]] [e; f]) = s * (u * e + v * f).
Proof.
  intros Hd Hn n.
  pose proof (inverse_transposed_image_nonzero a b c d u v Hd Hn) as Hpos.
  cbv zeta in Hpos.
  unfold n. clear n.
  cbn [Np.matvec map Np.vdot] in *.
  split.
  - apply norm_normalize_pair. exact Hpos.
  - eexists. split; [ apply Rinv_0_lt_compat; exact Hpos | ].
    rewrite vdot_normalize_pair.
    unfold Rdiv at 1. rewrite Rmult_comm. f_equal.
    field. exact Hd.
Qed.

(** C2: on the grid with [(2, 2)] intervals over the unit square, cell 0
has linear part [diag(1/2, 1/2)], whose transposed inverse is
[diag(2, 2)]; the unit outer normal at its local edge 3, the left edge
(global edge 0), is the canonical normal [[-1; 0]] of that slot mapped
through this transposed inverse and rescaled to unit length, which is
[[-1; 0]].  The map that is used is the transposed inverse on every
invertible linear part [[[a; b]; [c; d]]], also where it differs from
the linear part and from its inverse: there each of the four unit outer
normals has unit length, is orthogonal to the image of its edge, and
points away from the image of the center. *)
Theorem C2_rect_left_edge_normal :
  (exists E A B n J N,
    Rect.subentities super_subentities
      (Rect.__init__ (2, 2)%Z ((0, 0), (1, 1))) 0 (Some 1%Z) = Ok E /\
    nth_error (nth 0 E []) 3 = Some 0%Z /\
    Rect.embeddings super_embeddings
      (Rect.__init__ (2, 2)%Z ((0, 0), (1, 1))) 0 = Ok (A, B) /\
    nth_error A 0 = Some [[1 / 2; 0]; [0; 1 / 2]] /\
    RE.unit_outer_normals Rect.reference_element = Ok (Arr2 n) /\
    nth_error n 3 = Some [-1; 0] /\
    AffineGrid.jacobian_inverse_transposed A = J /\
    nth_error J 0 = Some [[2; 0]; [0; 2]] /\
    AffineGrid.unit_outer_normals Rect.reference_element A = Ok N /\
    nth_error (nth 0 N []) 3 =
      Some (AffineGrid.normalize (Np.matvec (nth 0 J []) (nth 3 n []))) /\
    nth_error (nth 0 N []) 3 = Some [-1; 0]) /\
  (forall a b c d : R,
    a * d - b * c <> 0 ->
    let M := [[a; b]; [c; d]] in
    AffineGrid.jacobian_inverse_transposed [M] =
      [ [[d / (a * d - b * c); - c / (a * d - b * c)];
         [- b / (a * d - b * c); a / (a * d - b * c)]] ] /\
    exists N,
      AffineGrid.unit_outer_normals Rect.reference_element [M] = Ok [N] /\
      length N = 4%nat /\
      forall i, (i < 4)%nat ->
        Np.norm (nth i N []) = 1 /\
        Np.vdot (nth i N [])
          (Np.matvec M (Np.column 0 0%nat (nth i Square.edge_A []))) = 0 /\
        Np.vdot (nth i N [])
          (Np.matvec M
             (Np.vsub (Np.vadd (nth i Square.edge_B [])
                         (Np.matvec (nth i Square.edge_A []) Line.center))
                Square.center)) > 0).
Proof.
  split.
  - eexists.
    exists (repeat (Np.diag2 ((1 - 0) / 2) ((1 - 0) / 2)) 4).
    eexists.
    exists [ [0; -1]; [1; 0]; [0; 1]; [-1; 0] ].
    exists (repeat (Np.diag2 (/ ((1 - 0) / 2)) (/ ((1 - 0) / 2))) 4).
    exists (repeat [ [0; -1]; [1; 0]; [0; 1]; [-1; 0] ] 4).
    split; [ lazy; reflexivity | ].
    split; [ reflexivity | ].
    split; [ reflexivity | ].
    split; [ cbn [repeat nth_error]; unfold Np.diag2;
             repeat (f_equal; try lra) | ].
    split; [ reflexivity | ].
    split; [ reflexivity | ].
    split.
    { unfold AffineGrid.jacobian_inverse_transposed.
      rewrite map_repeat, jacobian_inverse_transposed_diag2 by lra.
      reflexivity. }
    split; [ cbn [repeat nth_error]; unfold Np.diag2;
             repeat (f_equal; try (field; lra)) | ].
    split; [ apply unit_outer_normals_repeat_diag2; lra | ].
    split; [ | reflexivity ].
    cbn [repeat nth nth_error].
    rewrite matvec_diag2.
    rewrite (normalize_pair (/ ((1 - 0) / 2) * -1) (/ ((1 - 0) / 2) * 0) 2)
      by (lra || field).
    repeat (f_equal; try (field; lra)).
  - intros a b c d Hd M.
    unfold AffineGrid.unit_outer_normals, AffineGrid.jacobian_inverse_transposed.
    cbn [RE.unit_outer_normals Rect.reference_element Square.unit_outer_normals
         Py.bind map].
    unfold M.
    rewrite jacobian_inverse_transposed_2x2 by exact Hd.
    split; [ reflexivity | ].
    eexists. split; [ reflexivity | ].
    split; [ reflexivity | ].
    intros i Hi.
    destruct i as [ | [ | [ | [ | i ] ] ] ]; [ | | | | lia ];
      cbn [nth Square.edge_A Square.edge_B Square.center Line.center
           Np.column map];
      match goal with
      | |- context [Np.vsub ?x ?y] =>
          let w := eval cbv -[Rplus Rmult Rminus Rdiv Rinv Ropp IZR] in (Np.vsub x y) in
          change (Np.vsub x y) with w
      end;
      match goal with
      | |- context [AffineGrid.normalize (Np.matvec _ [?u; ?v])] =>
          repeat match goal with
          | |- context [Np.matvec [[a; b]; [c; d]] ?w] =>
              match w with
              | [?e; ?f] =>
                  let H := fresh "H" in
                  let s := fresh "s" in
                  let Hs := fresh "Hs" in
                  let Hv := fresh "Hv" in
                  destruct (inverse_transposed_normal a b c d u v e f Hd
                              ltac:(ring)) as [ H [ s [ Hs Hv ] ] ];
                  rewrite Hv; clear Hv
              end
          end
      end.
    all: repeat split; try assumption; nra.
Qed.

End RectGridNormals.

Lemma C2_rect_left_edge_normal_witness :
  (AffineGrid.jacobian_inverse_transposed [ [[1; 1]; [0; 1]] ] =
     [ [[1 / (1 * 1 - 1 * 0); - 0 / (1 * 1 - 1 * 0)];
        [- 1 / (1 * 1 - 1 * 0); 1 / (1 * 1 - 1 * 0)]] ])%R.
Proof.
  destruct (C2_rect_left_edge_normal
              (fun _ _ _ => Raise (LookupError "inherited"))
              (fun _ _ => Raise (LookupError "inherited"))) as [ _ H ].
  apply (H 1 1 0 1)%R.
  lra.
Defined.

(** ** Diameters of mapped reference shapes *)

Section MappedDiameter.

Local Open Scope R_scope.

Lemma gram_diag_nonneg (c : nat) (M : list (list R)) : 0 <= Shape.gram c c M.
Proof.
  unfold Shape.gram.
  induction M as [ | row M IH ]; cbn [map Np.sum fold_right].
  - lra.
  - fold (Np.sum (map (fun row0 => nth c row0 0 * nth c row0 0) M)).
    nra.
Qed.

Lemma vsub_map {T : Type} (f g : T -> R) (l : list T) :
  Np.vsub (map f l) (map g l) = map (fun x => f x - g x) l.
Proof.
  induction l as [ | x l IH ]; cbn [map Np.vsub].
  - reflexivity.
  - rewrite IH. reflexivity.
Qed.

(** Squared distance of the images of two points under a matrix with two
columns, as a quadratic form in the difference of the points. *)
Lemma dist_square_image (M : list (list R)) (s1 t1 s2 t2 : R) :
  Shape.has_columns 2 M ->
  Shape.dist (Np.matvec M [s1; t1]) (Np.matvec M [s2; t2]) =
  sqrt (Shape.gram 0 0 M * ((s1 - s2) * (s1 - s2)) +
        2 * Shape.gram 0 1 M * ((s1 - s2) * (t1 - t2)) +
        Shape.gram 1 1 M * ((t1 - t2) * (t1 - t2))).
Proof.
  intros HM.
  unfold Shape.dist, Np.norm, Np.matvec.
  rewrite vsub_map, map_map.
  f_equal.
  unfold Shape.gram.
  induction HM as [ | row M Hrow HM IH ]; cbn [map Np.sum fold_right].
  - ring.
  - destruct row as [ | p [ | q [ | ] ] ]; try discriminate Hrow.
    unfold Np.sum in IH. rewrite IH.
    cbn [Np.vdot nth]. ring.
Qed.

Lemma norm_square_image (M : list (list R)) (s t : R) :
  Shape.has_columns 2 M ->
  Np.norm (Np.matvec M [s; t]) =
  sqrt (Shape.gram 0 0 M * (s * s) + 2 * Shape.gram 0 1 M * (s * t) + Shape.gram 1 1 M * (t * t)).
Proof.
  intros HM.
  unfold Np.norm, Np.matvec.
  rewrite map_map.
  f_equal.
  unfold Shape.gram.
  induction HM as [ | row M Hrow HM IH ]; cbn [map Np.sum fold_right].
  - ring.
  - destruct row as [ | p [ | q [ | ] ] ]; try discriminate Hrow.
    unfold Np.sum in IH. rewrite IH.
    cbn [Np.vdot nth]. ring.
Qed.

(** The image of the unit square is a parallelogram; its diameter is the
length of its longer diagonal. *)
Lemma square_image_diameter (M : list (list R)) :
  Shape.has_columns 2 M ->
  Shape.image_diameter square M
    (Rmax (Np.norm (Np.matvec M [1; 1])) (Np.norm (Np.matvec M [1; -1]))).
Proof.
  intros HM.
  pose proof (gram_diag_nonneg 0 M) as Ha.
  pose proof (gram_diag_nonneg 1 M) as Hb.
  rewrite !(norm_square_image _ _ _ HM).
  split.
  - intros x y [s1 [t1 [-> [Hs1 Ht1]]]] [s2 [t2 [-> [Hs2 Ht2]]]].
    rewrite (dist_square_image _ _ _ _ _ HM).
    set (s := s1 - s2). set (t := t1 - t2).
    assert (Hs : -1 <= s <= 1) by (unfold s; lra).
    assert (Ht : -1 <= t <= 1) by (unfold t; lra).
    assert (Hss : s * s <= 1) by nra.
    assert (Htt : t * t <= 1) by nra.
    assert (Hst : -1 <= s * t <= 1) by nra.
    destruct (Rle_dec 0 (Shape.gram 0 1 M)) as [Hc | Hc].
    + eapply Rle_trans; [ | apply Rmax_l ].
      apply sqrt_le_1_alt. nra.
    + eapply Rle_trans; [ | apply Rmax_r ].
      apply sqrt_le_1_alt. nra.
  - unfold Rmax.
    match goal with
    | |- context [Rle_dec ?p ?q] => destruct (Rle_dec p q) as [E | E]
    end.
    + exists [1; 0], [0; 1].
      split; [ exists 1, 0; split; [ reflexivity | lra ] | ].
      split; [ exists 0, 1; split; [ reflexivity | lra ] | ].
      rewrite (dist_square_image _ _ _ _ _ HM).
      f_equal. ring.
    + exists [1; 1], [0; 0].
      split; [ exists 1, 1; split; [ reflexivity | lra ] | ].
      split; [ exists 0, 0; split; [ reflexivity | lra ] | ].
      rewrite (dist_square_image _ _ _ _ _ HM).
      f_equal. ring.
Qed.

End MappedDiameter.

Section MappedDiameterBatch.

Local Open Scope R_scope.

Lemma dist_line_image (M : list (list R)) (s t : R) :
  Shape.has_columns 1 M ->
  Shape.dist (Np.matvec M [s]) (Np.matvec M [t]) =
  sqrt (Shape.gram 0 0 M * ((s - t) * (s - t))).
Proof.
  intros HM.
  unfold Shape.dist, Np.norm, Np.matvec.
  rewrite vsub_map, map_map.
  f_equal.
  unfold Shape.gram.
  induction HM as [ | row M Hrow HM IH ]; cbn [map Np.sum fold_right].
  - ring.
  - destruct row as [ | p [ | ] ]; try discriminate Hrow.
    unfold Np.sum in IH. rewrite IH.
    cbn [Np.vdot nth]. ring.
Qed.

Lemma norm_column_0 (M : list (list R)) :
  Np.norm (Np.column 0 0 M) = sqrt (Shape.gram 0 0 M).
Proof.
  unfold Np.norm, Np.column, Shape.gram.
  rewrite map_map. reflexivity.
Qed.

(** The image of the unit interval is a segment as long as the column. *)
Lemma line_image_diameter (M : list (list R)) :
  Shape.has_columns 1 M ->
  Shape.image_diameter line M (Np.norm (Np.column 0 0 M)).
Proof.
  intros HM.
  pose proof (gram_diag_nonneg 0 M) as Ha.
  rewrite norm_column_0.
  split.
  - intros x y [s [-> Hs]] [t [-> Ht]].
    rewrite (dist_line_image _ _ _ HM).
    apply sqrt_le_1_alt.
    assert (H : (s - t) * (s - t) <= 1) by nra.
    nra.
  - exists [1], [0].
    split; [ exists 1; split; [ reflexivity | lra ] | ].
    split; [ exists 0; split; [ reflexivity | lra ] | ].
    rewrite (dist_line_image _ _ _ HM).
    f_equal. ring.
Qed.

Lemma sum_squares_zero {T : Type} (l : list T) :
  Np.sum (map (fun x => x * x) (Np.vsub (map (fun _ => 0) l) (map (fun _ => 0) l))) = 0.
Proof.
  induction l as [ | x l IH ]; cbn [map Np.vsub Np.sum fold_right].
  - reflexivity.
  - unfold Np.sum in IH. rewrite IH. ring.
Qed.

(** The image of a single point is a single point: distances in it are 0. *)
Lemma point_image_dist (M : list (list R)) (x y : list R) :
  Shape.in_shape point x -> Shape.in_shape point y ->
  Shape.dist (Np.matvec M x) (Np.matvec M y) = 0.
Proof.
  cbn [Shape.in_shape]. intros -> ->.
  unfold Shape.dist, Np.norm, Np.matvec.
  replace (map (fun row => Np.vdot row []) M) with (map (fun _ : list R => 0) M)
    by (apply map_ext; intros [ | p row ]; reflexivity).
  rewrite sum_squares_zero. apply sqrt_0.
Qed.

Lemma point_image_diameter (M : list (list R)) (d : R) :
  Shape.image_diameter point M d <-> d = 0.
Proof.
  split.
  - intros [_ [x [y [Hx [Hy Hd]]]]].
    rewrite (point_image_dist M x y Hx Hy) in Hd. symmetry. exact Hd.
  - intros ->. split.
    + intros x y Hx Hy. rewrite (point_image_dist M x y Hx Hy). lra.
    + exists [], []. repeat split. apply (point_image_dist M [] []); reflexivity.
Qed.

Lemma dot_aligned (A : list (list (list R))) (v : list R) :
  Forall (Shape.has_columns (length v)) A ->
  Np.dot A v = Ok (map (fun M => Np.matvec M v) A).
Proof.
  intros HA. unfold Np.dot.
  replace (forallb (forallb (fun row => Nat.eqb (length row) (length v))) A) with true;
    [ reflexivity | ].
  symmetry. apply forallb_forall. intros M HM.
  apply forallb_forall. intros row Hrow.
  apply Nat.eqb_eq.
  rewrite Forall_forall in HA.
  specialize (HA M HM). unfold Shape.has_columns in HA.
  rewrite Forall_forall in HA. apply HA, Hrow.
Qed.

Lemma map_combine_maps {S T U V : Type} (f : S -> T) (g : S -> U) (h : T * U -> V)
  (l : list S) :
  map h (combine (map f l) (map g l)) = map (fun x => h (f x, g x)) l.
Proof.
  induction l as [ | x l IH ]; cbn [map combine].
  - reflexivity.
  - rewrite IH. reflexivity.
Qed.

Lemma norm_along_last_axis_nonempty (V : list (list R)) :
  V <> [] -> Np.norm_along_last_axis V = Ok (map Np.norm V).
Proof.
  destruct V; [ congruence | reflexivity ].
Qed.

Lemma map_nonempty {S T : Type} (f : S -> T) (l : list S) :
  l <> [] -> map f l <> [].
Proof.
  destruct l; [ congruence | discriminate ].
Qed.

(** What [Square.mapped_diameter] returns on a batch, not empty, of
matrices with two columns. *)
Lemma square_mapped_diameter_value (A : list (list (list R))) :
  A <> [] ->
  Forall (Shape.has_columns 2) A ->
  Square.mapped_diameter A =
  Ok (map (fun M => Rmax (Np.norm (Np.matvec M [1; 1])) (Np.norm (Np.matvec M [1; -1]))) A).
Proof.
  intros Hne HA. unfold Square.mapped_diameter.
  rewrite !dot_aligned by exact HA.
  cbn [Py.bind].
  rewrite !norm_along_last_axis_nonempty by (apply map_nonempty; exact Hne).
  cbn [Py.bind].
  rewrite !map_map.
  rewrite (map_combine_maps
             (fun M => Np.norm (Np.matvec M [1; 1]))
             (fun M => Np.norm (Np.matvec M [1; -1]))
             (fun p => Rmax (fst p) (snd p))).
  reflexivity.
Qed.

(** On an empty batch [Square.mapped_diameter] raises. *)
Lemma square_mapped_diameter_empty : Py.raises (Square.mapped_diameter []).
Proof.
  eexists. reflexivity.
Qed.

(** What [Line.mapped_diameter] returns on a batch, not empty, of
matrices with one column. *)
Lemma line_mapped_diameter_value (A : list (list (list R))) :
  A <> [] ->
  Forall (Shape.linear_map_on line) A ->
  Line.mapped_diameter A = Ok (map (fun M => [Np.norm (Np.column 0 0 M)]) A).
Proof.
  intros Hne HA. unfold Line.mapped_diameter.
  assert (Hcols : Forall (fun M => Np.ncols M = 1%nat) A).
  { eapply Forall_impl; [ | exact HA ].
    intros M [HM Hm].
    change (Z.to_nat (RE.dim line)) with 1%nat in HM.
    destruct M as [ | row M ]; [ congruence | ].
    inversion HM; subst. assumption. }
  replace (Nat.eqb (length A) 0) with false
    by (destruct A; [ congruence | reflexivity ]).
  replace (existsb (fun M => Nat.eqb (Np.ncols M) 0) A) with false.
  - cbn [orb]. f_equal.
    apply map_ext_in. intros M HM.
    rewrite Forall_forall in Hcols. rewrite (Hcols M HM). reflexivity.
  - symmetry.
    destruct (existsb (fun M => Nat.eqb (Np.ncols M) 0) A) eqn:E; [ | reflexivity ].
    apply existsb_exists in E. destruct E as [M [HM E]].
    rewrite Forall_forall in Hcols. rewrite (Hcols M HM) in E. discriminate E.
Qed.

Lemma Forall2_map_r {S T : Type} (P : S -> T -> Prop) (f : S -> T) (l : list S) :
  Forall (fun x => P x (f x)) l -> Forall2 P l (map f l).
Proof.
  induction 1; cbn [map]; constructor; assumption.
Qed.

End MappedDiameterBatch.

Section MappedDiameterClaim.

Local Open Scope R_scope.

Lemma linear_map_on_columns (r : ReferenceElement) (k : nat) (A : list (list (list R))) :
  Z.to_nat (RE.dim r) = k ->
  Forall (Shape.linear_map_on r) A -> Forall (Shape.has_columns k) A.
Proof.
  intros <- HA.
  eapply Forall_impl; [ | exact HA ].
  intros M [HM _]. exact HM.
Qed.

(** For [Square] and [Line], [mapped_diameter] returns for every linear
map of a batch that is not empty the diameter of the image of the
reference shape: the longer diagonal
[max (norm (A (1, 1))) (norm (A (1, -1)))] for [Square] and, in a row of
its own, the norm of the column for [Line]. *)
Theorem mapped_diameter_is_image_diameter
  (r : ReferenceElement) (A : list (list (list R))) :
  r <> point -> A <> [] -> Forall (Shape.linear_map_on r) A ->
  exists out,
    RE.mapped_diameter r A = Ok out /\
    match r, out with
    | square, Arr1 ds =>
        Forall2 (fun M d =>
                   Shape.image_diameter square M d /\
                   d = Rmax (Np.norm (Np.matvec M [1; 1]))
                         (Np.norm (Np.matvec M [1; -1])))
          A ds
    | line, Arr2 rows =>
        Forall2 (fun M row =>
                   row = [Np.norm (Np.column 0 0 M)] /\
                   Shape.image_diameter line M (Np.norm (Np.column 0 0 M)))
          A rows
    | _, _ => False
    end.
Proof.
  intros Hr Hne HA.
  destruct r; [ congruence | | ].
  - eexists. split.
    + cbn [RE.mapped_diameter].
      rewrite (line_mapped_diameter_value A Hne HA). reflexivity.
    + apply Forall2_map_r.
      eapply Forall_impl; [ | exact HA ].
      intros M [HM _].
      change (Z.to_nat (RE.dim line)) with 1%nat in HM.
      split; [ reflexivity | apply line_image_diameter; exact HM ].
  - pose proof (linear_map_on_columns square 2 A eq_refl HA) as HA2.
    eexists. split.
    + cbn [RE.mapped_diameter].
      rewrite (square_mapped_diameter_value A Hne HA2). reflexivity.
    + apply Forall2_map_r.
      eapply Forall_impl; [ | exact HA2 ].
      intros M HM.
      split; [ apply square_image_diameter; exact HM | reflexivity ].
Qed.

End MappedDiameterClaim.

Lemma mapped_diameter_is_image_diameter_witness :
  exists out,
    RE.mapped_diameter square [ [[2; 0]; [0; 1]]%R ] = Ok out /\
    match out with
    | Arr1 ds =>
        Forall2 (fun M d =>
                   Shape.image_diameter square M d /\
                   d = Rmax (Np.norm (Np.matvec M [1; 1]%R))
                         (Np.norm (Np.matvec M [1; -1]%R)))
          [ [[2; 0]; [0; 1]]%R ] ds
    | _ => False
    end.
Proof.
  apply (mapped_diameter_is_image_diameter square [ [[2; 0]; [0; 1]]%R ]).
  - discriminate.
  - discriminate.
  - repeat constructor. discriminate.
Defined.

(** C6: [mapped_diameter] is claimed to return the diameter of the image
of the reference shape for every reference element.  [Point] does not:
on every batch [Point.mapped_diameter] returns 1 for each linear map,
while the image of the single point has diameter 0 under every map, and
1 is not its diameter; so it is on the batch holding the linear part of
a vertex of a grid in the plane. *)
Theorem C6_point_mapped_diameter_is_one :
  (forall A : list (list (list R)),
     RE.mapped_diameter point A = Ok (Arr1 (repeat 1%R (length A)))) /\
  (forall M : list (list R),
     Shape.image_diameter point M 0 /\ ~ Shape.image_diameter point M 1) /\
  (exists M d,
     Shape.linear_map_on point M /\
     RE.mapped_diameter point [M] = Ok (Arr1 [d]) /\
     d = 1%R /\
     Shape.image_diameter point M 0 /\
     ~ Shape.image_diameter point M d).
Proof.
  split; [ | split ].
  - intros A. cbn [RE.mapped_diameter]. unfold Point.mapped_diameter.
    do 2 f_equal.
    induction A as [ | M A IH ]; cbn [map length repeat]; [ reflexivity | ].
    f_equal. exact IH.
  - intros M. split.
    + apply point_image_diameter; reflexivity.
    + intros H. apply point_image_diameter in H. lra.
  - exists [[]; []], 1%R.
    split; [ split; [ repeat constructor | discriminate ] | ].
    split; [ reflexivity | ].
    split; [ reflexivity | ].
    split; [ apply point_image_diameter; reflexivity | ].
    intros H. apply point_image_diameter in H. lra.
Qed.

(** * Further properties of the grid tables *)

(** Equality of lists of integers, entry by entry. *)
Ltac entrywise_lia := repeat first [ reflexivity | lia | f_equal ].

Section RectTables.

Variable super_subentities : Rect.RectGrid -> Z -> Z -> result (list (list Z)).

Local Open Scope Z_scope.

Lemma int32_in_range (z : Z) :
  -2147483648 <= z < 2147483648 -> Np.int32 z = z.
Proof.
  intros Hz. unfold Np.int32.
  rewrite Z.mod_small by lia. lia.
Qed.

(** Row [k] of a transpose collects entry [k] of every row. *)
Lemma nth_error_transpose {T : Type} (d : T) (M : list (list T)) (k : nat) :
  (k < Np.ncols M)%nat ->
  nth_error (Np.transpose d M) k = Some (map (fun row => nth k row d) M).
Proof.
  intros Hk. unfold Np.transpose.
  rewrite nth_error_map, nth_error_seq.
  destruct (Nat.ltb_spec k (Np.ncols M)); [ reflexivity | lia ].
Qed.

Lemma cell_to_nat (n0 i j : Z) :
  0 <= i < n0 -> 0 <= j ->
  Z.to_nat (Lattice.cell_index n0 i j) = (Z.to_nat j * Z.to_nat n0 + Z.to_nat i)%nat.
Proof.
  intros Hi Hj. unfold Lattice.cell_index.
  rewrite Z2Nat.inj_add, Z2Nat.inj_mul by nia. reflexivity.
Qed.

(** Entry [j * n0 + i] of the array [EVL] of [__init__]. *)
Lemma nth_EVL (n0 n1 : Z) (i j : nat) :
  Lattice.fits_int32 n0 n1 ->
  (i < Z.to_nat n0)%nat -> (j < Z.to_nat n1)%nat ->
  nth (j * Z.to_nat n0 + i)
    (concat (map (fun r => map (fun c => Np.int32 (r + c)) (Np.arange n0))
               (map (fun j0 => Np.int32 (j0 * (n0 + 1))) (Np.arange n1)))) 0 =
  Lattice.corner_index n0 (Z.of_nat i) (Z.of_nat j).
Proof.
  intros Hfit Hi Hj. unfold Lattice.fits_int32 in Hfit.
  set (rows := map (fun r => map (fun c => Np.int32 (r + c)) (Np.arange n0))
                 (map (fun j0 => Np.int32 (j0 * (n0 + 1))) (Np.arange n1))).
  assert (F : Forall (fun row : list Z => length row = Z.to_nat n0) rows).
  { apply Forall_forall. intros row Hrow.
    apply in_map_iff in Hrow. destruct Hrow as [r [<- _]].
    rewrite length_map. apply length_arange. }
  rewrite (nth_concat_rows 0 _ _ F) by exact Hi.
  unfold rows.
  rewrite (nth_map_in_range _ _ j [] 0)
    by (rewrite length_map, length_arange; exact Hj).
  rewrite (nth_map_in_range _ (Np.arange n1) j 0 0)
    by (rewrite length_arange; exact Hj).
  rewrite (nth_map_in_range _ (Np.arange n0) i 0 0)
    by (rewrite length_arange; exact Hi).
  rewrite !nth_arange by assumption.
  unfold Lattice.corner_index.
  rewrite (int32_in_range (Z.of_nat j * (n0 + 1))) by nia.
  apply int32_in_range. nia.
Qed.

Lemma length_EVL (n0 n1 : Z) :
  length
    (concat (map (fun r => map (fun c => Np.int32 (r + c)) (Np.arange n0))
               (map (fun j0 => Np.int32 (j0 * (n0 + 1))) (Np.arange n1)))) =
  (Z.to_nat n1 * Z.to_nat n0)%nat.
Proof.
  rewrite (length_concat_rows (Z.to_nat n0)).
  - rewrite !length_map, length_arange. reflexivity.
  - apply Forall_forall. intros row Hrow.
    apply in_map_iff in Hrow. destruct Hrow as [r [<- _]].
    rewrite length_map. apply length_arange.
Qed.

(** The vertices of a cell, as [subentities(0, 2)] lists them. *)
Lemma rect_vertex_row (n0 n1 : Z) (domain : (R * R) * (R * R)) (i j : Z) :
  Lattice.fits_int32 n0 n1 -> 0 <= i < n0 -> 0 <= j < n1 ->
  nth_error (snd (Rect.__subentities (Rect.__init__ (n0, n1) domain)))
    (Z.to_nat (Lattice.cell_index n0 i j)) =
  Some [ Lattice.corner_index n0 i j; Lattice.corner_index n0 i j + 1;
         Lattice.corner_index n0 i j + n0 + 2; Lattice.corner_index n0 i j + n0 + 1 ].
Proof.
  intros Hfit Hi Hj.
  rewrite cell_to_nat by lia.
  unfold Rect.__init__. cbn [Rect.__subentities snd fst].
  rewrite nth_error_map.
  erewrite nth_error_nth'
    by (rewrite length_EVL; nia).
  rewrite (nth_EVL n0 n1 _ _ Hfit) by lia.
  rewrite !Z2Nat.id by lia.
  cbn [option_map map].
  unfold Lattice.fits_int32 in Hfit. unfold Lattice.corner_index.
  rewrite !int32_in_range by nia.
  entrywise_lia.
Qed.

(** The edges of a cell, as [subentities(0, 1)] lists them: bottom, right,
top, left. *)
Lemma rect_edge_row (n0 n1 : Z) (domain : (R * R) * (R * R)) (i j : Z) :
  Lattice.fits_int32 n0 n1 -> 0 <= i < n0 -> 0 <= j < n1 ->
  nth_error (fst (Rect.__subentities (Rect.__init__ (n0, n1) domain)))
    (Z.to_nat (Lattice.cell_index n0 i j)) =
  Some [ (n0 + 1) * n1 + Lattice.cell_index n0 i j;
         Lattice.corner_index n0 i j + 1;
         (n0 + 1) * n1 + Lattice.cell_index n0 i j + n0;
         Lattice.corner_index n0 i j ].
Proof.
  intros Hfit Hi Hj.
  assert (Hk : (Z.to_nat j * Z.to_nat n0 + Z.to_nat i < Z.to_nat (n0 * n1))%nat)
    by (rewrite Z2Nat.inj_mul by lia; nia).
  rewrite cell_to_nat by lia.
  unfold Rect.__init__. cbn [Rect.__subentities snd fst].
  rewrite nth_error_transpose
    by (cbn [Np.ncols]; rewrite length_map, length_arange; exact Hk).
  cbn [map].
  rewrite !(nth_map_in_range _ _ _ 0 0)
    by (rewrite ?length_map, ?length_EVL, ?length_arange; first [ exact Hk | nia ]).
  rewrite nth_arange by exact Hk.
  rewrite (nth_EVL n0 n1 _ _ Hfit) by lia.
  rewrite !Z2Nat.id by lia.
  unfold Lattice.fits_int32 in Hfit. unfold Lattice.corner_index, Lattice.cell_index.
  rewrite Nat2Z.inj_add, Nat2Z.inj_mul, !Z2Nat.id by lia.
  rewrite (int32_in_range (j * n0 + i + (n0 + 1) * n1)) by nia.
  rewrite !int32_in_range by nia.
  entrywise_lia.
Qed.

End RectTables.

Section RectConformity.

Variable super_subentities : Rect.RectGrid -> Z -> Z -> result (list (list Z)).

Local Open Scope Z_scope.

Lemma rect_subentities_0_1 (g : Rect.RectGrid) :
  Rect.subentities super_subentities g 0 (Some 1) = Ok (fst (Rect.__subentities g)).
Proof. reflexivity. Qed.

Lemma rect_subentities_0_2 (g : Rect.RectGrid) :
  Rect.subentities super_subentities g 0 (Some 2) = Ok (snd (Rect.__subentities g)).
Proof. reflexivity. Qed.

(** Two cells side by side share an edge: the right edge (slot 1) of the
left cell is the left edge (slot 3) of the right cell. *)
Theorem rect_horizontal_neighbours_share_edge
  (n0 n1 : Z) (domain : (R * R) * (R * R)) (i j : Z) :
  Lattice.fits_int32 n0 n1 -> 0 <= i -> i + 1 < n0 -> 0 <= j < n1 ->
  exists T left_cell right_cell edge,
    Rect.subentities super_subentities (Rect.__init__ (n0, n1) domain) 0 (Some 1) = Ok T /\
    nth_error T (Z.to_nat (Lattice.cell_index n0 i j)) = Some left_cell /\
    nth_error T (Z.to_nat (Lattice.cell_index n0 (i + 1) j)) = Some right_cell /\
    nth_error left_cell 1 = Some edge /\
    nth_error right_cell 3 = Some edge.
Proof.
  intros Hfit Hi Hi1 Hj.
  eexists; eexists; eexists; eexists.
  split; [ apply rect_subentities_0_1 | ].
  split; [ apply rect_edge_row; [ exact Hfit | lia | lia ] | ].
  split; [ apply rect_edge_row; [ exact Hfit | lia | lia ] | ].
  cbn [nth_error].
  split; [ reflexivity | ].
  f_equal. unfold Lattice.corner_index. ring.
Qed.

(** Two cells on top of each other share an edge: the top edge (slot 2)
of the lower cell is the bottom edge (slot 0) of the upper cell. *)
Theorem rect_vertical_neighbours_share_edge
  (n0 n1 : Z) (domain : (R * R) * (R * R)) (i j : Z) :
  Lattice.fits_int32 n0 n1 -> 0 <= i < n0 -> 0 <= j -> j + 1 < n1 ->
  exists T lower_cell upper_cell edge,
    Rect.subentities super_subentities (Rect.__init__ (n0, n1) domain) 0 (Some 1) = Ok T /\
    nth_error T (Z.to_nat (Lattice.cell_index n0 i j)) = Some lower_cell /\
    nth_error T (Z.to_nat (Lattice.cell_index n0 i (j + 1))) = Some upper_cell /\
    nth_error lower_cell 2 = Some edge /\
    nth_error upper_cell 0 = Some edge.
Proof.
  intros Hfit Hi Hj Hj1.
  eexists; eexists; eexists; eexists.
  split; [ apply rect_subentities_0_1 | ].
  split; [ apply rect_edge_row; [ exact Hfit | lia | lia ] | ].
  split; [ apply rect_edge_row; [ exact Hfit | lia | lia ] | ].
  cbn [nth_error].
  split; [ reflexivity | ].
  f_equal. unfold Lattice.cell_index. ring.
Qed.

(** The number of cells, edges and vertices satisfies Euler's formula for
a subdivided rectangle, for all interval counts. *)
Theorem rect_sizes_euler (n0 n1 : Z) (domain : (R * R) * (R * R)) :
  exists s0 s1 s2,
    Rect.size (Rect.__init__ (n0, n1) domain) 0 = Ok s0 /\
    Rect.size (Rect.__init__ (n0, n1) domain) 1 = Ok s1 /\
    Rect.size (Rect.__init__ (n0, n1) domain) 2 = Ok s2 /\
    s2 - s1 + s0 = 1.
Proof.
  exists (n0 * n1), ((n0 + 1) * n1 + (n1 + 1) * n0), ((n0 + 1) * (n1 + 1)).
  split; [ reflexivity | ].
  split; [ reflexivity | ].
  split; [ reflexivity | ].
  ring.
Qed.

Lemma index_in_lattice (N0 N1 k : nat) :
  (k < N1 * N0)%nat ->
  exists i j, (i < N0)%nat /\ (j < N1)%nat /\ k = (j * N0 + i)%nat.
Proof.
  intros Hk.
  assert (HN : N0 <> 0%nat) by (intros ->; lia).
  exists (k mod N0)%nat, (k / N0)%nat.
  split; [ apply Nat.mod_upper_bound; exact HN | ].
  split.
  - apply Nat.Div0.div_lt_upper_bound. lia.
  - rewrite (Nat.div_mod_eq k N0) at 1. lia.
Qed.

Lemma length_edge_table (n0 n1 : Z) (domain : (R * R) * (R * R)) :
  0 <= n0 -> 0 <= n1 ->
  length (fst (Rect.__subentities (Rect.__init__ (n0, n1) domain))) =
  (Z.to_nat n1 * Z.to_nat n0)%nat.
Proof.
  intros H0 H1.
  unfold Rect.__init__. cbn [Rect.__subentities fst snd].
  unfold Np.transpose. rewrite length_map, length_seq.
  cbn [Np.ncols]. rewrite length_map, length_arange.
  rewrite Z2Nat.inj_mul by lia. lia.
Qed.

Lemma length_vertex_table (n0 n1 : Z) (domain : (R * R) * (R * R)) :
  length (snd (Rect.__subentities (Rect.__init__ (n0, n1) domain))) =
  (Z.to_nat n1 * Z.to_nat n0)%nat.
Proof.
  unfold Rect.__init__. cbn [Rect.__subentities fst snd].
  rewrite length_map. apply length_EVL.
Qed.

(** A row of a table, located on the lattice. *)
Lemma row_on_lattice (n0 n1 : Z) (T : list (list Z)) (row : list Z) :
  0 <= n0 -> 0 <= n1 ->
  length T = (Z.to_nat n1 * Z.to_nat n0)%nat ->
  In row T ->
  exists i j, 0 <= i < n0 /\ 0 <= j < n1 /\
              nth_error T (Z.to_nat (Lattice.cell_index n0 i j)) = Some row.
Proof.
  intros H0 H1 HT Hrow.
  apply In_nth_error in Hrow. destruct Hrow as [k Hk].
  assert (Hlt : (k < length T)%nat) by (apply nth_error_Some; congruence).
  rewrite HT in Hlt.
  destruct (index_in_lattice _ _ _ Hlt) as [i [j [Hi [Hj ->]]]].
  exists (Z.of_nat i), (Z.of_nat j).
  split; [ lia | ]. split; [ lia | ].
  rewrite cell_to_nat, !Nat2Z.id by lia.
  exact Hk.
Qed.

(** Every entry of the two stored tables is a valid global index: an edge
index below [size(1)], a vertex index below [size(2)]. *)
Theorem rect_subentities_indices_valid (n0 n1 : Z) (domain : (R * R) * (R * R)) :
  Lattice.fits_int32 n0 n1 -> 0 <= n0 -> 0 <= n1 ->
  exists E V s1 s2,
    Rect.subentities super_subentities (Rect.__init__ (n0, n1) domain) 0 (Some 1) = Ok E /\
    Rect.subentities super_subentities (Rect.__init__ (n0, n1) domain) 0 (Some 2) = Ok V /\
    Rect.size (Rect.__init__ (n0, n1) domain) 1 = Ok s1 /\
    Rect.size (Rect.__init__ (n0, n1) domain) 2 = Ok s2 /\
    Forall (Forall (fun e => 0 <= e < s1)) E /\
    Forall (Forall (fun v => 0 <= v < s2)) V.
Proof.
  intros Hfit H0 H1.
  eexists; eexists.
  exists ((n0 + 1) * n1 + (n1 + 1) * n0), ((n0 + 1) * (n1 + 1)).
  split; [ apply rect_subentities_0_1 | ].
  split; [ apply rect_subentities_0_2 | ].
  split; [ reflexivity | ].
  split; [ reflexivity | ].
  unfold Lattice.fits_int32 in Hfit.
  split; apply Forall_forall; intros row Hrow.
  - destruct (row_on_lattice n0 n1 _ row H0 H1 (length_edge_table n0 n1 domain H0 H1) Hrow)
      as [i [j [Hi [Hj Hnth]]]].
    rewrite (rect_edge_row n0 n1 domain i j Hfit Hi Hj) in Hnth.
    inversion Hnth; subst row.
    unfold Lattice.cell_index, Lattice.corner_index.
    repeat constructor; nia.
  - destruct (row_on_lattice n0 n1 _ row H0 H1 (length_vertex_table n0 n1 domain) Hrow)
      as [i [j [Hi [Hj Hnth]]]].
    rewrite (rect_vertex_row n0 n1 domain i j Hfit Hi Hj) in Hnth.
    inversion Hnth; subst row.
    unfold Lattice.corner_index.
    repeat constructor; nia.
Qed.

(** The tables have one row per cell and four entries per row. *)
Theorem rect_subentities_shape (n0 n1 : Z) (domain : (R * R) * (R * R)) :
  Lattice.fits_int32 n0 n1 -> 0 <= n0 -> 0 <= n1 ->
  exists E V s0,
    Rect.subentities super_subentities (Rect.__init__ (n0, n1) domain) 0 (Some 1) = Ok E /\
    Rect.subentities super_subentities (Rect.__init__ (n0, n1) domain) 0 (Some 2) = Ok V /\
    Rect.size (Rect.__init__ (n0, n1) domain) 0 = Ok s0 /\
    Z.of_nat (length E) = s0 /\ Z.of_nat (length V) = s0 /\
    Forall (fun row => length row = 4%nat) E /\
    Forall (fun row => length row = 4%nat) V.
Proof.
  intros Hfit H0 H1.
  eexists; eexists; exists (n0 * n1).
  split; [ apply rect_subentities_0_1 | ].
  split; [ apply rect_subentities_0_2 | ].
  split; [ reflexivity | ].
  split; [ rewrite length_edge_table by assumption; nia | ].
  split; [ rewrite length_vertex_table; nia | ].
  split; apply Forall_forall; intros row Hrow.
  - destruct (row_on_lattice n0 n1 _ row H0 H1 (length_edge_table n0 n1 domain H0 H1) Hrow)
      as [i [j [Hi [Hj Hnth]]]].
    rewrite (rect_edge_row n0 n1 domain i j Hfit Hi Hj) in Hnth.
    inversion Hnth; reflexivity.
  - destruct (row_on_lattice n0 n1 _ row H0 H1 (length_vertex_table n0 n1 domain) Hrow)
      as [i [j [Hi [Hj Hnth]]]].
    rewrite (rect_vertex_row n0 n1 domain i j Hfit Hi Hj) in Hnth.
    inversion Hnth; reflexivity.
Qed.

End RectConformity.

Section RectVertexOrder.

Variable super_subentities : Rect.RectGrid -> Z -> Z -> result (list (list Z)).
Variable super_embeddings :
  Rect.RectGrid -> Z -> result (list (list (list R)) * list (list R)).

Lemma corner_div_mod (n0 i j : Z) :
  (0 <= i <= n0)%Z -> (0 <= j)%Z ->
  (Lattice.corner_index n0 i j mod (n0 + 1) = i /\
   Lattice.corner_index n0 i j / (n0 + 1) = j)%Z.
Proof.
  intros Hi Hj. unfold Lattice.corner_index.
  split; symmetry.
  - apply (Z.mod_unique_pos _ _ j); lia.
  - apply (Z.div_unique_pos _ _ j i); lia.
Qed.

(** Where the lattice point in column [i] and row [j] lies. *)
Lemma vertex_position_corner (n0 n1 : Z) (a0 a1 b0 b1 : R) (i j : Z) :
  (0 <= i <= n0)%Z -> (0 <= j)%Z ->
  Rect.vertex_position (Rect.__init__ (n0, n1) ((a0, a1), (b0, b1)))
    (Lattice.corner_index n0 i j) =
  [ (a0 + IZR i * ((b0 - a0) / IZR n0))%R; (a1 + IZR j * ((b1 - a1) / IZR n1))%R ].
Proof.
  intros Hi Hj.
  unfold Rect.vertex_position, Rect.__init__.
  cbn [Rect.x0_num_intervals Rect.x0_range Rect.x1_range Rect.x0_diameter
       Rect.x1_diameter fst snd].
  destruct (corner_div_mod n0 i j Hi Hj) as [-> ->].
  reflexivity.
Qed.

(** In every cell, [subentities(0, 2)] lists the vertices in the local
order of the reference square: the vertex in slot [s] lies at the image,
under the embedding of the cell, of the [s]-th canonical vertex. *)
Theorem rect_vertex_order_matches_embedding
  (n0 n1 : Z) (a0 a1 b0 b1 : R) (i j : Z) :
  Lattice.fits_int32 n0 n1 -> (0 <= i < n0)%Z -> (0 <= j < n1)%Z ->
  exists T row VA V A B Ae Be,
    Rect.subentities super_subentities
      (Rect.__init__ (n0, n1) ((a0, a1), (b0, b1))) 0 (Some 2%Z) = Ok T /\
    nth_error T (Z.to_nat (Lattice.cell_index n0 i j)) = Some row /\
    Square.subentity_embedding 2 = Ok (Arr3 VA, Arr2 V) /\
    Rect.embeddings super_embeddings
      (Rect.__init__ (n0, n1) ((a0, a1), (b0, b1))) 0 = Ok (A, B) /\
    nth_error A (Z.to_nat (Lattice.cell_index n0 i j)) = Some Ae /\
    nth_error B (Z.to_nat (Lattice.cell_index n0 i j)) = Some Be /\
    map (Rect.vertex_position (Rect.__init__ (n0, n1) ((a0, a1), (b0, b1)))) row =
    map (fun x => Np.vadd (Np.matvec Ae x) Be) V.
Proof.
  intros Hfit Hi Hj.
  destruct (rect_embeddings_entry n0 n1 a0 a1 b0 b1 (Z.to_nat i) (Z.to_nat j))
    as [HA HB]; [ lia | lia | ].
  rewrite <- cell_to_nat in HA, HB by lia.
  eexists; eexists; eexists; eexists; eexists; eexists; eexists; eexists.
  split; [ apply rect_subentities_0_2 | ].
  split; [ apply rect_vertex_row; assumption | ].
  split; [ np_eval; reflexivity | ].
  split; [ reflexivity | ].
  split; [ exact HA | ].
  split; [ exact HB | ].
  replace (Lattice.corner_index n0 i j + 1)%Z
    with (Lattice.corner_index n0 (i + 1) j)
    by (unfold Lattice.corner_index; ring).
  replace (Lattice.corner_index n0 i j + n0 + 2)%Z
    with (Lattice.corner_index n0 (i + 1) (j + 1))
    by (unfold Lattice.corner_index; ring).
  replace (Lattice.corner_index n0 i j + n0 + 1)%Z
    with (Lattice.corner_index n0 i (j + 1))
    by (unfold Lattice.corner_index; ring).
  cbn [map].
  rewrite !vertex_position_corner by lia.
  rewrite !Z2Nat.id, !plus_IZR by lia.
  set (dx := ((b0 - a0) / IZR n0)%R).
  set (dy := ((b1 - a1) / IZR n1)%R).
  np_eval.
  repeat (f_equal; try ring).
Qed.

End RectVertexOrder.

Lemma rect_vertex_order_matches_embedding_witness :
  exists T row VA V A B Ae Be,
    Rect.subentities (fun _ _ _ => Raise (LookupError "inherited"))
      (Rect.__init__ (3, 2)%Z ((0, 0), (3, 1))%R) 0 (Some 2%Z) = Ok T /\
    nth_error T (Z.to_nat (Lattice.cell_index 3 2 1)) = Some row /\
    Square.subentity_embedding 2 = Ok (Arr3 VA, Arr2 V) /\
    Rect.embeddings (fun _ _ => Raise (LookupError "inherited"))
      (Rect.__init__ (3, 2)%Z ((0, 0), (3, 1))%R) 0 = Ok (A, B) /\
    nth_error A (Z.to_nat (Lattice.cell_index 3 2 1)) = Some Ae /\
    nth_error B (Z.to_nat (Lattice.cell_index 3 2 1)) = Some Be /\
    map (Rect.vertex_position (Rect.__init__ (3, 2)%Z ((0, 0), (3, 1))%R)) row =
    map (fun x => Np.vadd (Np.matvec Ae x) Be) V.
Proof.
  apply (rect_vertex_order_matches_embedding _ _ 3 2 0 0 3 1 2 1);
    unfold Lattice.fits_int32; lia.
Defined.

Section RectCellGeometry.

Variable super_embeddings :
  Rect.RectGrid -> Z -> result (list (list (list R)) * list (list R)).

Local Open Scope R_scope.

Lemma Forall_repeat {T : Type} (P : T -> Prop) (x : T) (n : nat) :
  P x -> Forall P (repeat x n).
Proof.
  intros Hx. induction n as [ | n IH ]; cbn [repeat]; constructor; assumption.
Qed.

Lemma diag2_has_columns (dx dy : R) : Shape.has_columns 2 (Np.diag2 dx dy).
Proof. repeat constructor. Qed.

(** The diameter of an axis-aligned cell is the length of its diagonal;
the batch holds at least one cell. *)
Lemma square_mapped_diameter_diag2 (dx dy : R) (n : nat) :
  n <> 0%nat ->
  Square.mapped_diameter (repeat (Np.diag2 dx dy) n) =
  Ok (repeat (sqrt (dx * dx + dy * dy)) n).
Proof.
  intros Hn.
  rewrite square_mapped_diameter_value;
    [ | destruct n; [ contradiction | discriminate ]
      | apply Forall_repeat, diag2_has_columns ].
  rewrite map_repeat. do 2 f_equal.
  replace (Np.matvec (Np.diag2 dx dy) [1; 1]) with [dx; dy]
    by (np_eval; f_equal; [ ring | f_equal; ring ]).
  replace (Np.matvec (Np.diag2 dx dy) [1; -1]) with [dx; - dy]
    by (np_eval; f_equal; [ ring | f_equal; ring ]).
  rewrite !norm_pair.
  replace (dx * dx + - dy * - dy) with (dx * dx + dy * dy) by ring.
  apply Rmax_left. lra.
Qed.

(** All cells of a rectangular grid with at least one interval in each
direction have the same diameter, the length of the diagonal of a cell:
this is what [Square.mapped_diameter] returns on the linear parts of
[embeddings(0)]. *)
Theorem rect_cell_diameters (n0 n1 : Z) (a0 a1 b0 b1 : R) :
  (0 < n0)%Z -> (0 < n1)%Z ->
  exists A B,
    Rect.embeddings super_embeddings
      (Rect.__init__ (n0, n1) ((a0, a1), (b0, b1))) 0 = Ok (A, B) /\
    Square.mapped_diameter A =
    Ok (repeat (sqrt (((b0 - a0) / IZR n0) * ((b0 - a0) / IZR n0) +
                      ((b1 - a1) / IZR n1) * ((b1 - a1) / IZR n1)))
          (Z.to_nat (n0 * n1))).
Proof.
  intros H0 H1.
  eexists; eexists.
  split; [ reflexivity | ].
  apply square_mapped_diameter_diag2.
  cbn [fst snd]. nia.
Qed.

(** Without a cell there is no batch to iterate over, and
[Square.mapped_diameter] raises on the linear parts of [embeddings(0)]:
here with no interval in the first direction and two in the second. *)
Lemma rect_no_cell_diameter_raises (a0 a1 b0 b1 : R) :
  exists A B,
    Rect.embeddings super_embeddings
      (Rect.__init__ (0, 2)%Z ((a0, a1), (b0, b1))) 0 = Ok (A, B) /\
    A = [] /\
    Square.mapped_diameter A =
    Raise (ValueError "Cannot apply_along_axis when any iteration dimensions are 0").
Proof.
  eexists; eexists.
  split; [ reflexivity | ].
  split; reflexivity.
Qed.

(** The barycenter of the reference square is mapped to the middle of
the cell. *)
Theorem rect_cell_center (n0 n1 : Z) (a0 a1 b0 b1 : R) (i j : Z) :
  (0 <= i < n0)%Z -> (0 <= j < n1)%Z ->
  exists A B Ae Be,
    Rect.embeddings super_embeddings
      (Rect.__init__ (n0, n1) ((a0, a1), (b0, b1))) 0 = Ok (A, B) /\
    nth_error A (Z.to_nat (Lattice.cell_index n0 i j)) = Some Ae /\
    nth_error B (Z.to_nat (Lattice.cell_index n0 i j)) = Some Be /\
    Np.vadd (Np.matvec Ae Square.center) Be =
    [ a0 + (IZR i + 1 / 2) * ((b0 - a0) / IZR n0);
      a1 + (IZR j + 1 / 2) * ((b1 - a1) / IZR n1) ].
Proof.
  intros Hi Hj.
  destruct (rect_embeddings_entry n0 n1 a0 a1 b0 b1 (Z.to_nat i) (Z.to_nat j))
    as [HA HB]; [ lia | lia | ].
  rewrite <- cell_to_nat in HA, HB by lia.
  eexists; eexists; eexists; eexists.
  split; [ reflexivity | ].
  split; [ exact HA | ].
  split; [ exact HB | ].
  rewrite !Z2Nat.id by lia.
  set (dx := (b0 - a0) / IZR n0).
  set (dy := (b1 - a1) / IZR n1).
  np_eval.
  f_equal; [ lra | f_equal; lra ].
Qed.

End RectCellGeometry.

Lemma rect_cell_center_witness :
  exists A B Ae Be,
    Rect.embeddings (fun _ _ => Raise (LookupError "inherited"))
      (Rect.__init__ (3, 2)%Z ((0, 0), (3, 1))%R) 0 = Ok (A, B) /\
    nth_error A (Z.to_nat (Lattice.cell_index 3 2 1)) = Some Ae /\
    nth_error B (Z.to_nat (Lattice.cell_index 3 2 1)) = Some Be /\
    Np.vadd (Np.matvec Ae Square.center) Be =
    [ 0 + (IZR 2 + 1 / 2) * ((3 - 0) / IZR 3);
      0 + (IZR 1 + 1 / 2) * ((1 - 0) / IZR 2) ]%R.
Proof.
  apply (rect_cell_center _ 3 2 0 0 3 1 2 1); lia.
Defined.

Lemma rect_cell_diameters_witness :
  exists A B,
    Rect.embeddings (fun _ _ => Raise (LookupError "inherited"))
      (Rect.__init__ (3, 2)%Z ((0, 0), (3, 1))%R) 0 = Ok (A, B) /\
    Square.mapped_diameter A =
    Ok (repeat (sqrt (((3 - 0) / IZR 3) * ((3 - 0) / IZR 3) +
                      ((1 - 0) / IZR 2) * ((1 - 0) / IZR 2)))
          (Z.to_nat (3 * 2)))%R.
Proof.
  apply (rect_cell_diameters _ 3 2 0 0 3 1); lia.
Defined.

(** * The default domain discretizer *)

Section Discretizer.

Variable float : Type.
Variable Grid BoundaryInfo : Type.
Variable discretize_RectDomain :
  DomainDiscretizers.domain_description -> float ->
  DomainDiscretizers.grid_class ->
  DomainDiscretizers.error + Grid * BoundaryInfo.
Variable discretize_LineDomain :
  DomainDiscretizers.domain_description -> float ->
  DomainDiscretizers.error + Grid * BoundaryInfo.

(** The dispatch of the discretizer follows the table in its docstring.
Outside the table it raises [NotImplementedError], whatever [diameter]
is and whatever the nested discretizers would do: they are not called.
Inside the table the outcome, returned or raised, is that of the nested
discretizer of the domain description, called with the [grid_type] that
was given, or the default of the table if none was: [TriaGrid] for a
[RectDomain]. *)
Theorem discretize_domain_default_dispatch
  (dd : DomainDiscretizers.domain_description) (diameter : float)
  (grid_type : option DomainDiscretizers.grid_class) :
  (DomainDiscretizers.supported dd grid_type = false ->
   exists template args,
     DomainDiscretizers.discretize_domain_default
       discretize_RectDomain discretize_LineDomain dd diameter grid_type =
     inl (DomainDiscretizers.NotImplementedError template args)) /\
  (DomainDiscretizers.supported dd grid_type = true ->
   DomainDiscretizers.discretize_domain_default
     discretize_RectDomain discretize_LineDomain dd diameter grid_type =
   match dd, grid_type with
   | DomainDiscretizers.RectDomain _ _ _, Some c =>
       discretize_RectDomain dd diameter c
   | DomainDiscretizers.RectDomain _ _ _, None =>
       discretize_RectDomain dd diameter DomainDiscretizers.TriaGrid
   | _, _ => discretize_LineDomain dd diameter
   end).
Proof.
  split; intros Hs;
    destruct dd as [domain width height | domain width | name];
    destruct grid_type as [ [ | | | c ] | ];
    cbn in *; try discriminate Hs; try reflexivity;
    eexists; eexists; reflexivity.
Qed.

End Discretizer.

Lemma discretize_domain_default_dispatch_witness :
  (exists template args,
     DomainDiscretizers.discretize_domain_default
       (fun _ (_ : unit) _ => inl (DomainDiscretizers.RaisedInside "OverflowError"))
       (fun _ (_ : unit) => inr (tt, tt))
       (DomainDiscretizers.RectDomain ((0, 0), (1, 1))%R 1%R 1%R) tt
       (Some DomainDiscretizers.OnedGrid) =
     inl (DomainDiscretizers.NotImplementedError template args)) /\
  DomainDiscretizers.discretize_domain_default
    (fun _ (_ : unit) _ => inl (DomainDiscretizers.RaisedInside "OverflowError"))
    (fun _ (_ : unit) => inr (tt, tt))
    (DomainDiscretizers.RectDomain ((0, 0), (1, 1))%R 1%R 1%R) tt None =
  inl (DomainDiscretizers.RaisedInside "OverflowError").
Proof.
  split.
  - apply (discretize_domain_default_dispatch unit unit unit
             (fun _ _ _ => inl (DomainDiscretizers.RaisedInside "OverflowError"))
             (fun _ _ => inr (tt, tt))
             (DomainDiscretizers.RectDomain ((0, 0), (1, 1))%R 1%R 1%R) tt
             (Some DomainDiscretizers.OnedGrid)).
    reflexivity.
  - apply (discretize_domain_default_dispatch unit unit unit
             (fun _ _ _ => inl (DomainDiscretizers.RaisedInside "OverflowError"))
             (fun _ _ => inr (tt, tt))
             (DomainDiscretizers.RectDomain ((0, 0), (1, 1))%R 1%R 1%R) tt None).
    reflexivity.
Defined.

(** * Further properties of the reference elements *)

Section ReferenceElementTables.

Local Open Scope Z_scope.

(** The incidence tables agree with the counts of [size]: for [codim = 0]
the table lists all subentities of codimension [subentity_codim]; for
[codim > 0] it has one row per subentity of codimension [codim], and all
its entries are local indices of subentities of codimension
[subentity_codim]. *)
Theorem reference_subentities_consistent_with_size
  (r : ReferenceElement) (codim subentity_codim : Z) :
  0 <= codim -> codim <= subentity_codim -> subentity_codim <= RE.dim r ->
  exists n_codim n_sub,
    RE.size r codim = Ok n_codim /\
    RE.size r subentity_codim = Ok n_sub /\
    match RE.subentities r codim subentity_codim with
    | Ok (Arr1 v) => codim = 0 /\ v = Np.arange n_sub
    | Ok (Arr2 T) =>
        0 < codim /\ Z.of_nat (length T) = n_codim /\
        Forall (Forall (fun s => 0 <= s < n_sub)) T
    | _ => False
    end.
Proof.
  intros H0 H1 H2.
  destruct r; cbn [RE.dim] in H2;
    unfold Point.dim, Line.dim, Square.dim in H2.
  - assert (codim = 0) by lia. assert (subentity_codim = 0) by lia. subst.
    exists 1, 1. repeat split.
  - assert (Hc : codim = 0 \/ codim = 1) by lia.
    assert (Hs : subentity_codim = 0 \/ subentity_codim = 1) by lia.
    destruct Hc as [-> | ->]; destruct Hs as [-> | ->]; try lia;
      eexists; eexists;
      (split; [ reflexivity | ]); (split; [ reflexivity | ]);
      cbn; repeat split; repeat constructor; lia.
  - assert (Hc : codim = 0 \/ codim = 1 \/ codim = 2) by lia.
    assert (Hs : subentity_codim = 0 \/ subentity_codim = 1 \/ subentity_codim = 2)
      by lia.
    destruct Hc as [-> | [-> | ->]]; destruct Hs as [-> | [-> | ->]]; try lia;
      eexists; eexists;
      (split; [ reflexivity | ]); (split; [ reflexivity | ]);
      cbn; repeat split; repeat constructor; lia.
Qed.

(** The reference element of the subentities of codimension [codim] has
dimension [dim - codim], and it is its own codim-0 reference element. *)
Theorem sub_reference_element_dimension (r : ReferenceElement) (codim : Z) :
  0 <= codim <= RE.dim r ->
  exists r',
    RE.sub_reference_element r codim = Ok r' /\
    RE.dim r' = RE.dim r - codim /\
    RE.sub_reference_element r' 0 = Ok r'.
Proof.
  intros H.
  destruct r; cbn [RE.dim] in H;
    unfold Point.dim, Line.dim, Square.dim in H.
  - assert (codim = 0) by lia. subst. exists point. repeat split.
  - assert (Hc : codim = 0 \/ codim = 1) by lia.
    destruct Hc as [-> | ->]; eexists; repeat split.
  - assert (Hc : codim = 0 \/ codim = 1 \/ codim = 2) by lia.
    destruct Hc as [-> | [-> | ->]]; eexists; repeat split.
Qed.

(** Taking sub-reference-elements composes: the subentities of
codimension [c2] of the subentities of codimension [c1] have the
reference element of the subentities of codimension [c1 + c2]. *)
Theorem sub_reference_element_composes (r : ReferenceElement) (c1 c2 : Z) :
  0 <= c1 -> 0 <= c2 -> c1 + c2 <= RE.dim r ->
  exists r1,
    RE.sub_reference_element r c1 = Ok r1 /\
    RE.sub_reference_element r1 c2 = RE.sub_reference_element r (c1 + c2).
Proof.
  intros H1 H2 H.
  destruct r; cbn [RE.dim] in H;
    unfold Point.dim, Line.dim, Square.dim in H.
  - assert (c1 = 0) by lia. assert (c2 = 0) by lia. subst.
    exists point. split; reflexivity.
  - assert (Hc : c1 = 0 \/ c1 = 1) by lia.
    assert (Hd : c2 = 0 \/ c2 = 1) by lia.
    destruct Hc as [-> | ->]; destruct Hd as [-> | ->]; try lia;
      eexists; split; reflexivity.
  - assert (Hc : c1 = 0 \/ c1 = 1 \/ c1 = 2) by lia.
    assert (Hd : c2 = 0 \/ c2 = 1 \/ c2 = 2) by lia.
    destruct Hc as [-> | [-> | ->]]; destruct Hd as [-> | [-> | ->]]; try lia;
      eexists; split; reflexivity.
Qed.

(** Every reference element has one subentity of codimension 0, itself,
and [2 ^ dim] vertices. *)
Theorem reference_element_vertex_count (r : ReferenceElement) :
  RE.size r 0 = Ok 1 /\ RE.size r (RE.dim r) = Ok (2 ^ RE.dim r).
Proof.
  destruct r; split; reflexivity.
Qed.

(** [size] returns exactly for the codimensions from 0 to [dim]. *)
Theorem reference_size_returns_iff (r : ReferenceElement) (codim : Z) :
  (exists n, RE.size r codim = Ok n) <-> 0 <= codim <= RE.dim r.
Proof.
  split.
  - intros [n Hn].
    destruct (Z_le_dec 0 codim) as [H0 | H0];
      [ destruct (Z_le_dec codim (RE.dim r)) as [H1 | H1]; [ lia | ] | ].
    + exfalso. apply (raises_InvalidCodimension_not_ok (RE.size r codim) n);
        [ apply size_invalid_codim; lia | exact Hn ].
    + exfalso. apply (raises_InvalidCodimension_not_ok (RE.size r codim) n);
        [ apply size_invalid_codim; lia | exact Hn ].
  - intros H.
    destruct r; cbn [RE.dim] in H;
      unfold Point.dim, Line.dim, Square.dim in H.
    + assert (codim = 0) by lia. subst. eexists. reflexivity.
    + assert (Hc : codim = 0 \/ codim = 1) by lia.
      destruct Hc as [-> | ->]; eexists; reflexivity.
    + assert (Hc : codim = 0 \/ codim = 1 \/ codim = 2) by lia.
      destruct Hc as [-> | [-> | ->]]; eexists; reflexivity.
Qed.

End ReferenceElementTables.

Lemma reference_subentities_consistent_with_size_witness :
  exists n_codim n_sub,
    RE.size square 1 = Ok n_codim /\
    RE.size square 2 = Ok n_sub /\
    match RE.subentities square 1 2 with
    | Ok (Arr1 v) => 1%Z = 0%Z /\ v = Np.arange n_sub
    | Ok (Arr2 T) =>
        (0 < 1)%Z /\ Z.of_nat (length T) = n_codim /\
        Forall (Forall (fun s => (0 <= s < n_sub)%Z)) T
    | _ => False
    end.
Proof.
  apply (reference_subentities_consistent_with_size square 1 2);
    cbn; unfold Square.dim; lia.
Defined.

Lemma sub_reference_element_dimension_witness :
  exists r',
    RE.sub_reference_element square 1 = Ok r' /\
    RE.dim r' = (RE.dim square - 1)%Z /\
    RE.sub_reference_element r' 0 = Ok r'.
Proof.
  apply (sub_reference_element_dimension square 1).
  cbn. unfold Square.dim. lia.
Defined.

Lemma sub_reference_element_composes_witness :
  exists r1,
    RE.sub_reference_element square 1 = Ok r1 /\
    RE.sub_reference_element r1 1 = RE.sub_reference_element square (1 + 1).
Proof.
  apply (sub_reference_element_composes square 1 1);
    cbn; unfold Square.dim; lia.
Defined.

Section SquareEdgesAndVertices.

Local Open Scope R_scope.

(** The edges of the reference square end at its vertices: the image of
end point [l] of the reference line under the embedding of edge [e] is
the vertex that [subentities(1, 2)] names in slot [l] of edge [e].  So
the position of a vertex does not depend on the edge it is reached by. *)
Theorem square_edges_end_at_vertices (e l : nat) :
  (e < 4)%nat -> (l < 2)%nat ->
  exists A1 B1 SA SB VA V T v,
    Square.subentity_embedding 1 = Ok (Arr3 A1, Arr2 B1) /\
    Line.subentity_embedding 1 = Ok (Arr3 SA, Arr2 SB) /\
    Square.subentity_embedding 2 = Ok (Arr3 VA, Arr2 V) /\
    Square.subentities 1 2 = Ok (Arr2 T) /\
    nth_error (nth e T []) l = Some v /\
    Np.vadd (Np.matvec (nth e A1 []) (nth l SB [])) (nth e B1 []) =
    nth (Z.to_nat v) V [].
Proof.
  intros He Hl.
  destruct e as [ | [ | [ | [ | e ] ] ] ]; [ | | | | lia ];
    (destruct l as [ | [ | l ] ]; [ | | lia ]);
    (eexists; eexists; eexists; eexists; eexists; eexists; eexists; eexists);
    (split; [ reflexivity | ]);
    (split; [ reflexivity | ]);
    (split; [ np_eval; reflexivity | ]);
    (split; [ reflexivity | ]);
    (split; [ reflexivity | ]);
    np_eval; repeat (f_equal; try ring).
Qed.

End SquareEdgesAndVertices.

Lemma square_edges_end_at_vertices_witness :
  exists A1 B1 SA SB VA V T v,
    Square.subentity_embedding 1 = Ok (Arr3 A1, Arr2 B1) /\
    Line.subentity_embedding 1 = Ok (Arr3 SA, Arr2 SB) /\
    Square.subentity_embedding 2 = Ok (Arr3 VA, Arr2 V) /\
    Square.subentities 1 2 = Ok (Arr2 T) /\
    nth_error (nth 3 T []) 1 = Some v /\
    Np.vadd (Np.matvec (nth 3 A1 []) (nth 1 SB [])) (nth 3 B1 []) =
    nth (Z.to_nat v) V [].
Proof.
  apply (square_edges_end_at_vertices 3 1); lia.
Defined.

Lemma rect_horizontal_neighbours_share_edge_witness :
  exists T left_cell right_cell edge,
    Rect.subentities (fun _ _ _ => Raise (LookupError "inherited"))
      (Rect.__init__ (2, 2)%Z ((0, 0), (1, 1))%R) 0 (Some 1%Z) = Ok T /\
    nth_error T (Z.to_nat (Lattice.cell_index 2 0 1)) = Some left_cell /\
    nth_error T (Z.to_nat (Lattice.cell_index 2 (0 + 1) 1)) = Some right_cell /\
    nth_error left_cell 1 = Some edge /\
    nth_error right_cell 3 = Some edge.
Proof.
  apply (rect_horizontal_neighbours_share_edge _ 2 2 _ 0 1);
    unfold Lattice.fits_int32; lia.
Defined.

Lemma rect_vertical_neighbours_share_edge_witness :
  exists T lower_cell upper_cell edge,
    Rect.subentities (fun _ _ _ => Raise (LookupError "inherited"))
      (Rect.__init__ (2, 2)%Z ((0, 0), (1, 1))%R) 0 (Some 1%Z) = Ok T /\
    nth_error T (Z.to_nat (Lattice.cell_index 2 1 0)) = Some lower_cell /\
    nth_error T (Z.to_nat (Lattice.cell_index 2 1 (0 + 1))) = Some upper_cell /\
    nth_error lower_cell 2 = Some edge /\
    nth_error upper_cell 0 = Some edge.
Proof.
  apply (rect_vertical_neighbours_share_edge _ 2 2 _ 1 0);
    unfold Lattice.fits_int32; lia.
Defined.

Lemma rect_subentities_indices_valid_witness :
  exists E V s1 s2,
    Rect.subentities (fun _ _ _ => Raise (LookupError "inherited"))
      (Rect.__init__ (2, 4)%Z ((0, 0), (1, 1))%R) 0 (Some 1%Z) = Ok E /\
    Rect.subentities (fun _ _ _ => Raise (LookupError "inherited"))
      (Rect.__init__ (2, 4)%Z ((0, 0), (1, 1))%R) 0 (Some 2%Z) = Ok V /\
    Rect.size (Rect.__init__ (2, 4)%Z ((0, 0), (1, 1))%R) 1 = Ok s1 /\
    Rect.size (Rect.__init__ (2, 4)%Z ((0, 0), (1, 1))%R) 2 = Ok s2 /\
    Forall (Forall (fun e => (0 <= e < s1)%Z)) E /\
    Forall (Forall (fun v => (0 <= v < s2)%Z)) V.
Proof.
  apply (rect_subentities_indices_valid _ 2 4);
    unfold Lattice.fits_int32; lia.
Defined.

Lemma rect_subentities_shape_witness :
  exists E V s0,
    Rect.subentities (fun _ _ _ => Raise (LookupError "inherited"))
      (Rect.__init__ (2, 4)%Z ((0, 0), (1, 1))%R) 0 (Some 1%Z) = Ok E /\
    Rect.subentities (fun _ _ _ => Raise (LookupError "inherited"))
      (Rect.__init__ (2, 4)%Z ((0, 0), (1, 1))%R) 0 (Some 2%Z) = Ok V /\
    Rect.size (Rect.__init__ (2, 4)%Z ((0, 0), (1, 1))%R) 0 = Ok s0 /\
    Z.of_nat (length E) = s0 /\ Z.of_nat (length V) = s0 /\
    Forall (fun row => length row = 4%nat) E /\
    Forall (fun row => length row = 4%nat) V.
Proof.
  apply (rect_subentities_shape _ 2 4);
    unfold Lattice.fits_int32; lia.
Defined.

Section RectSubentitiesArguments.

Variable super_subentities : Rect.RectGrid -> Z -> Z -> result (list (list Z)).

Local Open Scope Z_scope.

(** [RectGrid.subentities] validates both codimensions itself, before any
table is read or the inherited implementation is called. *)
Theorem rect_subentities_validates (g : Rect.RectGrid) (codim subentity_codim : Z) :
  ~ (0 <= codim <= 2) \/ ~ (codim <= subentity_codim <= 2) ->
  Py.raises_InvalidCodimension
    (Rect.subentities super_subentities g codim (Some subentity_codim)).
Proof.
  intros H. unfold Rect.subentities, Rect.dim.
  destruct (Z_le_dec 0 codim) as [H0 | H0];
    [ destruct (Z_le_dec codim 2) as [H1 | H1] | ].
  - destruct H as [H | H]; [ lia | ].
    codim_range_true. codim_range_false. apply assert_false_codim.
  - codim_range_false. apply assert_false_codim.
  - codim_range_false. apply assert_false_codim.
Qed.

(** Without a [subentity_codim] the next codimension is taken: cells give
their edges, and for vertices, which have no next codimension, the call
fails. *)
Theorem rect_subentities_default_codim (g : Rect.RectGrid) :
  Rect.subentities super_subentities g 0 None =
    Ok (fst (Rect.__subentities g)) /\
  Rect.subentities super_subentities g 1 None = super_subentities g 1 2 /\
  Py.raises_InvalidCodimension (Rect.subentities super_subentities g 2 None).
Proof.
  split; [ reflexivity | ].
  split; [ reflexivity | ].
  unfold Rect.subentities, Rect.dim.
  change ((0 <=? 2) && (2 <=? 2)) with true.
  cbn [Py.assert_ Py.bind].
  change ((2 <=? 2 + 1) && (2 + 1 <=? 2)) with false.
  apply assert_false_codim.
Qed.

(** [subentities(0, 0)] is the identity column: row [e] is [[e]], one row
per cell. *)
Theorem rect_subentities_identity_column
  (n0 n1 : Z) (domain : (R * R) * (R * R)) (e : Z) :
  n0 * n1 <= 2147483648 -> 0 <= e < n0 * n1 ->
  exists T,
    Rect.subentities super_subentities (Rect.__init__ (n0, n1) domain) 0 (Some 0) = Ok T /\
    Z.of_nat (length T) = n0 * n1 /\
    nth_error T (Z.to_nat e) = Some [e].
Proof.
  intros Hfit He.
  exists (map (fun e0 => [Np.int32 e0]) (Np.arange (n0 * n1))).
  split; [ reflexivity | ].
  split.
  - rewrite length_map, length_arange. lia.
  - rewrite nth_error_map.
    rewrite (nth_error_nth' _ 0) by (rewrite length_arange; lia).
    rewrite nth_arange by lia.
    cbn [option_map]. rewrite Z2Nat.id by lia.
    rewrite int32_in_range by lia. reflexivity.
Qed.

End RectSubentitiesArguments.

Lemma rect_subentities_validates_witness :
  Py.raises_InvalidCodimension
    (Rect.subentities (fun _ _ _ => Raise (LookupError "inherited"))
       (Rect.__init__ (2, 2)%Z ((0, 0), (1, 1))%R) 1 (Some 0%Z)).
Proof.
  apply (rect_subentities_validates _ _ 1 0). right. lia.
Defined.

Lemma rect_subentities_identity_column_witness :
  exists T,
    Rect.subentities (fun _ _ _ => Raise (LookupError "inherited"))
      (Rect.__init__ (2, 3)%Z ((0, 0), (1, 1))%R) 0 (Some 0%Z) = Ok T /\
    Z.of_nat (length T) = (2 * 3)%Z /\
    nth_error T (Z.to_nat 5) = Some [5%Z].
Proof.
  apply (rect_subentities_identity_column _ 2 3 _ 5); lia.
Defined.

(** * Dictionary-backed properties and copies *)

Section DictProperty.

Import Objects.

Lemma lookup_insert (k : string) (v : value) (d : dict) :
  lookup k (insert k v d) = Some v.
Proof.
  induction d as [ | [k' v'] d IH ]; cbn [insert lookup].
  - rewrite String.eqb_refl. reflexivity.
  - destruct (String.eqb k' k) eqn:E; cbn [lookup]; rewrite E.
    + reflexivity.
    + exact IH.
Qed.

Lemma lookup_insert_other (k k' : string) (v : value) (d : dict) :
  k' <> k -> lookup k' (insert k v d) = lookup k' d.
Proof.
  intros Hk.
  induction d as [ | [k0 v0] d IH ]; cbn [insert lookup].
  - destruct (String.eqb k k') eqn:E; [ | reflexivity ].
    apply String.eqb_eq in E. congruence.
  - destruct (String.eqb k0 k) eqn:E; cbn [lookup].
    + apply String.eqb_eq in E. subst k0.
      destruct (String.eqb k k') eqn:E'; [ | reflexivity ].
      apply String.eqb_eq in E'. congruence.
    + destruct (String.eqb k0 k'); [ reflexivity | exact IH ].
Qed.

Lemma backing_dict_inv (d : string) (self : nat) (h : heap) (a : nat) (items : dict) :
  backing_dict d self h = inr (a, items) ->
  exists attrs,
    cells h self = Some (Instance attrs) /\
    lookup d attrs = Some (Ref a) /\
    cells h a = Some (Dict items).
Proof.
  unfold backing_dict. intros H.
  destruct (cells h self) as [ [attrs | its] | ] eqn:Es; try discriminate H.
  destruct (lookup d attrs) as [ [a0 | nm] | ] eqn:El; try discriminate H.
  destruct (cells h a0) as [ [attrs0 | items0] | ] eqn:E; try discriminate H.
  inversion H; subst. exists attrs.
  split; [ reflexivity | ]. split; [ exact El | exact E ].
Qed.

Lemma backing_dict_write (d : string) (self : nat) (h : heap) (a : nat)
  (items items' : dict) :
  backing_dict d self h = inr (a, items) ->
  backing_dict d self (write h a (Dict items')) = inr (a, items').
Proof.
  intros H.
  destruct (backing_dict_inv _ _ _ _ _ H) as [attrs [Hs [Hd Ha]]].
  unfold backing_dict, write. cbn [cells].
  destruct (Nat.eqb self a) eqn:E.
  - apply Nat.eqb_eq in E. subst. congruence.
  - rewrite Hs, Hd, Nat.eqb_refl. reflexivity.
Qed.

(** Setting a property and reading it back: the getter returns the value
that was set, and the other properties kept in the same dictionary read
as before. *)
Theorem dict_property_set_then_get
  (d n : string) (self : nat) (v : value) (h h' : heap) :
  prop_set d n self v h = inr h' ->
  prop_get d n self h' = inr v /\
  (forall n', n' <> n -> prop_get d n' self h' = prop_get d n' self h).
Proof.
  unfold prop_set. intros H.
  destruct (backing_dict d self h) as [e | [a items]] eqn:B; [ discriminate H | ].
  inversion H; subst h'.
  split.
  - unfold prop_get.
    rewrite (backing_dict_write _ _ _ _ _ (insert n v items) B).
    rewrite lookup_insert. reflexivity.
  - intros n' Hn. unfold prop_get.
    rewrite (backing_dict_write _ _ _ _ _ (insert n v items) B), B.
    rewrite lookup_insert_other by exact Hn. reflexivity.
Qed.

(** A property that was never set: the getter raises [KeyError] for its
name, while the setter creates the entry. *)
Theorem dict_property_unset_entry
  (d n : string) (self a : nat) (attrs items : dict) (v : value) (h : heap) :
  cells h self = Some (Instance attrs) ->
  lookup d attrs = Some (Ref a) ->
  cells h a = Some (Dict items) ->
  lookup n items = None ->
  prop_get d n self h = inl (KeyError n) /\
  exists h', prop_set d n self v h = inr h' /\ prop_get d n self h' = inr v.
Proof.
  intros Hs Hd Ha Hn.
  assert (B : backing_dict d self h = inr (a, items))
    by (unfold backing_dict; rewrite Hs, Hd, Ha; reflexivity).
  split.
  - unfold prop_get. rewrite B, Hn. reflexivity.
  - eexists. split.
    + unfold prop_set. rewrite B. reflexivity.
    + unfold prop_get.
      rewrite (backing_dict_write _ _ _ _ _ (insert n v items) B).
      rewrite lookup_insert. reflexivity.
Qed.

(** An instance without the backing dictionary: getter and setter both
raise [KeyError] for the name of the dictionary, and nothing is stored. *)
Theorem dict_property_without_dictionary
  (d n : string) (self : nat) (attrs : dict) (v : value) (h : heap) :
  cells h self = Some (Instance attrs) ->
  lookup d attrs = None ->
  prop_get d n self h = inl (KeyError d) /\
  prop_set d n self v h = inl (KeyError d).
Proof.
  intros Hs Hd.
  unfold prop_get, prop_set, backing_dict.
  rewrite Hs, Hd. split; reflexivity.
Qed.

End DictProperty.

Section DiscretizationCopy.

Import Objects.

Variable Cachable_init : nat -> heap -> heap.
Hypothesis Cachable_init_frame : only_resets_cache Cachable_init.

(** What a successful [copy] did to the store. *)
Lemma copy_inv (self c : nat) (h h1 : heap) :
  well_formed h ->
  copy Cachable_init self h = inr (c, h1) ->
  exists attrs attrs' a items,
    cells h self = Some (Instance attrs) /\
    lookup "operators" attrs = Some (Ref a) /\
    cells h a = Some (Dict items) /\
    c = next h /\ self <> c /\ a <> c /\ self <> S c /\ a <> S c /\
    cells h1 c = Some (Instance attrs') /\
    lookup "operators" attrs' = Some (Ref (S c)) /\
    cells h1 (S c) = Some (Dict items) /\
    (forall x, x <> c -> x <> S c -> cells h1 x = cells h x).
Proof.
  intros Hwf H. unfold copy in H.
  destruct (cells h self) as [ [attrs | its] | ] eqn:Es; try discriminate H.
  cbn [alloc] in H.
  destruct (lookup "operators" attrs) as [ [a | nm] | ] eqn:El; try discriminate H.
  cbn [cells] in H.
  destruct (Nat.eqb a (next h)) eqn:Ea; [ discriminate H | ].
  destruct (cells h a) as [ [attrs0 | items] | ] eqn:Ec; try discriminate H.
  inversion H; subst c h1. clear H.
  apply Nat.eqb_neq in Ea.
  assert (Hs : (self < next h)%nat).
  { destruct (Nat.lt_ge_cases self (next h)) as [L | G]; [ exact L | ].
    rewrite (Hwf self G) in Es. discriminate Es. }
  assert (Ha : (a < next h)%nat).
  { destruct (Nat.lt_ge_cases a (next h)) as [L | G]; [ exact L | ].
    rewrite (Hwf a G) in Ec. discriminate Ec. }
  set (h3 := write _ (next h) _).
  destruct (Cachable_init_frame (next h) h3) as [Fother Fself].
  destruct (Fself (insert "operators" (Ref (S (next h))) attrs)) as [attrs' [Hc' Hl']].
  { unfold h3, write. cbn [cells]. rewrite Nat.eqb_refl. reflexivity. }
  exists attrs, attrs', a, items.
  split; [ reflexivity | ]. split; [ exact El | ]. split; [ exact Ec | ].
  split; [ reflexivity | ].
  split; [ lia | ]. split; [ lia | ]. split; [ lia | ]. split; [ lia | ].
  split; [ exact Hc' | ].
  split; [ rewrite Hl'; apply lookup_insert | ].
  split.
  - rewrite Fother by lia. unfold h3, write. cbn [cells].
    replace (Nat.eqb (S (next h)) (next h)) with false
      by (symmetry; apply Nat.eqb_neq; lia).
    rewrite Nat.eqb_refl. reflexivity.
  - intros x Hx Hx'. rewrite Fother by exact Hx.
    unfold h3, write. cbn [cells].
    replace (Nat.eqb x (next h)) with false by (symmetry; apply Nat.eqb_neq; lia).
    replace (Nat.eqb x (S (next h))) with false by (symmetry; apply Nat.eqb_neq; lia).
    reflexivity.
Qed.

(** A copy reads as the original: right after [copy], every property kept
in [operators] has on the copy the value it has on the original. *)
Theorem copy_reads_as_original (self c : nat) (h h1 : heap) (m : string) :
  well_formed h ->
  copy Cachable_init self h = inr (c, h1) ->
  c <> self /\
  prop_get "operators" m c h1 = prop_get "operators" m self h.
Proof.
  intros Hwf H.
  destruct (copy_inv self c h h1 Hwf H)
    as [attrs [attrs' [a [items [Hs [Hl [Ha [Hc [N1 [N2 [N3 [N4 [Hc1 [Hl1 [Ha1 Hfr]]]]]]]]]]]]]]].
  split; [ congruence | ].
  unfold prop_get, backing_dict.
  rewrite Hc1, Hl1, Ha1, Hs, Hl, Ha. reflexivity.
Qed.

(** A copy is independent of the original: a property of [operators] set
on the copy is read back from the copy, while the original still reads
all its properties as before the copy was made. *)
Theorem copy_is_independent
  (self c : nat) (h h1 h2 : heap) (n m : string) (v : value) :
  well_formed h ->
  copy Cachable_init self h = inr (c, h1) ->
  prop_set "operators" n c v h1 = inr h2 ->
  prop_get "operators" n c h2 = inr v /\
  prop_get "operators" m self h2 = prop_get "operators" m self h.
Proof.
  intros Hwf H Hset.
  destruct (copy_inv self c h h1 Hwf H)
    as [attrs [attrs' [a [items [Hs [Hl [Ha [Hc [N1 [N2 [N3 [N4 [Hc1 [Hl1 [Ha1 Hfr]]]]]]]]]]]]]]].
  assert (B : backing_dict "operators" c h1 = inr (S c, items))
    by (unfold backing_dict; rewrite Hc1, Hl1, Ha1; reflexivity).
  unfold prop_set in Hset. rewrite B in Hset. inversion Hset; subst h2.
  split.
  - unfold prop_get.
    rewrite (backing_dict_write _ _ _ _ _ (insert n v items) B), lookup_insert.
    reflexivity.
  - unfold prop_get, backing_dict, write. cbn [cells].
    replace (Nat.eqb self (S c)) with false by (symmetry; apply Nat.eqb_neq; lia).
    replace (Nat.eqb a (S c)) with false by (symmetry; apply Nat.eqb_neq; lia).
    rewrite (Hfr self) by lia. rewrite Hs, Hl.
    replace (Nat.eqb a (S c)) with false by (symmetry; apply Nat.eqb_neq; lia).
    rewrite (Hfr a) by lia. reflexivity.
Qed.

(** [copy] fails on an instance that has no [operators]. *)
Theorem copy_without_operators (self : nat) (attrs : dict) (h : heap) :
  cells h self = Some (Instance attrs) ->
  lookup "operators" attrs = None ->
  copy Cachable_init self h = inl (AttributeError "operators").
Proof.
  intros Hs Hl. unfold copy. rewrite Hs. cbn [alloc]. rewrite Hl. reflexivity.
Qed.

End DiscretizationCopy.

Section ObjectWitnesses.

Import Objects.
Local Open Scope string_scope.

Lemma identity_only_resets_cache : only_resets_cache (fun _ h => h).
Proof.
  intros c h. split.
  - intros a _. reflexivity.
  - intros attrs H. exists attrs. split; [ exact H | reflexivity ].
Qed.

Lemma two_cells_well_formed (c0 c1 : cell) :
  well_formed
    {| cells := fun a => match a with
                         | O => Some c0
                         | S O => Some c1
                         | _ => None
                         end;
       next := 2 |}.
Proof.
  intros a Ha. cbn [next cells] in *.
  destruct a as [ | [ | a ] ]; [ lia | lia | reflexivity ].
Qed.


Lemma dict_property_set_then_get_witness :
  exists h',
    Objects.prop_set "operators" "rhs" 0 (Objects.Opaque "g")
      {| Objects.cells := fun a =>
           match a with
           | O => Some (Objects.Instance [("operators", Objects.Ref 1)])
           | S O => Some (Objects.Dict [("operator", Objects.Opaque "L");
                                        ("rhs", Objects.Opaque "f")])
           | _ => None
           end;
         Objects.next := 2 |} = inr h' /\
    Objects.prop_get "operators" "rhs" 0 h' = inr (Objects.Opaque "g") /\
    (forall n', n' <> "rhs" ->
       Objects.prop_get "operators" n' 0 h' =
       Objects.prop_get "operators" n' 0
         {| Objects.cells := fun a =>
              match a with
              | O => Some (Objects.Instance [("operators", Objects.Ref 1)])
              | S O => Some (Objects.Dict [("operator", Objects.Opaque "L");
                                           ("rhs", Objects.Opaque "f")])
              | _ => None
              end;
            Objects.next := 2 |}).
Proof.
  eexists. split; [ reflexivity | ].
  eapply dict_property_set_then_get.
  reflexivity.
Defined.

Lemma dict_property_unset_entry_witness :
  Objects.prop_get "operators" "rhs" 0
    {| Objects.cells := fun a =>
         match a with
         | O => Some (Objects.Instance [("operators", Objects.Ref 1)])
         | S O => Some (Objects.Dict [("operator", Objects.Opaque "L")])
         | _ => None
         end;
       Objects.next := 2 |} = inl (Objects.KeyError "rhs") /\
  exists h',
    Objects.prop_set "operators" "rhs" 0 (Objects.Opaque "f")
      {| Objects.cells := fun a =>
           match a with
           | O => Some (Objects.Instance [("operators", Objects.Ref 1)])
           | S O => Some (Objects.Dict [("operator", Objects.Opaque "L")])
           | _ => None
           end;
         Objects.next := 2 |} = inr h' /\
    Objects.prop_get "operators" "rhs" 0 h' = inr (Objects.Opaque "f").
Proof.
  apply (dict_property_unset_entry "operators" "rhs" 0 1
           [("operators", Objects.Ref 1)] [("operator", Objects.Opaque "L")]);
    reflexivity.
Defined.

Lemma dict_property_without_dictionary_witness :
  Objects.prop_get "operators" "rhs" 0
    {| Objects.cells := fun a =>
         match a with
         | O => Some (Objects.Instance [("name", Objects.Opaque "d")])
         | _ => None
         end;
       Objects.next := 1 |} = inl (Objects.KeyError "operators") /\
  Objects.prop_set "operators" "rhs" 0 (Objects.Opaque "f")
    {| Objects.cells := fun a =>
         match a with
         | O => Some (Objects.Instance [("name", Objects.Opaque "d")])
         | _ => None
         end;
       Objects.next := 1 |} = inl (Objects.KeyError "operators").
Proof.
  apply (dict_property_without_dictionary "operators" "rhs" 0
           [("name", Objects.Opaque "d")]);
    reflexivity.
Defined.

Lemma copy_reads_as_original_witness :
  exists c h1,
    Objects.copy (fun _ h => h) 0
      {| Objects.cells := fun a =>
           match a with
           | O => Some (Objects.Instance [("operators", Objects.Ref 1);
                                          ("name", Objects.Opaque "d")])
           | S O => Some (Objects.Dict [("operator", Objects.Opaque "L");
                                        ("rhs", Objects.Opaque "f")])
           | _ => None
           end;
         Objects.next := 2 |} = inr (c, h1) /\
    c <> 0%nat /\
    Objects.prop_get "operators" "rhs" c h1 =
    Objects.prop_get "operators" "rhs" 0
      {| Objects.cells := fun a =>
           match a with
           | O => Some (Objects.Instance [("operators", Objects.Ref 1);
                                          ("name", Objects.Opaque "d")])
           | S O => Some (Objects.Dict [("operator", Objects.Opaque "L");
                                        ("rhs", Objects.Opaque "f")])
           | _ => None
           end;
         Objects.next := 2 |}.
Proof.
  eexists; eexists. split; [ reflexivity | ].
  eapply (copy_reads_as_original _ identity_only_resets_cache);
    [ apply two_cells_well_formed | reflexivity ].
Defined.

Lemma copy_is_independent_witness :
  exists c h1 h2,
    Objects.copy (fun _ h => h) 0
      {| Objects.cells := fun a =>
           match a with
           | O => Some (Objects.Instance [("operators", Objects.Ref 1);
                                          ("name", Objects.Opaque "d")])
           | S O => Some (Objects.Dict [("operator", Objects.Opaque "L");
                                        ("rhs", Objects.Opaque "f")])
           | _ => None
           end;
         Objects.next := 2 |} = inr (c, h1) /\
    Objects.prop_set "operators" "rhs" c (Objects.Opaque "g") h1 = inr h2 /\
    Objects.prop_get "operators" "rhs" c h2 = inr (Objects.Opaque "g") /\
    Objects.prop_get "operators" "rhs" 0 h2 =
    Objects.prop_get "operators" "rhs" 0
      {| Objects.cells := fun a =>
           match a with
           | O => Some (Objects.Instance [("operators", Objects.Ref 1);
                                          ("name", Objects.Opaque "d")])
           | S O => Some (Objects.Dict [("operator", Objects.Opaque "L");
                                        ("rhs", Objects.Opaque "f")])
           | _ => None
           end;
         Objects.next := 2 |}.
Proof.
  eexists; eexists; eexists.
  split; [ reflexivity | ].
  split; [ reflexivity | ].
  eapply (copy_is_independent _ identity_only_resets_cache);
    [ apply two_cells_well_formed | reflexivity | reflexivity ].
Defined.

Lemma copy_without_operators_witness :
  Objects.copy (fun _ h => h) 0
    {| Objects.cells := fun a =>
         match a with
         | O => Some (Objects.Instance [("name", Objects.Opaque "d")])
         | _ => None
         end;
       Objects.next := 1 |} = inl (Objects.AttributeError "operators").
Proof.
  apply (copy_without_operators _ 0 [("name", Objects.Opaque "d")]); reflexivity.
Defined.

End ObjectWitnesses.

(** * Boundary information *)

Section BoundaryTypes.

Import BoundaryInfo.

Lemma member_true_iff (t : BoundaryType) (s : list BoundaryType) :
  member t s = true <-> In t s.
Proof.
  unfold member. rewrite existsb_exists. split.
  - intros [x [Hx E]]. apply String.eqb_eq in E. subst. exact Hx.
  - intros H. exists t. split; [ exact H | apply String.eqb_refl ].
Qed.

Lemma subset_true_iff (s s' : list BoundaryType) :
  subset s s' = true <-> (forall t, In t s -> In t s').
Proof.
  unfold subset. rewrite forallb_forall. split.
  - intros H t Ht. apply member_true_iff, H, Ht.
  - intros H t Ht. apply member_true_iff, H, Ht.
Qed.

(** When the boundary types are exactly the Dirichlet type, the other
predicates agree: there is a Dirichlet boundary and no Neumann boundary,
the types are not only Neumann, and they are among Dirichlet and Neumann. *)
Theorem has_only_dirichlet_consequences (boundary_types : list BoundaryType) :
  has_only_dirichlet boundary_types = true ->
  has_dirichlet boundary_types = true /\
  has_neumann boundary_types = false /\
  has_only_neumann boundary_types = false /\
  has_only_dirichletneumann boundary_types = true.
Proof.
  unfold has_only_dirichlet, set_eq. intros H.
  apply andb_true_iff in H. destruct H as [H1 H2].
  rewrite subset_true_iff in H1, H2.
  assert (Hd : In dirichlet boundary_types) by (apply H2; left; reflexivity).
  assert (Hn : ~ In neumann boundary_types).
  { intros Hn. apply H1 in Hn. destruct Hn as [E | []]. discriminate E. }
  split; [ apply member_true_iff; exact Hd | ].
  split.
  - unfold has_neumann.
    destruct (member neumann boundary_types) eqn:E; [ | reflexivity ].
    apply member_true_iff in E. contradiction.
  - split.
    + unfold has_only_neumann, set_eq.
      destruct (subset boundary_types [neumann]) eqn:E; [ | reflexivity ].
      rewrite subset_true_iff in E. apply E in Hd.
      destruct Hd as [E' | []]. discriminate E'.
    + unfold has_only_dirichletneumann. apply subset_true_iff.
      intros t Ht. left. apply H1 in Ht. destruct Ht as [E | []]. exact E.
Qed.

Lemma where_from_spec (m : list bool) (i x : Z) :
  In x (where_from i m) <->
  (i <= x)%Z /\ nth_error m (Z.to_nat (x - i)) = Some true.
Proof.
  revert i. induction m as [ | b m IH ]; intros i; cbn [where_from].
  - split; [ intros [] | ].
    intros [_ H]. destruct (Z.to_nat (x - i)); discriminate H.
  - assert (Step : forall y : Z, (i + 1 <= y)%Z ->
                     nth_error (b :: m) (Z.to_nat (y - i)) =
                     nth_error m (Z.to_nat (y - (i + 1)))).
    { intros y Hy.
      replace (Z.to_nat (y - i)) with (S (Z.to_nat (y - (i + 1)))) by lia.
      reflexivity. }
    destruct b; cbn [In]; rewrite IH; split.
    + intros [<- | [Hx Hn]].
      * split; [ lia | ]. replace (Z.to_nat (i - i)) with O by lia. reflexivity.
      * split; [ lia | ]. rewrite Step by lia. exact Hn.
    + intros [Hx Hn].
      destruct (Z.eq_dec i x) as [E | E]; [ left; exact E | right ].
      split; [ lia | ]. rewrite <- Step by lia. exact Hn.
    + intros [Hx Hn]. split; [ lia | ]. rewrite Step by lia. exact Hn.
    + intros [Hx Hn].
      destruct (Z.eq_dec i x) as [E | E].
      * subst x. replace (Z.to_nat (i - i)) with O in Hn by lia. discriminate Hn.
      * split; [ lia | ]. rewrite <- Step by lia. exact Hn.
Qed.

Lemma where_from_bounds (m : list bool) (i : Z) :
  Forall (fun x => i <= x < i + Z.of_nat (length m))%Z (where_from i m).
Proof.
  apply Forall_forall. intros x Hx.
  apply where_from_spec in Hx. destruct Hx as [Hx Hn].
  assert (Hl : (Z.to_nat (x - i) < length m)%nat)
    by (apply nth_error_Some; congruence).
  lia.
Qed.

Lemma where_from_sorted (m : list bool) (i : Z) :
  StronglySorted Z.lt (where_from i m).
Proof.
  revert i. induction m as [ | b m IH ]; intros i; cbn [where_from].
  - constructor.
  - destruct b; [ | apply IH ].
    constructor; [ apply IH | ].
    eapply Forall_impl; [ | apply (where_from_bounds m (i + 1)) ].
    cbn beta. intros x Hx. lia.
Qed.

Lemma map_int32_in_range (l : list Z) :
  Forall (fun x => -2147483648 <= x < 2147483648)%Z l -> map Np.int32 l = l.
Proof.
  induction 1 as [ | x l Hx Hl IH ]; cbn [map].
  - reflexivity.
  - rewrite IH, int32_in_range by exact Hx. reflexivity.
Qed.

Variable mask_method : BoundaryType -> Z -> result (list bool).

(** The Dirichlet boundaries are the positions at which the Dirichlet
mask is true, each once and in ascending order. *)
Theorem dirichlet_boundaries_are_mask_positions (codim : Z) (m : list bool) :
  dirichlet_mask mask_method codim = Ok m ->
  (Z.of_nat (length m) <= 2147483648)%Z ->
  exists bs,
    dirichlet_boundaries mask_method codim = Ok bs /\
    (forall e, In e bs <->
               (0 <= e)%Z /\ nth_error m (Z.to_nat e) = Some true) /\
    StronglySorted Z.lt bs.
Proof.
  intros Hm Hlen.
  exists (where_from 0 m).
  assert (E : map Np.int32 (where_from 0 m) = where_from 0 m).
  { apply map_int32_in_range.
    eapply Forall_impl; [ | apply (where_from_bounds m 0) ].
    cbn beta. intros x Hx. lia. }
  split.
  - unfold dirichlet_boundaries. rewrite Hm. cbn [Py.bind]. rewrite E. reflexivity.
  - split.
    + intros e. rewrite where_from_spec.
      replace (e - 0)%Z with e by lia. reflexivity.
    + apply where_from_sorted.
Qed.

End BoundaryTypes.

Lemma has_only_dirichlet_consequences_witness :
  BoundaryInfo.has_dirichlet [BoundaryInfo.dirichlet; BoundaryInfo.dirichlet] = true /\
  BoundaryInfo.has_neumann [BoundaryInfo.dirichlet; BoundaryInfo.dirichlet] = false /\
  BoundaryInfo.has_only_neumann [BoundaryInfo.dirichlet; BoundaryInfo.dirichlet] = false /\
  BoundaryInfo.has_only_dirichletneumann
    [BoundaryInfo.dirichlet; BoundaryInfo.dirichlet] = true.
Proof.
  apply (has_only_dirichlet_consequences
           [BoundaryInfo.dirichlet; BoundaryInfo.dirichlet]).
  reflexivity.
Defined.

Lemma dirichlet_boundaries_are_mask_positions_witness :
  exists bs,
    BoundaryInfo.dirichlet_boundaries
      (fun _ _ => Ok [true; false; false; true]) 1 = Ok bs /\
    (forall e, In e bs <->
               (0 <= e)%Z /\
               nth_error [true; false; false; true] (Z.to_nat e) = Some true) /\
    StronglySorted Z.lt bs.
Proof.
  apply (dirichlet_boundaries_are_mask_positions
           (fun _ _ => Ok [true; false; false; true]) 1 [true; false; false; true]).
  - reflexivity.
  - cbn. lia.
Defined.

(** * Cubic parameter spaces *)

Section CubicParameterSpaces.

Import ParameterSpace.

Variable RawType : Type.
Variable RawParameter : Type.
Variable parse_parameter_type : RawType -> error + ParameterType.
Variable parse_parameter_with : RawParameter -> ParameterType -> error + ParameterValue.

Local Open Scope R_scope.

Lemma Rltb_true_iff (x y : R) : Rltb x y = true <-> x < y.
Proof.
  unfold Rltb. destruct (Rlt_dec x y); split; intros H;
    try reflexivity; try assumption; try discriminate H; contradiction.
Qed.

Lemma Rleb_true_iff (x y : R) : Rleb x y = true <-> x <= y.
Proof.
  unfold Rleb. destruct (Rle_dec x y); split; intros H;
    try reflexivity; try assumption; try discriminate H; contradiction.
Qed.

(** The constructor accepts exactly two ways of giving the ranges: a
dictionary [ranges] and neither [minimum] nor [maximum], or no [ranges]
and both [minimum] and [maximum], with [minimum < maximum]. *)
Theorem cubic_space_init_accepts
  (raw : RawType) (pt : ParameterType) (minimum maximum : option R)
  (ranges : option (list (string * (R * R)))) :
  parse_parameter_type raw = inr pt ->
  (exists s, __init__ parse_parameter_type raw minimum maximum ranges = inr s) <->
  ((exists r, ranges = Some r) /\ minimum = None /\ maximum = None) \/
  (ranges = None /\
   exists lo hi, minimum = Some lo /\ maximum = Some hi /\ lo < hi).
Proof.
  intros Hp. unfold __init__. split.
  - intros [s Hs].
    destruct ranges as [r | ]; destruct minimum as [lo | ]; destruct maximum as [hi | ];
      cbn in Hs; try discriminate Hs.
    + left. split; [ exists r; reflexivity | split; reflexivity ].
    + right. split; [ reflexivity | ].
      exists lo, hi. split; [ reflexivity | split; [ reflexivity | ] ].
      destruct (Rltb lo hi) eqn:E; [ apply Rltb_true_iff; exact E | discriminate Hs ].
  - intros [ [[r ->] [-> ->]] | [-> [lo [hi [-> [-> Hlt]]]]] ].
    + cbn. rewrite Hp. cbn. eexists. reflexivity.
    + apply Rltb_true_iff in Hlt. cbn. rewrite Hlt. cbn. rewrite Hp. cbn.
      eexists. reflexivity.
Qed.

(** A space made from [minimum] and [maximum] gives every component of
its parameter type the range [(minimum, maximum)]. *)
Theorem cubic_space_init_uniform_ranges
  (raw : RawType) (lo hi : R) (s : CubicParameterSpace) (k : string) (shape : list Z) :
  __init__ parse_parameter_type raw (Some lo) (Some hi) None = inr s ->
  lookup k (parameter_type s) = Some shape ->
  parse_parameter_type raw = inr (parameter_type s) /\
  lo < hi /\
  getitem (ranges s) k = inr (lo, hi).
Proof.
  unfold __init__. cbn. intros H Hk.
  destruct (Rltb lo hi) eqn:E; [ | discriminate H ].
  cbn in H.
  destruct (parse_parameter_type raw) as [e | pt] eqn:Hp; [ discriminate H | ].
  cbn in H. inversion H; subst s. clear H. cbn [parameter_type ranges] in *.
  split; [ reflexivity | ].
  split; [ apply Rltb_true_iff; exact E | ].
  unfold getitem. clear Hp.
  induction pt as [ | [k' shp] pt IH ]; cbn [lookup map fst] in *.
  - discriminate Hk.
  - destruct (String.eqb k' k); [ reflexivity | apply IH; exact Hk ].
Qed.

(** [contains] stops at the first component that is out of range: it
returns [False] there, whatever the later components are, even when the
space has no range for them. *)
Theorem cubic_space_contains_stops_at_first_failure
  (s : CubicParameterSpace) (mu : RawParameter) (p : ParameterValue)
  (k : string) (shape : list Z) (rest : ParameterType)
  (lo hi : R) (vals : list R) (shp : list Z) (x : R) :
  parameter_type s = (k, shape) :: rest ->
  parse_parameter_with mu (parameter_type s) = inr p ->
  lookup k (ranges s) = Some (lo, hi) ->
  lookup k p = Some (vals, shp) ->
  In x vals -> ~ (lo <= x <= hi) ->
  contains parse_parameter_with s mu = inr false.
Proof.
  intros Ht Hp Hr Hv Hx Hout.
  unfold contains, parse_parameter. rewrite Hp. cbn [bind].
  rewrite Ht. cbn [map fst contains_components].
  unfold getitem. rewrite Hr, Hv. cbn [bind fst snd].
  replace (forallb (fun x0 => Rleb lo x0) vals && forallb (fun x0 => Rleb x0 hi) vals)
    with false; [ reflexivity | ].
  symmetry. apply andb_false_iff.
  destruct (Rle_dec lo x) as [Hl | Hl].
  - right.
    destruct (forallb (fun x0 => Rleb x0 hi) vals) eqn:E; [ | reflexivity ].
    rewrite forallb_forall in E. specialize (E x Hx).
    apply Rleb_true_iff in E. exfalso. apply Hout. split; assumption.
  - left.
    destruct (forallb (fun x0 => Rleb lo x0) vals) eqn:E; [ | reflexivity ].
    rewrite forallb_forall in E. specialize (E x Hx).
    apply Rleb_true_iff in E. contradiction.
Qed.

(** A component of the parameter type for which the space has no range
makes [contains] raise [KeyError], once all components before it have
been found in range. *)
Theorem cubic_space_contains_missing_range
  (s : CubicParameterSpace) (mu : RawParameter) (p : ParameterValue)
  (k : string) (shape : list Z) (rest : ParameterType) :
  parameter_type s = (k, shape) :: rest ->
  parse_parameter_with mu (parameter_type s) = inr p ->
  lookup k (ranges s) = None ->
  contains parse_parameter_with s mu = inl (KeyError k).
Proof.
  intros Ht Hp Hr.
  unfold contains, parse_parameter. rewrite Hp. cbn [bind].
  rewrite Ht. cbn [map fst contains_components].
  unfold getitem. rewrite Hr. reflexivity.
Qed.

End CubicParameterSpaces.

Section UniformSampling.

Import ParameterSpace.

Local Open Scope R_scope.

Lemma traverse_inr {A B : Type} (f : A -> error + B) (xs : list A) (ys : list B) :
  traverse f xs = inr ys -> Forall2 (fun x y => f x = inr y) xs ys.
Proof.
  revert ys. induction xs as [ | x xs IH ]; intros ys H; cbn [traverse] in H.
  - inversion H. constructor.
  - destruct (f x) as [e | y] eqn:Ex; [ discriminate H | ].
    cbn [bind] in H.
    destruct (traverse f xs) as [e | ys'] eqn:Exs; [ discriminate H | ].
    cbn [bind] in H. inversion H; subst ys.
    constructor; [ exact Ex | apply IH; reflexivity ].
Qed.

Lemma Forall2_In_r {A B : Type} (P : A -> B -> Prop) (xs : list A) (ys : list B) (y : B) :
  Forall2 P xs ys -> In y ys -> exists x, In x xs /\ P x y.
Proof.
  induction 1 as [ | x0 y0 xs ys H0 H IH ]; intros Hy.
  - destruct Hy.
  - destruct Hy as [-> | Hy].
    + exists x0. split; [ left; reflexivity | exact H0 ].
    + destruct (IH Hy) as [x [Hx Hp]]. exists x. split; [ right; exact Hx | exact Hp ].
Qed.

(** All points of [np.linspace(start, stop, num)] lie between [start]
and [stop]. *)
Lemma linspace_in_range (start stop : R) (num : Z) :
  start <= stop ->
  Forall (fun x => start <= x <= stop) (linspace start stop num).
Proof.
  intros Hle. unfold linspace.
  destruct (num <=? 0)%Z eqn:E0; [ constructor | ].
  destruct (num =? 1)%Z eqn:E1; [ constructor; [ lra | constructor ] | ].
  apply Z.leb_gt in E0. apply Z.eqb_neq in E1.
  assert (Hn : 0 < IZR (num - 1)) by (apply IZR_lt; lia).
  apply Forall_app. split; [ | constructor; [ lra | constructor ] ].
  apply Forall_forall. intros x Hx.
  apply in_map_iff in Hx. destruct Hx as [i [<- Hi]].
  unfold Np.arange in Hi. apply in_map_iff in Hi. destruct Hi as [k [<- Hk]].
  apply in_seq in Hk.
  assert (H0 : 0 <= IZR (Z.of_nat k)) by (apply IZR_le; lia).
  assert (H1 : IZR (Z.of_nat k) <= IZR (num - 1)) by (apply IZR_le; lia).
  set (t := IZR (Z.of_nat k)) in *. set (n := IZR (num - 1)) in *.
  assert (Hs : 0 <= (stop - start) / n)
    by (apply Rmult_le_pos; [ lra | left; apply Rinv_0_lt_compat; exact Hn ]).
  assert (Hm : t * ((stop - start) / n) <= n * ((stop - start) / n))
    by (apply Rmult_le_compat_r; assumption).
  replace (n * ((stop - start) / n)) with (stop - start) in Hm by (field; lra).
  assert (Hp : 0 <= t * ((stop - start) / n)) by (apply Rmult_le_pos; assumption).
  lra.
Qed.

Lemma product_repeat_members {A : Type} (pool : list A) (r : nat) (t : list A) :
  In t (product_repeat pool r) -> Forall (fun x => In x pool) t.
Proof.
  revert t. induction r as [ | r IH ]; intros t Ht; cbn [product_repeat] in Ht.
  - destruct Ht as [<- | []]. constructor.
  - apply in_flat_map in Ht. destruct Ht as [x [Hx Ht]].
    apply in_map_iff in Ht. destruct Ht as [t' [<- Ht']].
    constructor; [ exact Hx | apply IH; exact Ht' ].
Qed.

Lemma product_members {A : Type} (pools : list (list A)) (i : list A) :
  In i (product pools) -> Forall2 (fun x pool => In x pool) i pools.
Proof.
  revert i. induction pools as [ | pool pools IH ]; intros i Hi; cbn [product] in Hi.
  - destruct Hi as [<- | []]. constructor.
  - apply in_flat_map in Hi. destruct Hi as [x [Hx Hi]].
    apply in_map_iff in Hi. destruct Hi as [i' [<- Hi']].
    constructor; [ exact Hx | apply IH; exact Hi' ].
Qed.

Variable rgs : list (string * (R * R)).

Lemma lookup_ordered (r : list (string * (R * R))) (k : string) (lo hi : R) :
  Forall (fun kr => fst (snd kr) <= snd (snd kr)) r ->
  lookup k r = Some (lo, hi) -> lo <= hi.
Proof.
  induction 1 as [ | [k' [l h]] r Hr Hrs IH ]; cbn [lookup]; intros H.
  - discriminate H.
  - destruct (String.eqb k' k); [ | apply IH; exact H ].
    inversion H; subst. exact Hr.
Qed.

Hypothesis rgs_ordered : Forall (fun kr => fst (snd kr) <= snd (snd kr)) rgs.

Lemma stage_linspaces (counts : list (string * Z)) (keys : list string)
  (linspaces : list (list R)) :
  traverse
    (fun k => bind (getitem rgs k) (fun r =>
              bind (getitem counts k) (fun c => inr (linspace (fst r) (snd r) c))))
    keys = inr linspaces ->
  Forall2 (within rgs) keys linspaces.
Proof.
  intros H. apply traverse_inr in H.
  eapply Forall2_impl; [ | exact H ].
  cbn beta. intros k ls Hk.
  unfold getitem in Hk.
  destruct (lookup k rgs) as [[lo hi] | ] eqn:Er; [ | discriminate Hk ].
  cbn [bind] in Hk.
  destruct (lookup k counts) as [c | ]; [ | discriminate Hk ].
  cbn [bind fst snd] in Hk. inversion Hk; subst ls.
  exists lo, hi. split; [ exact Er | ].
  apply linspace_in_range. apply (lookup_ordered rgs k); [ exact rgs_ordered | exact Er ].
Qed.

Lemma stage_iters (keys : list string) (linspaces : list (list R)) :
  Forall2 (within rgs) keys linspaces ->
  forall (shapes : list (list Z)) (iters : list (list (list R))),
    length shapes = length keys ->
    traverse
      (fun ls_sps => bind (shape_size (snd ls_sps)) (fun n =>
                     inr (product_repeat (fst ls_sps) (Z.to_nat (Z.max 1 n)))))
      (combine linspaces shapes) = inr iters ->
    Forall2 (fun k it => forall v, In v it -> within rgs k v) keys iters.
Proof.
  induction 1 as [ | k ls keys linspaces Hk Hks IH ]; intros shapes iters Hl H.
  - cbn in H. inversion H. constructor.
  - destruct shapes as [ | shp shapes ]; [ discriminate Hl | ].
    cbn [combine traverse fst snd] in H.
    destruct (shape_size shp) as [e | n]; [ discriminate H | ].
    cbn [bind] in H.
    destruct (traverse _ (combine linspaces shapes)) as [e | its] eqn:E;
      [ discriminate H | ].
    cbn [bind] in H. inversion H; subst iters.
    constructor.
    + intros v Hv. apply product_repeat_members in Hv.
      destruct Hk as [lo [hi [Hr Hin]]].
      exists lo, hi. split; [ exact Hr | ].
      rewrite Forall_forall in Hin.
      eapply Forall_impl; [ | exact Hv ]. cbn beta. intros x Hx. apply Hin, Hx.
    + apply (IH shapes); [ cbn in Hl; lia | exact E ].
Qed.

Lemma stage_product (keys : list string) (iters : list (list (list R))) :
  Forall2 (fun k it => forall v, In v it -> within rgs k v) keys iters ->
  forall i, In i (product iters) -> Forall2 (within rgs) keys i.
Proof.
  intros H i Hi. apply product_members in Hi.
  revert i Hi. induction H as [ | k it keys iters Hk Hks IH ]; intros i Hi.
  - inversion Hi. constructor.
  - inversion Hi as [ | v pool i' pools Hv Hi' ]; subst.
    constructor; [ apply Hk; exact Hv | apply IH; exact Hi' ].
Qed.

Lemma stage_parameter (keys : list string) (i : list (list R)) :
  Forall2 (within rgs) keys i ->
  forall (shapes : list (list Z)) (p : ParameterValue),
    length shapes = length keys ->
    traverse
      (fun kvs => bind (reshape (snd (fst kvs)) (snd kvs)) (fun a =>
                  inr (fst (fst kvs), a)))
      (combine (combine keys i) shapes) = inr p ->
    Forall (fun kv => within rgs (fst kv) (fst (snd kv))) p /\
    map (fun kv => (fst kv, snd (snd kv))) p = combine keys shapes.
Proof.
  induction 1 as [ | k v keys i Hk Hks IH ]; intros shapes p Hl H.
  - cbn in H. inversion H. split; [ constructor | reflexivity ].
  - destruct shapes as [ | shp shapes ]; [ discriminate Hl | ].
    cbn [combine traverse fst snd] in H.
    unfold reshape in H at 1.
    destruct (shape_size shp) as [e | n]; [ discriminate H | ].
    cbn [bind] in H.
    destruct (Z.of_nat (length v) =? n)%Z; [ | discriminate H ].
    cbn [bind] in H.
    destruct (traverse _ (combine (combine keys i) shapes)) as [e | p'] eqn:E;
      [ discriminate H | ].
    cbn [bind] in H. inversion H; subst p.
    destruct (IH shapes p') as [IH1 IH2]; [ cbn in Hl; lia | exact E | ].
    split.
    + constructor; [ exact Hk | exact IH1 ].
    + cbn [map fst snd combine]. rewrite IH2. reflexivity.
Qed.

End UniformSampling.

Section UniformSamples.

Import ParameterSpace.

Local Open Scope R_scope.

Lemma combine_fst_snd {A B : Type} (l : list (A * B)) :
  combine (map fst l) (map snd l) = l.
Proof.
  induction l as [ | [a b] l IH ]; cbn [map combine fst snd].
  - reflexivity.
  - rewrite IH. reflexivity.
Qed.

(** Every parameter that [sample_uniformly] yields belongs to the space:
it has the components and shapes of the parameter type, in its order,
and all entries of each component lie in the range of that component. *)
Theorem sample_uniformly_within_ranges
  (s : CubicParameterSpace) (counts : counts_arg)
  (samples : list ParameterValue) (p : ParameterValue) :
  Forall (fun kr => fst (snd kr) <= snd (snd kr)) (ranges s) ->
  sample_uniformly s counts = inr samples ->
  In p samples ->
  Forall (fun kv => within (ranges s) (fst kv) (fst (snd kv))) p /\
  map (fun kv => (fst kv, snd (snd kv))) p = parameter_type s.
Proof.
  intros Hord H Hp. unfold sample_uniformly in H.
  set (keys := map fst (parameter_type s)) in *.
  set (shapes := map snd (parameter_type s)) in *.
  assert (Hlen : length shapes = length keys)
    by (unfold shapes, keys; rewrite !length_map; reflexivity).
  match type of H with
  | bind (traverse ?f keys) _ = _ =>
      destruct (traverse f keys) as [e | linspaces] eqn:E1; [ discriminate H | ]
  end.
  cbn [bind] in H.
  match type of H with
  | bind (traverse ?f ?l) _ = _ =>
      destruct (traverse f l) as [e | iters] eqn:E2; [ discriminate H | ]
  end.
  cbn [bind] in H.
  pose proof (stage_linspaces (ranges s) Hord _ _ _ E1) as S1.
  pose proof (stage_iters (ranges s) _ _ S1 _ _ Hlen E2) as S2.
  apply traverse_inr in H.
  destruct (Forall2_In_r _ _ _ _ H Hp) as [i [Hi Hip]].
  pose proof (stage_product (ranges s) _ _ S2 i Hi) as S3.
  destruct (stage_parameter (ranges s) _ _ S3 _ _ Hlen Hip) as [S4 S5].
  split; [ exact S4 | ].
  rewrite S5. apply combine_fst_snd.
Qed.

End UniformSamples.

Lemma sample_uniformly_within_ranges_witness :
  exists samples p,
    ParameterSpace.sample_uniformly
      {| ParameterSpace.parameter_type := [("diffusion"%string, [2%Z])];
         ParameterSpace.ranges := [("diffusion"%string, (1, 3)%R)] |}
      (ParameterSpace.CountsNumber 2) = inr samples /\
    In p samples /\
    Forall (fun kv =>
              ParameterSpace.within [("diffusion"%string, (1, 3)%R)]
                (fst kv) (fst (snd kv))) p /\
    map (fun kv => (fst kv, snd (snd kv))) p = [("diffusion"%string, [2%Z])].
Proof.
  eexists; eexists.
  split; [ reflexivity | ].
  split; [ left; reflexivity | ].
  eapply (sample_uniformly_within_ranges
            {| ParameterSpace.parameter_type := [("diffusion"%string, [2%Z])];
               ParameterSpace.ranges := [("diffusion"%string, (1, 3)%R)] |}
            (ParameterSpace.CountsNumber 2)).
  - repeat constructor. cbn. lra.
  - reflexivity.
  - left. reflexivity.
Defined.

Section ParameterSpaceWitnesses.

Local Open Scope string_scope.
Local Open Scope R_scope.

Lemma cubic_space_init_accepts_witness :
  (exists s,
     ParameterSpace.__init__ (fun pt : ParameterSpace.ParameterType => inr pt)
       [("diffusion", [2%Z])] (Some 1) (Some 3) None = inr s) <->
  ((exists r, @None (list (string * (R * R))) = Some r) /\
   Some 1 = None /\ Some 3 = None) \/
  (@None (list (string * (R * R))) = None /\
   exists lo hi, Some 1 = Some lo /\ Some 3 = Some hi /\ lo < hi).
Proof.
  apply (cubic_space_init_accepts ParameterSpace.ParameterType
           (fun pt => inr pt) [("diffusion", [2%Z])] [("diffusion", [2%Z])]).
  reflexivity.
Defined.

Lemma cubic_space_init_uniform_ranges_witness :
  (fun pt : ParameterSpace.ParameterType => @inr ParameterSpace.error _ pt)
    [("diffusion", [2%Z]); ("rate", [])] =
  inr [("diffusion", [2%Z]); ("rate", [])] /\
  1 < 3 /\
  ParameterSpace.getitem [("diffusion", (1, 3)); ("rate", (1, 3))] "rate" = inr (1, 3).
Proof.
  apply (cubic_space_init_uniform_ranges ParameterSpace.ParameterType
           (fun pt => inr pt) [("diffusion", [2%Z]); ("rate", [])] 1 3
           {| ParameterSpace.parameter_type := [("diffusion", [2%Z]); ("rate", [])];
              ParameterSpace.ranges := [("diffusion", (1, 3)); ("rate", (1, 3))] |}
           "rate" []).
  - unfold ParameterSpace.__init__. cbn.
    replace (ParameterSpace.Rltb 1 3) with true
      by (symmetry; apply Rltb_true_iff; lra).
    reflexivity.
  - reflexivity.
Defined.

Lemma cubic_space_contains_stops_at_first_failure_witness :
  ParameterSpace.contains (fun (mu : ParameterSpace.ParameterValue) _ => inr mu)
    {| ParameterSpace.parameter_type := [("diffusion", [2%Z]); ("rate", [])];
       ParameterSpace.ranges := [("diffusion", (1, 3))] |}
    [("diffusion", ([2; 4], [2%Z])); ("rate", ([0], []))] = inr false.
Proof.
  apply (cubic_space_contains_stops_at_first_failure ParameterSpace.ParameterValue
           (fun mu _ => inr mu)
           {| ParameterSpace.parameter_type := [("diffusion", [2%Z]); ("rate", [])];
              ParameterSpace.ranges := [("diffusion", (1, 3))] |}
           [("diffusion", ([2; 4], [2%Z])); ("rate", ([0], []))]
           [("diffusion", ([2; 4], [2%Z])); ("rate", ([0], []))]
           "diffusion" [2%Z] [("rate", [])] 1 3 [2; 4] [2%Z] 4).
  - reflexivity.
  - reflexivity.
  - reflexivity.
  - reflexivity.
  - right. left. reflexivity.
  - lra.
Defined.

Lemma cubic_space_contains_missing_range_witness :
  ParameterSpace.contains (fun (mu : ParameterSpace.ParameterValue) _ => inr mu)
    {| ParameterSpace.parameter_type := [("rate", [])];
       ParameterSpace.ranges := [("diffusion", (1, 3))] |}
    [("rate", ([0], []))] = inl (ParameterSpace.KeyError "rate").
Proof.
  apply (cubic_space_contains_missing_range ParameterSpace.ParameterValue
           (fun mu _ => inr mu)
           {| ParameterSpace.parameter_type := [("rate", [])];
              ParameterSpace.ranges := [("diffusion", (1, 3))] |}
           [("rate", ([0], []))] [("rate", ([0], []))] "rate" [] []);
    reflexivity.
Defined.

End ParameterSpaceWitnesses.
